(** * CityGML MCP server: extraction pipeline and relevance scoring

    A shallow embedding of the schema extraction pipeline
    (dist/extractors/concepts.js, objects.js, attributes.js,
    relationships.js) and of the relevance score of the context builder
    (src/context/templates.ts), with the properties of the specification
    stated and settled against it.

    Conventions of the embedding.
    - A JavaScript string is a [string]; the model covers text whose code
      units are ASCII, which is where [toLowerCase] and the regular
      expression class [\W] are modelled.
    - A JavaScript number that the code only ever produces as an integer, or
      as a ratio of two array lengths, is an integer [Z] or a rational [Q];
      [NaN] (from [parseInt]) is explicit.
    - An XML document is a tree of element and text nodes; an element is
      named by its qualified name, and the schema files are assumed to bind
      the prefix [xs] to the XML Schema namespace, as the parent look-ups of
      the relationship extractor themselves require.
    - Mutable instance state ([this.conceptModel], [this.relationships]) is
      passed explicitly; a thrown exception is the left injection of a sum. *)

From Stdlib Require Import String Ascii List ZArith QArith Lia Bool.
From stdpp Require Import base option list gmap strings fin_maps.
Import ListNotations.

Local Open Scope string_scope.
Local Open Scope list_scope.

(** ** JavaScript built-ins used by the extractors *)

Module Js.

Definition charCode (c : ascii) : N := N_of_ascii c.

Definition isUpper (c : ascii) : bool :=
  ((65 <=? charCode c) && (charCode c <=? 90))%N.

Definition isLower (c : ascii) : bool :=
  ((97 <=? charCode c) && (charCode c <=? 122))%N.

Definition isDigit (c : ascii) : bool :=
  ((48 <=? charCode c) && (charCode c <=? 57))%N.

(** [\w] of a regular expression without the unicode flag: [A-Za-z0-9_]. *)
Definition isWordChar (c : ascii) : bool :=
  isUpper c || isLower c || isDigit c || (charCode c =? 95)%N.

Definition toLowerChar (c : ascii) : ascii :=
  if isUpper c then ascii_of_N (charCode c + 32) else c.

(** [s.toLowerCase()] *)
Fixpoint toLowerCase (s : string) : string :=
  match s with
  | EmptyString => EmptyString
  | String c s' => String (toLowerChar c) (toLowerCase s')
  end.

(** [s.startsWith(p)] *)
Fixpoint startsWith (s p : string) {struct p} : bool :=
  match p with
  | EmptyString => true
  | String a p' =>
      match s with
      | EmptyString => false
      | String b s' => Ascii.eqb a b && startsWith s' p'
      end
  end.

(** [s.includes(sub)]: [sub] occurs at some position of [s]. *)
Fixpoint includes (s sub : string) : bool :=
  startsWith s sub ||
  match s with
  | EmptyString => false
  | String _ s' => includes s' sub
  end.

(** [s.endsWith(suf)]: some suffix of [s] is [suf]. *)
Fixpoint endsWith (s suf : string) : bool :=
  String.eqb s suf ||
  match s with
  | EmptyString => false
  | String _ s' => endsWith s' suf
  end.

(** [arr.includes(x)] on an array of strings. *)
Definition arr_includes (arr : list string) (x : string) : bool :=
  existsb (String.eqb x) arr.

(** [arr.some(p)] *)
Definition some {A} (p : A -> bool) (arr : list A) : bool := existsb p arr.

(** Truthiness of a string: every string but the empty one. *)
Definition truthy (s : string) : bool := negb (String.eqb s "").

(** [a || b] on strings. *)
Definition or_else (a b : string) : string := if truthy a then a else b.

(** [s.split(sep)] for a non-empty separator string: the pieces between the
    successive, non-overlapping occurrences of [sep], scanning from the left.
    [skip] counts the characters of a matched separator still to be passed
    over, [cur] is the piece being read. *)
Fixpoint split_go (sep : string) (skip : nat) (cur : string) (s : string)
  : list string :=
  match s with
  | EmptyString => [cur]
  | String c s' =>
      match skip with
      | S k => split_go sep k cur s'
      | O =>
          if startsWith s sep
          then cur :: split_go sep (String.length sep - 1) "" s'
          else split_go sep 0 (cur +:+ String c "") s'
      end
  end.

Definition split (s sep : string) : list string := split_go sep 0 "" s.

(** [s.split(/\W+/)]: the pieces between the maximal runs of non-word
    characters.  A separator run at the very start or end of the string
    leaves an empty piece there, and the empty string splits into one
    empty piece.  [inSep] tells that the previous character belonged to a
    separator run. *)
Fixpoint splitW_go (inSep : bool) (cur : string) (s : string) : list string :=
  match s with
  | EmptyString => [cur]
  | String c s' =>
      if isWordChar c then splitW_go false (cur +:+ String c "") s'
      else if inSep then splitW_go true "" s'
      else cur :: splitW_go true "" s'
  end.

Definition splitW (s : string) : list string := splitW_go false "" s.

(** [arr.pop()] read as an expression: the last element, if any. *)
Definition pop (arr : list string) : option string := List.last (map Some arr) None.

(** [s.replace(pat, "")] with a string pattern: removes the first
    occurrence of [pat]. *)
Fixpoint remove_first (s pat : string) : string :=
  if startsWith s pat
  then String.substring (String.length pat) (String.length s - String.length pat) s
  else match s with
       | EmptyString => EmptyString
       | String c s' => String c (remove_first s' pat)
       end.

(** The values [parseInt] returns. *)
Inductive JsInt : Type :=
| NaN : JsInt
| Int (z : Z) : JsInt.

(** White space skipped by [parseInt] (the ASCII part of it). *)
Definition isSpace (c : ascii) : bool :=
  ((charCode c =? 32) || ((9 <=? charCode c) && (charCode c <=? 13)))%N.

Fixpoint skipSpaces (s : string) : string :=
  match s with
  | String c s' => if isSpace c then skipSpaces s' else s
  | EmptyString => EmptyString
  end.

Definition digitValue (c : ascii) : Z := Z.of_N (charCode c) - 48.

(** Reads the longest prefix of decimal digits; [acc] is [None] until a
    digit has been read. *)
Fixpoint readDigits (acc : option Z) (s : string) : option Z :=
  match s with
  | String c s' =>
      if isDigit c
      then readDigits (Some (10 * default 0%Z acc + digitValue c)%Z) s'
      else acc
  | EmptyString => acc
  end.

(** [parseInt(s, 10)] *)
Definition parseInt10 (s : string) : JsInt :=
  let s := skipSpaces s in
  let '(neg, body) :=
    match s with
    | String "-" r => (true, r)
    | String "+" r => (false, r)
    | _ => (false, s)
    end in
  match readDigits None body with
  | None => NaN
  | Some n => Int (if neg : bool then - n else n)%Z
  end.

Definition hexValue (c : ascii) : option Z :=
  if isDigit c then Some (digitValue c)
  else if ((97 <=? charCode c) && (charCode c <=? 102))%N
       then Some (Z.of_N (charCode c) - 87)%Z
  else if ((65 <=? charCode c) && (charCode c <=? 70))%N
       then Some (Z.of_N (charCode c) - 55)%Z
  else None.

Fixpoint readHex (acc : option Z) (s : string) : option Z :=
  match s with
  | String c s' =>
      match hexValue c with
      | Some d => readHex (Some (16 * default 0%Z acc + d)%Z) s'
      | None => acc
      end
  | EmptyString => acc
  end.

(** [parseInt(s)] without a radix: as radix 10, except that a [0x] or [0X]
    prefix after the sign selects radix 16. *)
Definition parseInt (s : string) : JsInt :=
  let s := skipSpaces s in
  let '(neg, body) :=
    match s with
    | String "-" r => (true, r)
    | String "+" r => (false, r)
    | _ => (false, s)
    end in
  let digits :=
    match body with
    | String "0" (String "x" r) => readHex None r
    | String "0" (String "X" r) => readHex None r
    | _ => readDigits None body
    end in
  match digits with
  | None => NaN
  | Some n => Int (if neg : bool then - n else n)%Z
  end.

(** [x > 1] for a [parseInt] result; comparisons with [NaN] are false. *)
Definition gt1 (x : JsInt) : bool :=
  match x with
  | NaN => false
  | Int z => (1 <? z)%Z
  end.

End Js.

(** ** Context builder: relevance of two strings (templates.ts) *)

Module Context.

(** [ContextBuilder.calculateRelevance]. The literals [1.0], [0.8] and [0]
    and the quotient of two array lengths are taken as rationals. *)
Definition calculateRelevance (str1 str2 : string) : Q :=
  let s1 := Js.toLowerCase str1 in
  let s2 := Js.toLowerCase str2 in
  if String.eqb s1 s2 then 1
  else if Js.includes s1 s2 || Js.includes s2 s1 then 8 # 10
  else
    let words1 := List.filter (fun w => Nat.ltb 1 (String.length w)) (Js.splitW s1) in
    let words2 := List.filter (fun w => Nat.ltb 1 (String.length w)) (Js.splitW s2) in
    let commonWords := List.filter (fun w => Js.arr_includes words2 w) words1 in
    if Nat.eqb (length words1) 0 || Nat.eqb (length words2) 0 then 0
    else
      inject_Z (Z.of_nat (length commonWords)) /
      inject_Z (Z.of_nat (length words1) + Z.of_nat (length words2)
                - Z.of_nat (length commonWords)).

End Context.

(** ** XML documents as the extractors see them *)

Module Dom.

#[local] Unset Elimination Schemes.
Inductive Node : Type :=
| Element (nodeName : string) (attributes : list (string * string))
          (childNodes : list Node)
| Text (data : string).
#[local] Set Elimination Schemes.

(** A parsed document: the children of the document node. *)
Record Document : Type := { childNodes : list Node }.

(** An element together with its ancestors, nearest first: what the
    [parentNode] chain of the element gives.  The document node itself is
    left out of the chain; it is no element and never matches a look-up. *)
Definition Located : Type := (list Node * Node)%type.

Definition nodeName (n : Node) : string :=
  match n with
  | Element nm _ _ => nm
  | Text _ => "#text"
  end.

Definition hasAttribute (n : Node) (name : string) : bool :=
  match n with
  | Element _ attrs _ => existsb (fun kv => String.eqb (fst kv) name) attrs
  | Text _ => false
  end.

(** [n.getAttribute(name)]; xmldom answers the empty string for an
    attribute that is not there. *)
Definition getAttribute (n : Node) (name : string) : string :=
  match n with
  | Element _ attrs _ =>
      match find (fun kv => String.eqb (fst kv) name) attrs with
      | Some kv => snd kv
      | None => ""
      end
  | Text _ => ""
  end.

(** The elements of the subtree rooted at [n], [n] included, in document
    order, each with its ancestors. *)
Fixpoint subtree (anc : list Node) (n : Node) : list Located :=
  match n with
  | Text _ => []
  | Element _ _ cs => (anc, n) :: flat_map (subtree (n :: anc)) cs
  end.

(** The elements strictly below [n]. *)
Definition descendants (anc : list Node) (n : Node) : list Located :=
  match n with
  | Text _ => []
  | Element _ _ cs => flat_map (subtree (n :: anc)) cs
  end.

Definition docElements (d : Document) : list Located :=
  flat_map (subtree []) (childNodes d).

Fixpoint textContent (n : Node) : string :=
  match n with
  | Text d => d
  | Element _ _ cs => String.concat "" (map textContent cs)
  end.

Definition named (qname : string) (l : Located) : bool :=
  String.eqb (nodeName (snd l)) qname.

(** XPath [//qname] evaluated on the document. *)
Definition selectDoc (qname : string) (d : Document) : list Located :=
  List.filter (named qname) (docElements d).

(** XPath [.//qname] evaluated on an element. *)
Definition selectIn (qname : string) (l : Located) : list Located :=
  List.filter (named qname) (descendants (fst l) (snd l)).

End Dom.

(** ** The conceptual model (types/conceptModel.ts) *)

Module Attribute.
Record t : Type := {
  name : string;
  description : option string;
  type : string;
  cardinality : string;
  isNillable : option bool;
  defaultValue : option string
}.
End Attribute.

Module Association.
Record t : Type := {
  name : string;
  description : option string;
  target : string;
  cardinality : string;
  role : option string
}.
End Association.

Module Constraint.
Record t : Type := {
  name : string;
  description : string;
  expression : option string
}.
End Constraint.

Module Class.
Record t : Type := {
  name : string;
  description : string;
  module : string;
  superClasses : option (list string);
  attributes : list Attribute.t;
  associations : option (list Association.t);
  constraints : option (list Constraint.t);
  isAbstract : option bool
}.
End Class.

Module CodelistValue.
Record t : Type := { code : string; description : option string }.
End CodelistValue.

Module Codelist.
Record t : Type := {
  name : string;
  description : string;
  values : list CodelistValue.t
}.
End Codelist.

Module EnumerationValue.
Record t : Type := { name : string; description : option string }.
End EnumerationValue.

Module Enumeration.
Record t : Type := {
  name : string;
  description : string;
  values : list EnumerationValue.t
}.
End Enumeration.

Module Module_.
Record t : Type := {
  name : string;
  namespace : string;
  description : string;
  classes : list Class.t;
  codelists : option (list Codelist.t);
  enumerations : option (list Enumeration.t);
  dependencies : option (list string)
}.
End Module_.

Module ConceptualModel.
Record t : Type := {
  version : string;
  modules : list Module_.t
}.
End ConceptualModel.

(** ** What the extractors take from Node.js

    [path.join] and [path.basename] are left abstract; a file system answers
    a path with the parsed document, or with nothing when reading or parsing
    the file throws. *)

Class NodePath : Type := {
  path_join : string -> string -> string;
  path_basename : string -> string -> string
}.

Definition FileSystem : Type := string -> option Dom.Document.

(** A thrown exception; the payload is the path whose file failed. *)
Inductive Exception : Type :=
| FileError (path : string)
| NotConfigured (what : string).

Definition Result (A : Type) : Type := (Exception + A)%type.

(** ** Concept extractor (dist/extractors/concepts.js) *)

Module Concepts.

Section Extractor.
Context {np : NodePath}.

(** Instance state of [ConceptExtractor]. *)
Record ConceptExtractor : Type := {
  xsdBasePath : string;
  conceptModel : ConceptualModel.t
}.

(** [new ConceptExtractor(xsdBasePath)] *)
Definition new (basePath : string) : ConceptExtractor :=
  {| xsdBasePath := basePath;
     conceptModel := {| ConceptualModel.version := "3.0.0";
                        ConceptualModel.modules := [] |} |}.

(** [x.split(':').pop() || x] *)
Definition stripPrefix (x : string) : string :=
  Js.or_else (default "" (Js.pop (Js.split x ":"))) x.

(** [textContent || ''] of the first [xs:documentation] found in the first
    [xs:annotation] of [annotations]. *)
Definition firstDocumentation (annotations : list Dom.Located) : string :=
  match annotations with
  | annotation :: _ =>
      match Dom.selectIn "xs:documentation" annotation with
      | documentation :: _ => Dom.textContent (snd documentation)
      | [] => ""
      end
  | [] => ""
  end.

Definition extractDocumentation (element : Dom.Located) : string :=
  firstDocumentation (Dom.selectIn "xs:annotation" element).

Definition extractModuleDescription (doc : Dom.Document) : string :=
  firstDocumentation (Dom.selectDoc "xs:annotation" doc).

(** [`${minOccurs}..${maxOccurs}`], with [*] for [unbounded]. *)
Definition occursCardinality (element : Dom.Located) : string :=
  let minOccurs := Js.or_else (Dom.getAttribute (snd element) "minOccurs") "1" in
  let maxOccurs := Js.or_else (Dom.getAttribute (snd element) "maxOccurs") "1" in
  if String.eqb maxOccurs "unbounded"
  then minOccurs +:+ "..*"
  else minOccurs +:+ ".." +:+ maxOccurs.

Definition attributeOfElement (element : Dom.Located) : list Attribute.t :=
  let name := Dom.getAttribute (snd element) "name" in
  let type := Dom.getAttribute (snd element) "type" in
  if Js.truthy name && Js.truthy type
  then [ {| Attribute.name := name;
            Attribute.type := stripPrefix type;
            Attribute.cardinality := occursCardinality element;
            Attribute.isNillable :=
              Some (String.eqb (Dom.getAttribute (snd element) "nillable") "true");
            Attribute.description := Some (extractDocumentation element);
            Attribute.defaultValue := None |} ]
  else [].

Definition attributeOfAttr (attrElement : Dom.Located) : list Attribute.t :=
  let name := Dom.getAttribute (snd attrElement) "name" in
  let type := Dom.getAttribute (snd attrElement) "type" in
  if Js.truthy name && Js.truthy type
  then [ {| Attribute.name := name;
            Attribute.type := stripPrefix type;
            Attribute.cardinality :=
              if String.eqb (Dom.getAttribute (snd attrElement) "use") "required"
              then "1..1" else "0..1";
            Attribute.isNillable := Some false;
            Attribute.description := Some (extractDocumentation attrElement);
            Attribute.defaultValue := None |} ]
  else [].

Definition extractAttributes (complexType : Dom.Located) : list Attribute.t :=
  flat_map attributeOfElement (Dom.selectIn "xs:element" complexType) ++
  flat_map attributeOfAttr (Dom.selectIn "xs:attribute" complexType).

Definition associationOfRef (refElement : Dom.Located) : list Association.t :=
  let ref := Dom.getAttribute (snd refElement) "ref" in
  if Js.truthy ref
  then
    let refName := stripPrefix ref in
    [ {| Association.name := refName;
         Association.target := refName;
         Association.cardinality := occursCardinality refElement;
         Association.role := Some refName;
         Association.description := Some (extractDocumentation refElement) |} ]
  else [].

Definition extractAssociations (complexType : Dom.Located) : list Association.t :=
  flat_map associationOfRef
    (List.filter (fun e => Dom.hasAttribute (snd e) "ref")
       (Dom.selectIn "xs:element" complexType)).

Definition constraintOfDocumentation (doc : Dom.Located) : list Constraint.t :=
  let content := Dom.textContent (snd doc) in
  if Js.includes content "constraint" || Js.includes content "restriction" ||
     Js.includes content "must" || Js.includes content "should"
  then [ {| Constraint.name := "Constraint";
            Constraint.description := content;
            Constraint.expression := Some "" |} ]
  else [].

Definition extractConstraints (complexType : Dom.Located) : list Constraint.t :=
  flat_map
    (fun annotation =>
       flat_map constraintOfDocumentation
         (Dom.selectIn "xs:documentation" annotation))
    (Dom.selectIn "xs:annotation" complexType).

Definition superClassOfExtension (extension : Dom.Located) : list string :=
  let base := Dom.getAttribute (snd extension) "base" in
  if Js.truthy base then [stripPrefix base] else [].

Definition extractSuperClasses (complexType : Dom.Located) : list string :=
  flat_map superClassOfExtension (Dom.selectIn "xs:extension" complexType).

Definition classOfComplexType (moduleName : string) (complexType : Dom.Located)
  : list Class.t :=
  let name := Dom.getAttribute (snd complexType) "name" in
  if Js.truthy name
  then [ {| Class.name := name;
            Class.description := extractDocumentation complexType;
            Class.module := moduleName;
            Class.isAbstract :=
              Some (String.eqb (Dom.getAttribute (snd complexType) "abstract") "true");
            Class.attributes := extractAttributes complexType;
            Class.associations := Some (extractAssociations complexType);
            Class.constraints := Some (extractConstraints complexType);
            Class.superClasses := Some (extractSuperClasses complexType) |} ]
  else [].

Definition extractClasses (doc : Dom.Document) (moduleName : string)
  : list Class.t :=
  flat_map (classOfComplexType moduleName) (Dom.selectDoc "xs:complexType" doc).

(** XPath predicate [.//xs:enumeration]. *)
Definition hasEnumeration (simpleType : Dom.Located) : bool :=
  negb (Nat.eqb (length (Dom.selectIn "xs:enumeration" simpleType)) 0).

(** XPath [//xs:simpleType[.//xs:enumeration]] *)
Definition enumeratedSimpleTypes (doc : Dom.Document) : list Dom.Located :=
  List.filter hasEnumeration (Dom.selectDoc "xs:simpleType" doc).

Definition codelistOfSimpleType (simpleType : Dom.Located) : list Codelist.t :=
  let name := Dom.getAttribute (snd simpleType) "name" in
  if Js.truthy name && negb (Js.endsWith name "EnumBase")
  then [ {| Codelist.name := name;
            Codelist.description := extractDocumentation simpleType;
            Codelist.values :=
              map (fun value =>
                     {| CodelistValue.code :=
                          Js.or_else (Dom.getAttribute (snd value) "value") "";
                        CodelistValue.description :=
                          Some (extractDocumentation value) |})
                  (Dom.selectIn "xs:enumeration" simpleType) |} ]
  else [].

Definition extractCodelists (doc : Dom.Document) (moduleName : string)
  : list Codelist.t :=
  flat_map codelistOfSimpleType (enumeratedSimpleTypes doc).

Definition enumerationOfSimpleType (simpleType : Dom.Located)
  : list Enumeration.t :=
  let name := Dom.getAttribute (snd simpleType) "name" in
  if Js.truthy name
  then [ {| Enumeration.name := name;
            Enumeration.description := extractDocumentation simpleType;
            Enumeration.values :=
              map (fun value =>
                     {| EnumerationValue.name :=
                          Js.or_else (Dom.getAttribute (snd value) "value") "";
                        EnumerationValue.description :=
                          Some (extractDocumentation value) |})
                  (Dom.selectIn "xs:enumeration" simpleType) |} ]
  else [].

(** The XPath of [extractEnumerations] is
    [//xs:simpleType[.//xs:enumeration and contains(@name, "EnumBase")]]. *)
Definition extractEnumerations (doc : Dom.Document) (moduleName : string)
  : list Enumeration.t :=
  flat_map enumerationOfSimpleType
    (List.filter
       (fun st => Js.includes (Dom.getAttribute (snd st) "name") "EnumBase")
       (enumeratedSimpleTypes doc)).

Definition dependencyOfImport (importEl : Dom.Located) : list string :=
  let schemaLocation := Dom.getAttribute (snd importEl) "schemaLocation" in
  if Js.truthy schemaLocation
  then [path_basename schemaLocation ".xsd"]
  else [].

Definition extractDependencies (doc : Dom.Document) : list string :=
  flat_map dependencyOfImport (Dom.selectDoc "xs:import" doc).

(** [this.conceptModel.modules.push(module)] *)
Definition pushModule (this : ConceptExtractor) (m : Module_.t)
  : ConceptExtractor :=
  {| xsdBasePath := xsdBasePath this;
     conceptModel :=
       {| ConceptualModel.version := ConceptualModel.version (conceptModel this);
          ConceptualModel.modules :=
            ConceptualModel.modules (conceptModel this) ++ [m] |} |}.

(** The module record [processModuleFile] builds from a parsed file. *)
Definition moduleOfDocument (moduleName : string) (schemaElement : Dom.Located)
  (moduleXsdDoc : Dom.Document) : Module_.t :=
  {| Module_.name := moduleName;
     Module_.namespace :=
       Js.or_else (Dom.getAttribute (snd schemaElement) "targetNamespace") "";
     Module_.description := extractModuleDescription moduleXsdDoc;
     Module_.classes := extractClasses moduleXsdDoc moduleName;
     Module_.codelists := Some (extractCodelists moduleXsdDoc moduleName);
     Module_.enumerations := Some (extractEnumerations moduleXsdDoc moduleName);
     Module_.dependencies := Some (extractDependencies moduleXsdDoc) |}.

(** [processModuleFile]: the whole body sits in a [try] whose [catch] only
    logs, so a file that cannot be read or parsed leaves the state as it
    was; so does a file without an [xs:schema] element. *)
Definition processModuleFile (fs : FileSystem) (this : ConceptExtractor)
  (moduleName schemaLocation : string) : ConceptExtractor :=
  match fs (path_join (xsdBasePath this) schemaLocation) with
  | None => this
  | Some moduleXsdDoc =>
      match Dom.selectDoc "xs:schema" moduleXsdDoc with
      | [] => this
      | schemaElement :: _ =>
          pushModule this (moduleOfDocument moduleName schemaElement moduleXsdDoc)
      end
  end.

(** One turn of the loop over the imports of the root schema. *)
Definition processImport (fs : FileSystem) (this : ConceptExtractor)
  (importEl : Dom.Located) : ConceptExtractor :=
  let schemaLocation := Dom.getAttribute (snd importEl) "schemaLocation" in
  if Js.truthy schemaLocation
  then processModuleFile fs this (path_basename schemaLocation ".xsd") schemaLocation
  else this.

(** [extractAllModules]: the result is the thrown exception or the returned
    model, which is the model held by the instance; the second component is
    the instance afterwards. *)
Definition extractAllModules (fs : FileSystem) (this : ConceptExtractor)
  : Result ConceptualModel.t * ConceptExtractor :=
  let cityGmlXsdPath := path_join (xsdBasePath this) "CityGML.xsd" in
  match fs cityGmlXsdPath with
  | None => (inl (FileError cityGmlXsdPath), this)
  | Some mainXsdDoc =>
      let this' :=
        fold_left (processImport fs) (Dom.selectDoc "xs:import" mainXsdDoc) this in
      (inr (conceptModel this'), this')
  end.

End Extractor.

End Concepts.

(** ** A JavaScript [Map] with string keys, in insertion order *)

Module JsMap.

Definition t (V : Type) : Type := list (string * V).

(** [m.set(k, v)]: a key already present keeps its place and takes the new
    value; a new key goes to the end. *)
Fixpoint set {V} (m : t V) (k : string) (v : V) : t V :=
  match m with
  | [] => [(k, v)]
  | (k', v') :: m' =>
      if String.eqb k' k then (k, v) :: m' else (k', v') :: set m' k v
  end.

(** [m.get(k)] *)
Fixpoint get {V} (m : t V) (k : string) : option V :=
  match m with
  | [] => None
  | (k', v') :: m' => if String.eqb k' k then Some v' else get m' k
  end.

Definition keys {V} (m : t V) : list string := map fst m.

(** [src.forEach((v, k) => dst.set(k, v))] *)
Definition setAll {V} (dst src : t V) : t V :=
  fold_left (fun acc kv => set acc (fst kv) (snd kv)) src dst.

End JsMap.

(** ** Object classifier (dist/extractors/objects.js) *)

Module Objects.

Record GeometryProperty : Type := {
  gp_name : string;
  gp_type : string;
  gp_cardinality : string;
  gp_role : option string
}.

Record LodAttribute : Type := {
  la_name : string;
  la_level : Z;
  la_type : string;
  la_role : option string
}.

Record LodInfo : Type := {
  maxLod : Z;
  minLod : Z;
  lodAttributes : list LodAttribute
}.

Record ThematicAttribute : Type := {
  ta_name : string;
  ta_type : string;
  ta_cardinality : string
}.

Record CityObject : Type := {
  name : string;
  module : string;
  isAbstract : bool;
  superClasses : list string;
  attributes : list Attribute.t;
  associations : list Association.t;
  geometryProperties : list GeometryProperty;
  lodInfo : LodInfo;
  thematicAttributes : list ThematicAttribute;
  children : option (list string)
}.

(** Instance state of [ObjectExtractor]; the two pattern tables are set by
    the constructor and never written again. *)
Record ObjectExtractor : Type := {
  conceptualModel : option ConceptualModel.t
}.

Definition cityObjectModules : list string :=
  ["building"; "bridge"; "transportation"; "vegetation"; "waterBody";
   "landUse"; "cityFurniture"; "relief"; "tunnel"].

Definition geometryClassPatterns : list string :=
  ["Geometry"; "Solid"; "Surface"; "Curve"; "Point"; "MultiSurface";
   "CompositeSurface"; "MultiCurve"; "CompositeCurve"; "MultiPoint"].

(** The four names tested on every superclass in [isCityObjectClass]. *)
Definition superClassMarkers : list string :=
  ["AbstractCityObject"; "AbstractFeature"; "AbstractSpace";
   "AbstractOccupiedSpace"].

Definition cityObjectNamePatterns : list string :=
  ["Building"; "Bridge"; "Road"; "Railway"; "Square"; "Track";
   "Plant"; "SolitaryVegetationObject"; "PlantCover";
   "WaterBody"; "WaterSurface"; "LandUse"; "CityFurniture";
   "ReliefFeature"; "Tunnel"].

Definition isMarkedSuperClass (superClass : string) : bool :=
  Js.includes superClass "AbstractCityObject" ||
  Js.includes superClass "AbstractFeature" ||
  Js.includes superClass "AbstractSpace" ||
  Js.includes superClass "AbstractOccupiedSpace".

Definition isCityObjectClass (classInfo : Class.t) : bool :=
  match Class.superClasses classInfo with
  | Some supers => existsb isMarkedSuperClass supers
  | None => false
  end
  || existsb (fun pattern => Js.includes (Class.name classInfo) pattern)
       cityObjectNamePatterns.

Definition isGeometryType (type : string) : bool :=
  Js.some (fun pattern => Js.includes type pattern) geometryClassPatterns.

Definition extractGeometryProperties (classInfo : Class.t)
  : list GeometryProperty :=
  flat_map
    (fun attribute =>
       if isGeometryType (Attribute.type attribute)
       then [ {| gp_name := Attribute.name attribute;
                 gp_type := Attribute.type attribute;
                 gp_cardinality := Attribute.cardinality attribute;
                 gp_role := None |} ]
       else [])
    (Class.attributes classInfo)
  ++
  flat_map
    (fun association =>
       if isGeometryType (Association.target association)
       then [ {| gp_name := Association.name association;
                 gp_type := Association.target association;
                 gp_cardinality := Association.cardinality association;
                 gp_role := Association.role association |} ]
       else [])
    (default [] (Class.associations classInfo)).

(** The digit of a match of [lod[0-9]] at the head of [s]; with [ci] the
    letters match in either case (flag [i]). *)
Definition lodAt (ci : bool) (s : string) : option ascii :=
  match s with
  | String a (String b (String c (String d _))) =>
      let fold x := if ci then Js.toLowerChar x else x in
      if Ascii.eqb (fold a) "l" && Ascii.eqb (fold b) "o" &&
         Ascii.eqb (fold c) "d" && Js.isDigit d
      then Some d else None
  | _ => None
  end.

(** The digit of the leftmost match of [lod[0-9]] in [s]. *)
Fixpoint findLod (ci : bool) (s : string) : option ascii :=
  match lodAt ci s with
  | Some d => Some d
  | None =>
      match s with
      | String _ s' => findLod ci s'
      | EmptyString => None
      end
  end.

(** [name.match(/lod[0-9]/) || name.includes('LOD')] *)
Definition hasLodName (name : string) : bool :=
  match findLod false name with
  | Some _ => true
  | None => Js.includes name "LOD"
  end.

Definition extractLodLevel (name : string) : Z :=
  match findLod true name with
  | Some d => Js.digitValue d
  | None => (-1)%Z
  end.

(** One turn of either loop of [extractLodInfo]. *)
Definition noteLod (name type : string) (role : option string)
  (lodInfo : LodInfo) : LodInfo :=
  if hasLodName name
  then
    let lodLevel := extractLodLevel name in
    if (-1 <? lodLevel)%Z
    then
      {| maxLod := if (maxLod lodInfo <? lodLevel)%Z then lodLevel
                   else maxLod lodInfo;
         minLod := if (minLod lodInfo =? 0)%Z || (lodLevel <? minLod lodInfo)%Z
                   then lodLevel else minLod lodInfo;
         lodAttributes :=
           lodAttributes lodInfo ++
           [ {| la_name := name; la_level := lodLevel; la_type := type;
                la_role := role |} ] |}
    else lodInfo
  else lodInfo.

Definition extractLodInfo (classInfo : Class.t) : LodInfo :=
  let afterAttributes :=
    fold_left
      (fun lodInfo attribute =>
         noteLod (Attribute.name attribute) (Attribute.type attribute) None lodInfo)
      (Class.attributes classInfo)
      {| maxLod := 0; minLod := 0; lodAttributes := [] |} in
  fold_left
    (fun lodInfo association =>
       noteLod (Association.name association) (Association.target association)
         (Association.role association) lodInfo)
    (default [] (Class.associations classInfo))
    afterAttributes.

Definition extractThematicAttributes (classInfo : Class.t)
  : list ThematicAttribute :=
  flat_map
    (fun attribute =>
       if negb (isGeometryType (Attribute.type attribute)) &&
          negb (hasLodName (Attribute.name attribute))
       then [ {| ta_name := Attribute.name attribute;
                 ta_type := Attribute.type attribute;
                 ta_cardinality := Attribute.cardinality attribute |} ]
       else [])
    (Class.attributes classInfo).

(** The object literal built for a class that passes [isCityObjectClass]. *)
Definition cityObjectOfClass (module : Module_.t) (classInfo : Class.t)
  : CityObject :=
  {| name := Class.name classInfo;
     module := Module_.name module;
     isAbstract := match Class.isAbstract classInfo with
                   | Some true => true
                   | _ => false
                   end;
     superClasses := default [] (Class.superClasses classInfo);
     attributes := Class.attributes classInfo;
     associations := default [] (Class.associations classInfo);
     geometryProperties := extractGeometryProperties classInfo;
     lodInfo := extractLodInfo classInfo;
     thematicAttributes := extractThematicAttributes classInfo;
     children := None |}.

Definition extractCityObjectsFromModule (module : Module_.t)
  : JsMap.t CityObject :=
  fold_left
    (fun objects classInfo =>
       if isCityObjectClass classInfo
       then JsMap.set objects (Class.name classInfo)
              (cityObjectOfClass module classInfo)
       else objects)
    (Module_.classes module) [].

(** [if (!object.children) object.children = []; object.children.push(c)] *)
Definition pushChild (object : CityObject) (childName : string) : CityObject :=
  {| name := name object;
     module := module object;
     isAbstract := isAbstract object;
     superClasses := superClasses object;
     attributes := attributes object;
     associations := associations object;
     geometryProperties := geometryProperties object;
     lodInfo := lodInfo object;
     thematicAttributes := thematicAttributes object;
     children := Some (default [] (children object) ++ [childName]) |}.

(** [buildObjectHierarchy] walks the entries of the map twice over and
    mutates the objects the map holds through their references.  Each key
    holds an object of its own (made by its own object literal in
    [extractCityObjectsFromModule]), so an object is identified by the key it
    sits under: reading [potentialChild] or [object] is a look-up in the map
    as it is at that moment, and [object.children.push(..)] is a write to the
    map under [objectName].  The loops add no key, so the names walked are
    the keys at loop entry. *)
Definition linkChild (objectName : string) (objects : JsMap.t CityObject)
  (potentialChildName : string) : JsMap.t CityObject :=
  match JsMap.get objects potentialChildName, JsMap.get objects objectName with
  | Some potentialChild, Some object =>
      if Js.arr_includes (superClasses potentialChild) objectName
      then JsMap.set objects objectName (pushChild object potentialChildName)
      else objects
  | _, _ => objects
  end.

Definition buildObjectHierarchy (objects : JsMap.t CityObject)
  : JsMap.t CityObject :=
  let names := JsMap.keys objects in
  fold_left
    (fun objects objectName => fold_left (linkChild objectName) names objects)
    names objects.

(** The map filled by the first loop of [extractAllCityObjects]. *)
Definition collectCityObjects (model : ConceptualModel.t) : JsMap.t CityObject :=
  fold_left
    (fun cityObjects module =>
       if Js.arr_includes cityObjectModules (Module_.name module)
       then JsMap.setAll cityObjects (extractCityObjectsFromModule module)
       else cityObjects)
    (ConceptualModel.modules model) [].

Definition extractAllCityObjects (this : ObjectExtractor)
  : Result (JsMap.t CityObject) :=
  match conceptualModel this with
  | None => inl (NotConfigured "conceptualModel")
  | Some model => inr (buildObjectHierarchy (collectCityObjects model))
  end.

(** [classifyObjectsByModule]: the result object, keyed by module name.
    [objectsByModule[module.name] = []] followed by the pushes of the inner
    loop leaves the names of the city-object classes of the module under its
    name; a later module of the same name overwrites the entry. *)
Definition classifyObjectsByModule (this : ObjectExtractor)
  : Result (JsMap.t (list string)) :=
  match conceptualModel this with
  | None => inl (NotConfigured "conceptualModel")
  | Some model =>
      inr (fold_left
             (fun objectsByModule module =>
                if Js.arr_includes cityObjectModules (Module_.name module)
                then JsMap.set objectsByModule (Module_.name module)
                       (map Class.name
                          (List.filter isCityObjectClass (Module_.classes module)))
                else objectsByModule)
             (ConceptualModel.modules model) [])
  end.

Record GeometryRepresentation : Type := {
  gr_type : string;
  gr_lodLevel : Z;
  gr_multiplicity : string;
  gr_dimension : Z
}.

Definition inferGeometryDimension (geometryType : string) : Z :=
  if Js.includes geometryType "Solid" then 3
  else if Js.includes geometryType "Surface" || Js.includes geometryType "Polygon"
  then 2
  else if Js.includes geometryType "Curve" || Js.includes geometryType "Line"
  then 1
  else if Js.includes geometryType "Point" then 0
  else (-1).

(** The object literal pushed by either loop of
    [extractGeometryRepresentations]. *)
Definition representationOf (name type cardinality : string)
  : GeometryRepresentation :=
  let lodLevel := extractLodLevel name in
  {| gr_type := type;
     gr_lodLevel := if (-1 <? lodLevel)%Z then lodLevel else 0%Z;
     gr_multiplicity := cardinality;
     gr_dimension := inferGeometryDimension type |}.

(** The first class of that name, modules and classes in their order. *)
Definition findTargetClass (model : ConceptualModel.t) (cityObjectName : string)
  : option Class.t :=
  find (fun classInfo => String.eqb (Class.name classInfo) cityObjectName)
    (flat_map Module_.classes (ConceptualModel.modules model)).

Definition extractGeometryRepresentations (this : ObjectExtractor)
  (cityObjectName : string) : Result (list GeometryRepresentation) :=
  match conceptualModel this with
  | None => inl (NotConfigured "conceptualModel")
  | Some model =>
      match findTargetClass model cityObjectName with
      | None => inr []
      | Some targetClass =>
          inr
            (flat_map
               (fun attribute =>
                  if isGeometryType (Attribute.type attribute)
                  then [ representationOf (Attribute.name attribute)
                           (Attribute.type attribute)
                           (Attribute.cardinality attribute) ]
                  else [])
               (Class.attributes targetClass)
             ++
             flat_map
               (fun association =>
                  if isGeometryType (Association.target association)
                  then [ representationOf (Association.name association)
                           (Association.target association)
                           (Association.cardinality association) ]
                  else [])
               (default [] (Class.associations targetClass)))
      end
  end.

End Objects.

(** ** Attribute classifier: cardinality analysis (dist/extractors/attributes.js) *)

Module Attributes.

Record AttributeExtractor : Type := {
  conceptualModel : option ConceptualModel.t
}.

Record AttributeRef : Type := {
  className : string;
  attributeName : string
}.

Record MultiValuedRef : Type := {
  mv_className : string;
  mv_attributeName : string;
  mv_maxOccurs : string
}.

Record CardinalitySummary : Type := {
  requiredAttributes : list AttributeRef;
  optionalAttributes : list AttributeRef;
  multiValuedAttributes : list MultiValuedRef
}.

(** The first [if] of the loop body: the test that files an attribute
    under [requiredAttributes]. *)
Definition isRequiredCardinality (cardinality : string) : bool :=
  Js.startsWith cardinality "1" || Js.startsWith cardinality "2" ||
  Js.startsWith cardinality "3".

(** The [else if]: reached only when the first test failed. *)
Definition isOptionalCardinality (cardinality : string) : bool :=
  negb (isRequiredCardinality cardinality) && Js.startsWith cardinality "0".

(** [cardinality.split('..')[1]] *)
Definition maxSegment (cardinality : string) : option string :=
  nth_error (Js.split cardinality "..") 1.

Definition isMultiValuedCardinality (cardinality : string) : bool :=
  match maxSegment cardinality with
  | Some maxOccurs =>
      String.eqb maxOccurs "*" ||
      (Js.truthy maxOccurs && Js.gt1 (Js.parseInt maxOccurs))
  | None => false
  end.

(** The body of the innermost loop of [analyzeCardinality]. *)
Definition analyzeAttribute (classInfo : Class.t)
  (summary : CardinalitySummary) (attribute : Attribute.t) : CardinalitySummary :=
  let cardinality := Attribute.cardinality attribute in
  let ref := {| className := Class.name classInfo;
                attributeName := Attribute.name attribute |} in
  let summary1 :=
    if isRequiredCardinality cardinality
    then {| requiredAttributes := requiredAttributes summary ++ [ref];
            optionalAttributes := optionalAttributes summary;
            multiValuedAttributes := multiValuedAttributes summary |}
    else if Js.startsWith cardinality "0"
    then {| requiredAttributes := requiredAttributes summary;
            optionalAttributes := optionalAttributes summary ++ [ref];
            multiValuedAttributes := multiValuedAttributes summary |}
    else summary in
  if isMultiValuedCardinality cardinality
  then {| requiredAttributes := requiredAttributes summary1;
          optionalAttributes := optionalAttributes summary1;
          multiValuedAttributes :=
            multiValuedAttributes summary1 ++
            [ {| mv_className := Class.name classInfo;
                 mv_attributeName := Attribute.name attribute;
                 mv_maxOccurs := default "" (maxSegment cardinality) |} ] |}
  else summary1.

Definition analyzeClass (summary : CardinalitySummary) (classInfo : Class.t)
  : CardinalitySummary :=
  fold_left (analyzeAttribute classInfo) (Class.attributes classInfo) summary.

Definition analyzeModule (summary : CardinalitySummary) (module : Module_.t)
  : CardinalitySummary :=
  fold_left analyzeClass (Module_.classes module) summary.

Definition analyzeCardinality (this : AttributeExtractor)
  : Result CardinalitySummary :=
  match conceptualModel this with
  | None => inl (NotConfigured "conceptualModel")
  | Some model =>
      inr (fold_left analyzeModule (ConceptualModel.modules model)
             {| requiredAttributes := [];
                optionalAttributes := [];
                multiValuedAttributes := [] |})
  end.

(** *** Attributes by category *)

Record AttributeInfo : Type := {
  ai_name : string;
  ai_type : string;
  ai_cardinality : string;
  ai_description : string;
  ai_isNillable : bool
}.

(** [{...attributeInfo, codelist: codelistInfo}] *)
Record CodelistAttribute : Type := {
  cl_info : AttributeInfo;
  cl_codelist : option Codelist.t
}.

Record EnumerationAttribute : Type := {
  en_info : AttributeInfo;
  en_enumeration : option Enumeration.t
}.

Record ConstrainedAttribute : Type := {
  co_info : AttributeInfo;
  co_constraints : list Constraint.t
}.

Record ClassAttributes : Type := {
  ca_className : string;
  basicAttributes : list AttributeInfo;
  geometryAttributes : list AttributeInfo;
  metadataAttributes : list AttributeInfo;
  codelistAttributes : list CodelistAttribute;
  enumerationAttributes : list EnumerationAttribute;
  constrainedAttributes : list ConstrainedAttribute
}.

Definition geometryTypePatterns : list string :=
  ["Geometry"; "Point"; "Curve"; "Surface"; "Solid"; "GeometryProperty";
   "MultiPoint"; "MultiCurve"; "MultiSurface"; "MultiSolid";
   "CompositeCurve"; "CompositeSurface"; "CompositeSolid"].

Definition metadataAttributePatterns : list string :=
  ["creationDate"; "terminationDate"; "validFrom"; "validTo"; "updateDate";
   "source"; "creator"; "description"; "identifier"].

Definition isGeometryAttribute (type : string) : bool :=
  Js.some (fun pattern => Js.includes type pattern) geometryTypePatterns.

Definition isMetadataAttribute (name : string) : bool :=
  Js.some (fun pattern => Js.includes name pattern) metadataAttributePatterns.

(** The code lists of all modules in the order the loops of
    [getCodelistInfo] visit them; a module without the field adds none. *)
Definition codelistsOf (model : ConceptualModel.t) : list Codelist.t :=
  flat_map (fun module => default [] (Module_.codelists module))
    (ConceptualModel.modules model).

Definition enumerationsOf (model : ConceptualModel.t) : list Enumeration.t :=
  flat_map (fun module => default [] (Module_.enumerations module))
    (ConceptualModel.modules model).

Definition getCodelistInfo (this : AttributeExtractor) (type : string)
  : option Codelist.t :=
  match conceptualModel this with
  | None => None
  | Some model =>
      find (fun codelist => Js.includes type (Codelist.name codelist))
        (codelistsOf model)
  end.

Definition isCodelistAttribute (this : AttributeExtractor) (type : string) : bool :=
  match conceptualModel this with
  | None => false
  | Some model =>
      Js.some (fun codelist => Js.includes type (Codelist.name codelist))
        (codelistsOf model)
  end.

Definition getEnumerationInfo (this : AttributeExtractor) (type : string)
  : option Enumeration.t :=
  match conceptualModel this with
  | None => None
  | Some model =>
      find (fun enumeration => Js.includes type (Enumeration.name enumeration))
        (enumerationsOf model)
  end.

Definition isEnumerationAttribute (this : AttributeExtractor) (type : string)
  : bool :=
  match conceptualModel this with
  | None => false
  | Some model =>
      Js.some (fun enumeration => Js.includes type (Enumeration.name enumeration))
        (enumerationsOf model)
  end.

Definition hasConstraints (classInfo : Class.t) (attributeName : string) : bool :=
  match Class.constraints classInfo with
  | None => false
  | Some constraints =>
      Js.some
        (fun constraint =>
           Js.includes (Constraint.description constraint) attributeName)
        constraints
  end.

Definition getAttributeConstraints (classInfo : Class.t) (attributeName : string)
  : list Constraint.t :=
  match Class.constraints classInfo with
  | None => []
  | Some constraints =>
      map (fun constraint =>
             {| Constraint.name := Constraint.name constraint;
                Constraint.description := Constraint.description constraint;
                Constraint.expression := Constraint.expression constraint |})
        (List.filter
           (fun constraint =>
              Js.includes (Constraint.description constraint) attributeName)
           constraints)
  end.

Definition attributeInfoOf (attribute : Attribute.t) : AttributeInfo :=
  {| ai_name := Attribute.name attribute;
     ai_type := Attribute.type attribute;
     ai_cardinality := Attribute.cardinality attribute;
     ai_description :=
       match Attribute.description attribute with
       | Some description => Js.or_else description ""
       | None => ""
       end;
     ai_isNillable := default false (Attribute.isNillable attribute) |}.

(** The chain of tests that files an attribute under one category. *)
Definition fileByCategory (this : AttributeExtractor) (result : ClassAttributes)
  (attribute : Attribute.t) : ClassAttributes :=
  let attributeInfo := attributeInfoOf attribute in
  if isGeometryAttribute (Attribute.type attribute)
  then {| ca_className := ca_className result;
          basicAttributes := basicAttributes result;
          geometryAttributes := geometryAttributes result ++ [attributeInfo];
          metadataAttributes := metadataAttributes result;
          codelistAttributes := codelistAttributes result;
          enumerationAttributes := enumerationAttributes result;
          constrainedAttributes := constrainedAttributes result |}
  else if isMetadataAttribute (Attribute.name attribute)
  then {| ca_className := ca_className result;
          basicAttributes := basicAttributes result;
          geometryAttributes := geometryAttributes result;
          metadataAttributes := metadataAttributes result ++ [attributeInfo];
          codelistAttributes := codelistAttributes result;
          enumerationAttributes := enumerationAttributes result;
          constrainedAttributes := constrainedAttributes result |}
  else if isCodelistAttribute this (Attribute.type attribute)
  then {| ca_className := ca_className result;
          basicAttributes := basicAttributes result;
          geometryAttributes := geometryAttributes result;
          metadataAttributes := metadataAttributes result;
          codelistAttributes :=
            codelistAttributes result ++
            [ {| cl_info := attributeInfo;
                 cl_codelist := getCodelistInfo this (Attribute.type attribute) |} ];
          enumerationAttributes := enumerationAttributes result;
          constrainedAttributes := constrainedAttributes result |}
  else if isEnumerationAttribute this (Attribute.type attribute)
  then {| ca_className := ca_className result;
          basicAttributes := basicAttributes result;
          geometryAttributes := geometryAttributes result;
          metadataAttributes := metadataAttributes result;
          codelistAttributes := codelistAttributes result;
          enumerationAttributes :=
            enumerationAttributes result ++
            [ {| en_info := attributeInfo;
                 en_enumeration :=
                   getEnumerationInfo this (Attribute.type attribute) |} ];
          constrainedAttributes := constrainedAttributes result |}
  else {| ca_className := ca_className result;
          basicAttributes := basicAttributes result ++ [attributeInfo];
          geometryAttributes := geometryAttributes result;
          metadataAttributes := metadataAttributes result;
          codelistAttributes := codelistAttributes result;
          enumerationAttributes := enumerationAttributes result;
          constrainedAttributes := constrainedAttributes result |}.

(** The last [if] of the loop body, which runs for every attribute. *)
Definition fileConstrained (classInfo : Class.t) (result : ClassAttributes)
  (attribute : Attribute.t) : ClassAttributes :=
  if hasConstraints classInfo (Attribute.name attribute)
  then {| ca_className := ca_className result;
          basicAttributes := basicAttributes result;
          geometryAttributes := geometryAttributes result;
          metadataAttributes := metadataAttributes result;
          codelistAttributes := codelistAttributes result;
          enumerationAttributes := enumerationAttributes result;
          constrainedAttributes :=
            constrainedAttributes result ++
            [ {| co_info := attributeInfoOf attribute;
                 co_constraints :=
                   getAttributeConstraints classInfo (Attribute.name attribute) |} ] |}
  else result.

Definition fileAttribute (this : AttributeExtractor) (classInfo : Class.t)
  (result : ClassAttributes) (attribute : Attribute.t) : ClassAttributes :=
  fileConstrained classInfo (fileByCategory this result attribute) attribute.

Definition extractClassAttributes (this : AttributeExtractor) (classInfo : Class.t)
  : ClassAttributes :=
  fold_left (fileAttribute this classInfo) (Class.attributes classInfo)
    {| ca_className := Class.name classInfo;
       basicAttributes := [];
       geometryAttributes := [];
       metadataAttributes := [];
       codelistAttributes := [];
       enumerationAttributes := [];
       constrainedAttributes := [] |}.

(** All classes of the model, modules and classes in their order. *)
Definition classesOf (model : ConceptualModel.t) : list Class.t :=
  flat_map Module_.classes (ConceptualModel.modules model).

Definition extractAllAttributes (this : AttributeExtractor)
  : Result (JsMap.t ClassAttributes) :=
  match conceptualModel this with
  | None => inl (NotConfigured "conceptualModel")
  | Some model =>
      inr (fold_left
             (fun allAttributes classInfo =>
                JsMap.set allAttributes (Class.name classInfo)
                  (extractClassAttributes this classInfo))
             (classesOf model) [])
  end.

Definition extractAllCodelists (this : AttributeExtractor)
  : Result (list Codelist.t) :=
  match conceptualModel this with
  | None => inl (NotConfigured "conceptualModel")
  | Some model => inr (codelistsOf model)
  end.

Definition extractAllEnumerations (this : AttributeExtractor)
  : Result (list Enumeration.t) :=
  match conceptualModel this with
  | None => inl (NotConfigured "conceptualModel")
  | Some model => inr (enumerationsOf model)
  end.

Definition extractMetadataAttributes (this : AttributeExtractor)
  : Result (JsMap.t (list Attribute.t)) :=
  match conceptualModel this with
  | None => inl (NotConfigured "conceptualModel")
  | Some model =>
      inr (fold_left
             (fun metadataByClass classInfo =>
                let metadataAttributes :=
                  List.filter
                    (fun attribute => isMetadataAttribute (Attribute.name attribute))
                    (Class.attributes classInfo) in
                if Nat.ltb 0 (List.length metadataAttributes)
                then JsMap.set metadataByClass (Class.name classInfo)
                       metadataAttributes
                else metadataByClass)
             (classesOf model) [])
  end.

(** [getCodeListValues]: module by module, the values of the first code
    list of that name. *)
Fixpoint codeListValuesIn (modules : list Module_.t) (codelistName : string)
  : list CodelistValue.t :=
  match modules with
  | [] => []
  | module :: rest =>
      match Module_.codelists module with
      | Some codelists =>
          match find (fun cl => String.eqb (Codelist.name cl) codelistName)
                  codelists with
          | Some codelist => Codelist.values codelist
          | None => codeListValuesIn rest codelistName
          end
      | None => codeListValuesIn rest codelistName
      end
  end.

Definition getCodeListValues (this : AttributeExtractor) (codelistName : string)
  : Result (list CodelistValue.t) :=
  match conceptualModel this with
  | None => inl (NotConfigured "conceptualModel")
  | Some model => inr (codeListValuesIn (ConceptualModel.modules model) codelistName)
  end.

Fixpoint enumerationValuesIn (modules : list Module_.t) (enumName : string)
  : list EnumerationValue.t :=
  match modules with
  | [] => []
  | module :: rest =>
      match Module_.enumerations module with
      | Some enumerations =>
          match find (fun en => String.eqb (Enumeration.name en) enumName)
                  enumerations with
          | Some enumeration => Enumeration.values enumeration
          | None => enumerationValuesIn rest enumName
          end
      | None => enumerationValuesIn rest enumName
      end
  end.

Definition getEnumerationValues (this : AttributeExtractor) (enumName : string)
  : Result (list EnumerationValue.t) :=
  match conceptualModel this with
  | None => inl (NotConfigured "conceptualModel")
  | Some model => inr (enumerationValuesIn (ConceptualModel.modules model) enumName)
  end.

(** *** Constraints by kind *)

Record ConstraintRef : Type := {
  cr_className : string;
  cr_constraintName : string;
  cr_description : string
}.

Record ConstraintsSummary : Type := {
  valueConstraints : list ConstraintRef;
  typeConstraints : list ConstraintRef;
  referentialConstraints : list ConstraintRef
}.

Definition isValueConstraint (desc : string) : bool :=
  Js.includes desc "value" || Js.includes desc "must be" ||
  Js.includes desc "should be".

Definition isTypeConstraint (desc : string) : bool :=
  Js.includes desc "type" || Js.includes desc "instance of".

Definition isReferentialConstraint (desc : string) : bool :=
  Js.includes desc "reference" || Js.includes desc "refers to".

Definition fileConstraint (classInfo : Class.t) (summary : ConstraintsSummary)
  (constraint : Constraint.t) : ConstraintsSummary :=
  let desc := Js.toLowerCase (Constraint.description constraint) in
  let ref := {| cr_className := Class.name classInfo;
                cr_constraintName := Constraint.name constraint;
                cr_description := Constraint.description constraint |} in
  if isValueConstraint desc
  then {| valueConstraints := valueConstraints summary ++ [ref];
          typeConstraints := typeConstraints summary;
          referentialConstraints := referentialConstraints summary |}
  else if isTypeConstraint desc
  then {| valueConstraints := valueConstraints summary;
          typeConstraints := typeConstraints summary ++ [ref];
          referentialConstraints := referentialConstraints summary |}
  else if isReferentialConstraint desc
  then {| valueConstraints := valueConstraints summary;
          typeConstraints := typeConstraints summary;
          referentialConstraints := referentialConstraints summary ++ [ref] |}
  else summary.

Definition analyzeAttributeConstraints (this : AttributeExtractor)
  : Result ConstraintsSummary :=
  match conceptualModel this with
  | None => inl (NotConfigured "conceptualModel")
  | Some model =>
      inr (fold_left
             (fun summary classInfo =>
                fold_left (fileConstraint classInfo)
                  (default [] (Class.constraints classInfo)) summary)
             (classesOf model)
             {| valueConstraints := [];
                typeConstraints := [];
                referentialConstraints := [] |})
  end.

End Attributes.

(** ** Relationship extractor (dist/extractors/relationships.js) *)

Module RelationshipType.
Inductive t : Type :=
| ASSOCIATION | AGGREGATION | COMPOSITION | GENERALIZATION
| SPATIAL | TEMPORAL | THEMATIC.

(** The string value of each member of the enum. *)
Definition value (k : t) : string :=
  match k with
  | ASSOCIATION => "association"
  | AGGREGATION => "aggregation"
  | COMPOSITION => "composition"
  | GENERALIZATION => "generalization"
  | SPATIAL => "spatial"
  | TEMPORAL => "temporal"
  | THEMATIC => "thematic"
  end.
End RelationshipType.

Module RelationshipDirection.
Inductive t : Type := UNIDIRECTIONAL | BIDIRECTIONAL.
End RelationshipDirection.

Module SpatialRelationType.
Inductive t : Type :=
| CONTAINS | WITHIN | TOUCHES | OVERLAPS | DISJOINT
| EQUALS | CROSSES | INTERSECTS | REFERENCES.
End SpatialRelationType.

Module Multiplicity.
(** The [max] of a multiplicity: the string ['*'] or a number. *)
Inductive bound : Type :=
| Star
| Num (n : Js.JsInt).

Record t : Type := { min : Js.JsInt; max : bound }.

Definition one_one : t := {| min := Js.Int 1; max := Num (Js.Int 1) |}.
Definition zero_one : t := {| min := Js.Int 0; max := Num (Js.Int 1) |}.
Definition zero_many : t := {| min := Js.Int 0; max := Star |}.
End Multiplicity.

Module RelationshipInfo.
Record t : Type := {
  id : string;
  name : string;
  type : RelationshipType.t;
  source : string;
  target : string;
  sourceRole : option string;
  targetRole : option string;
  sourceMultiplicity : Multiplicity.t;
  targetMultiplicity : Multiplicity.t;
  direction : RelationshipDirection.t;
  spatialType : option SpatialRelationType.t;
  description : option string;
  xsdPath : string
}.
End RelationshipInfo.

Module Relationships.

Section Extractor.
Context {np : NodePath}.

(** Instance state of [RelationshipExtractor].  [relationships] is a [Map]
    that the extractor only writes by key; [moduleXsdDocs] is an object whose
    entries are walked in insertion order (module names that read as array
    indices, which an object lists first, are not distinguished). *)
Record RelationshipExtractor : Type := {
  conceptExtractor : option Concepts.ConceptExtractor;
  objectExtractor : option Objects.ObjectExtractor;
  relationships : gmap string RelationshipInfo.t;
  xsdBasePath : string;
  moduleNamespaces : gmap string string;
  moduleXsdDocs : JsMap.t Dom.Document;
  conceptualModel : option ConceptualModel.t
}.

(** [new RelationshipExtractor()] *)
Definition new : RelationshipExtractor :=
  {| conceptExtractor := None;
     objectExtractor := None;
     relationships := ∅;
     xsdBasePath := "";
     moduleNamespaces := ∅;
     moduleXsdDocs := [];
     conceptualModel := None |}.

Definition setConceptExtractor (this : RelationshipExtractor)
  (ce : Concepts.ConceptExtractor) : RelationshipExtractor :=
  {| conceptExtractor := Some ce;
     objectExtractor := objectExtractor this;
     relationships := relationships this;
     xsdBasePath := xsdBasePath this;
     moduleNamespaces := moduleNamespaces this;
     moduleXsdDocs := moduleXsdDocs this;
     conceptualModel := conceptualModel this |}.

Definition setObjectExtractor (this : RelationshipExtractor)
  (oe : Objects.ObjectExtractor) : RelationshipExtractor :=
  {| conceptExtractor := conceptExtractor this;
     objectExtractor := Some oe;
     relationships := relationships this;
     xsdBasePath := xsdBasePath this;
     moduleNamespaces := moduleNamespaces this;
     moduleXsdDocs := moduleXsdDocs this;
     conceptualModel := conceptualModel this |}.

Definition setXsdBasePath (this : RelationshipExtractor) (basePath : string)
  : RelationshipExtractor :=
  {| conceptExtractor := conceptExtractor this;
     objectExtractor := objectExtractor this;
     relationships := relationships this;
     xsdBasePath := basePath;
     moduleNamespaces := moduleNamespaces this;
     moduleXsdDocs := moduleXsdDocs this;
     conceptualModel := conceptualModel this |}.

(** [this.relationships.set(id, relationship)] *)
Definition setRelationship (this : RelationshipExtractor) (key : string)
  (relationship : RelationshipInfo.t) : RelationshipExtractor :=
  {| conceptExtractor := conceptExtractor this;
     objectExtractor := objectExtractor this;
     relationships := <[key := relationship]> (relationships this);
     xsdBasePath := xsdBasePath this;
     moduleNamespaces := moduleNamespaces this;
     moduleXsdDocs := moduleXsdDocs this;
     conceptualModel := conceptualModel this |}.

(** The three resets at the head of [extractRelationships]. *)
Definition clear (this : RelationshipExtractor) : RelationshipExtractor :=
  {| conceptExtractor := conceptExtractor this;
     objectExtractor := objectExtractor this;
     relationships := ∅;
     xsdBasePath := xsdBasePath this;
     moduleNamespaces := ∅;
     moduleXsdDocs := [];
     conceptualModel := conceptualModel this |}.

(** The two writes of [processModuleFile]. *)
Definition registerModule (this : RelationshipExtractor)
  (moduleName targetNamespace : string) (doc : Dom.Document)
  : RelationshipExtractor :=
  {| conceptExtractor := conceptExtractor this;
     objectExtractor := objectExtractor this;
     relationships := relationships this;
     xsdBasePath := xsdBasePath this;
     moduleNamespaces := <[moduleName := targetNamespace]> (moduleNamespaces this);
     moduleXsdDocs := JsMap.set (moduleXsdDocs this) moduleName doc;
     conceptualModel := conceptualModel this |}.

(** [processModuleFile] logs and rethrows what reading or parsing throws. *)
Definition processModuleFile (fs : FileSystem) (this : RelationshipExtractor)
  (xsdFilePath : string) : Result RelationshipExtractor :=
  match fs xsdFilePath with
  | None => inl (FileError xsdFilePath)
  | Some moduleXsdDoc =>
      match Dom.selectDoc "xs:schema" moduleXsdDoc with
      | [] => inr this
      | schemaElement :: _ =>
          let targetNamespace :=
            Dom.getAttribute (snd schemaElement) "targetNamespace" in
          if Js.truthy targetNamespace
          then inr (registerModule this (path_basename xsdFilePath ".xsd")
                      targetNamespace moduleXsdDoc)
          else inr this
      end
  end.

(** [parts.length > 1 ? parts[1] : parts[0]] for [parts = x.split(':')] *)
Definition withoutPrefix (x : string) : string :=
  match Js.split x ":" with
  | _ :: second :: _ => second
  | first :: _ => first
  | [] => ""
  end.

(** [parts.length > 1 && parts[0] === prefix] *)
Definition hasPrefix (x prefix : string) : bool :=
  match Js.split x ":" with
  | first :: _ :: _ => String.eqb first prefix
  | _ => false
  end.

(** The walk up the [parentNode] chain to the nearest named
    [xs:complexType]. *)
Fixpoint enclosingComplexType (ancestors : list Dom.Node) : option Dom.Node :=
  match ancestors with
  | [] => None
  | parentElement :: rest =>
      if String.eqb (Dom.nodeName parentElement) "xs:complexType" &&
         Js.truthy (Dom.getAttribute parentElement "name")
      then Some parentElement
      else enclosingComplexType rest
  end.

(** [sourceTypeName] after the walk; empty when no such ancestor exists. *)
Definition sourceTypeNameOf (element : Dom.Located) : string :=
  match enclosingComplexType (fst element) with
  | Some parentElement => Js.or_else (Dom.getAttribute parentElement "name") ""
  | None => ""
  end.

Definition moduleXsdPath (this : RelationshipExtractor) (moduleName : string)
  : string :=
  path_join (xsdBasePath this) (moduleName +:+ ".xsd").

(** Target multiplicity read from [minOccurs] and [maxOccurs]. *)
Definition occursMultiplicity (element : Dom.Located) : Multiplicity.t :=
  let minOccurs := Js.or_else (Dom.getAttribute (snd element) "minOccurs") "1" in
  let maxOccurs := Js.or_else (Dom.getAttribute (snd element) "maxOccurs") "1" in
  {| Multiplicity.min := Js.parseInt10 minOccurs;
     Multiplicity.max := if String.eqb maxOccurs "unbounded"
                         then Multiplicity.Star
                         else Multiplicity.Num (Js.parseInt10 maxOccurs) |}.

(** *** Generalization *)

Definition processExtension (moduleName typeName : string)
  (this : RelationshipExtractor) (extensionElement : Dom.Located)
  : RelationshipExtractor :=
  let baseTypeName := Dom.getAttribute (snd extensionElement) "base" in
  if Js.truthy baseTypeName
  then
    let baseTypeNameWithoutPrefix := withoutPrefix baseTypeName in
    let relationshipId :=
      "generalization_" +:+ typeName +:+ "_" +:+ baseTypeNameWithoutPrefix in
    let relationship :=
      {| RelationshipInfo.id := relationshipId;
         RelationshipInfo.name :=
           typeName +:+ "_extends_" +:+ baseTypeNameWithoutPrefix;
         RelationshipInfo.type := RelationshipType.GENERALIZATION;
         RelationshipInfo.source := typeName;
         RelationshipInfo.target := baseTypeNameWithoutPrefix;
         RelationshipInfo.sourceRole := None;
         RelationshipInfo.targetRole := None;
         RelationshipInfo.sourceMultiplicity := Multiplicity.zero_many;
         RelationshipInfo.targetMultiplicity := Multiplicity.one_one;
         RelationshipInfo.direction := RelationshipDirection.UNIDIRECTIONAL;
         RelationshipInfo.spatialType := None;
         RelationshipInfo.description :=
           Some (typeName +:+ "는 " +:+ baseTypeNameWithoutPrefix +:+
                 "의 서브타입입니다");
         RelationshipInfo.xsdPath := moduleXsdPath this moduleName |} in
    setRelationship this relationshipId relationship
  else this.

Definition processComplexType (moduleName : string)
  (this : RelationshipExtractor) (complexTypeElement : Dom.Located)
  : RelationshipExtractor :=
  let typeName := Dom.getAttribute (snd complexTypeElement) "name" in
  if Js.truthy typeName
  then fold_left (processExtension moduleName typeName)
         (Dom.selectIn "xs:extension" complexTypeElement) this
  else this.

(** [Object.entries(this.moduleXsdDocs)] is taken when the loop starts; the
    loops below write [relationships] only. *)
Definition extractGeneralizationRelationships (this : RelationshipExtractor)
  : RelationshipExtractor :=
  match conceptExtractor this with
  | None => this
  | Some _ =>
      fold_left
        (fun this (entry : string * Dom.Document) =>
           fold_left (processComplexType (fst entry))
             (Dom.selectDoc "xs:complexType" (snd entry)) this)
        (moduleXsdDocs this) this
  end.

(** *** Association, aggregation, composition *)

Definition processElementReference (this : RelationshipExtractor)
  (elementElement : Dom.Located) (elementRef moduleName : string)
  : RelationshipExtractor :=
  let refWithoutPrefix := withoutPrefix elementRef in
  let sourceTypeName := sourceTypeNameOf elementElement in
  if negb (Js.truthy sourceTypeName) then this
  else
    let sourceMultiplicity := Multiplicity.one_one in
    let targetMultiplicity := occursMultiplicity elementElement in
    let relationType :=
      match fst elementElement with
      | elementParent :: _ =>
          if String.eqb (Dom.nodeName elementParent) "xs:sequence"
          then RelationshipType.COMPOSITION
          else RelationshipType.ASSOCIATION
      | [] => RelationshipType.ASSOCIATION
      end in
    let relationshipId :=
      Js.toLowerCase (RelationshipType.value relationType) +:+ "_" +:+
      sourceTypeName +:+ "_" +:+ refWithoutPrefix in
    let relationshipName := sourceTypeName +:+ "_has_" +:+ refWithoutPrefix in
    let relationship :=
      {| RelationshipInfo.id := relationshipId;
         RelationshipInfo.name := relationshipName;
         RelationshipInfo.type := relationType;
         RelationshipInfo.source := sourceTypeName;
         RelationshipInfo.target := refWithoutPrefix;
         RelationshipInfo.sourceRole := None;
         RelationshipInfo.targetRole := None;
         RelationshipInfo.sourceMultiplicity := sourceMultiplicity;
         RelationshipInfo.targetMultiplicity := targetMultiplicity;
         RelationshipInfo.direction := RelationshipDirection.UNIDIRECTIONAL;
         RelationshipInfo.spatialType := None;
         RelationshipInfo.description := None;
         RelationshipInfo.xsdPath := moduleXsdPath this moduleName |} in
    setRelationship this relationshipId relationship.

Definition processElementWithType (this : RelationshipExtractor)
  (elementElement : Dom.Located) (elementName elementType moduleName : string)
  : RelationshipExtractor :=
  let typeWithoutPrefix := withoutPrefix elementType in
  if hasPrefix elementType "xs" then this
  else
    let sourceTypeName := sourceTypeNameOf elementElement in
    if negb (Js.truthy sourceTypeName) then this
    else
      let sourceMultiplicity := Multiplicity.one_one in
      let targetMultiplicity := occursMultiplicity elementElement in
      let relationType :=
        if Js.endsWith elementName "Member" || Js.includes elementName "members"
        then RelationshipType.AGGREGATION
        else if Js.endsWith elementName "Part" || Js.includes elementName "parts"
        then RelationshipType.COMPOSITION
        else RelationshipType.ASSOCIATION in
      let relationshipId :=
        Js.toLowerCase (RelationshipType.value relationType) +:+ "_" +:+
        sourceTypeName +:+ "_" +:+ elementName +:+ "_" +:+ typeWithoutPrefix in
      let relationshipName :=
        sourceTypeName +:+ "_" +:+ elementName +:+ "_" +:+ typeWithoutPrefix in
      let relationship :=
        {| RelationshipInfo.id := relationshipId;
           RelationshipInfo.name := relationshipName;
           RelationshipInfo.type := relationType;
           RelationshipInfo.source := sourceTypeName;
           RelationshipInfo.target := typeWithoutPrefix;
           RelationshipInfo.sourceRole := Some (Js.toLowerCase sourceTypeName);
           RelationshipInfo.targetRole := Some elementName;
           RelationshipInfo.sourceMultiplicity := sourceMultiplicity;
           RelationshipInfo.targetMultiplicity := targetMultiplicity;
           RelationshipInfo.direction := RelationshipDirection.UNIDIRECTIONAL;
           RelationshipInfo.spatialType := None;
           RelationshipInfo.description := None;
           RelationshipInfo.xsdPath := moduleXsdPath this moduleName |} in
      setRelationship this relationshipId relationship.

Definition processElement (moduleName : string) (this : RelationshipExtractor)
  (elementElement : Dom.Located) : RelationshipExtractor :=
  let elementName := Dom.getAttribute (snd elementElement) "name" in
  let elementRef := Dom.getAttribute (snd elementElement) "ref" in
  let elementType := Dom.getAttribute (snd elementElement) "type" in
  if Js.truthy elementRef
  then processElementReference this elementElement elementRef moduleName
  else if Js.truthy elementName && Js.truthy elementType
  then processElementWithType this elementElement elementName elementType moduleName
  else this.

Definition extractRelationshipsFromElements (this : RelationshipExtractor)
  (moduleDoc : Dom.Document) (moduleName : string) : RelationshipExtractor :=
  fold_left (processElement moduleName) (Dom.selectDoc "xs:element" moduleDoc) this.

(** [processXlinkReference]: the attribute group is read off the enclosing
    complex type found by the walk. *)
Definition processXlinkReference (this : RelationshipExtractor)
  (attributeElement : Dom.Located) (moduleName : string)
  : RelationshipExtractor :=
  let sourceTypeName := sourceTypeNameOf attributeElement in
  if negb (Js.truthy sourceTypeName) then this
  else
    let attributeGroup :=
      match enclosingComplexType (fst attributeElement) with
      | Some parentElement => Dom.getAttribute parentElement "attributeGroup"
      | None => ""
      end in
    let targetTypeName :=
      if Js.truthy attributeGroup
      then
        let groupWithoutPrefix := withoutPrefix attributeGroup in
        if Js.endsWith groupWithoutPrefix "PropertyType"
        then Js.remove_first groupWithoutPrefix "PropertyType"
        else "Unknown"
      else "Unknown" in
    let relationshipId :=
      "spatial_" +:+ sourceTypeName +:+ "_" +:+ targetTypeName in
    let relationshipName :=
      sourceTypeName +:+ "_spatially_related_to_" +:+ targetTypeName in
    let relationship :=
      {| RelationshipInfo.id := relationshipId;
         RelationshipInfo.name := relationshipName;
         RelationshipInfo.type := RelationshipType.SPATIAL;
         RelationshipInfo.source := sourceTypeName;
         RelationshipInfo.target := targetTypeName;
         RelationshipInfo.sourceRole := None;
         RelationshipInfo.targetRole := None;
         RelationshipInfo.sourceMultiplicity := Multiplicity.one_one;
         RelationshipInfo.targetMultiplicity := Multiplicity.zero_many;
         RelationshipInfo.direction := RelationshipDirection.UNIDIRECTIONAL;
         RelationshipInfo.spatialType := Some SpatialRelationType.REFERENCES;
         RelationshipInfo.description := None;
         RelationshipInfo.xsdPath := moduleXsdPath this moduleName |} in
    setRelationship this relationshipId relationship.

Definition processAttributeReference (this : RelationshipExtractor)
  (attributeElement : Dom.Located) (attributeRef moduleName : string)
  : RelationshipExtractor :=
  let refWithoutPrefix := withoutPrefix attributeRef in
  if hasPrefix attributeRef "xlink" && String.eqb refWithoutPrefix "href"
  then processXlinkReference this attributeElement moduleName
  else
    let sourceTypeName := sourceTypeNameOf attributeElement in
    if negb (Js.truthy sourceTypeName) then this
    else
      let relationshipId :=
        "association_" +:+ sourceTypeName +:+ "_" +:+ refWithoutPrefix in
      let relationshipName :=
        sourceTypeName +:+ "_refers_to_" +:+ refWithoutPrefix in
      let relationship :=
        {| RelationshipInfo.id := relationshipId;
           RelationshipInfo.name := relationshipName;
           RelationshipInfo.type := RelationshipType.ASSOCIATION;
           RelationshipInfo.source := sourceTypeName;
           RelationshipInfo.target := refWithoutPrefix;
           RelationshipInfo.sourceRole := None;
           RelationshipInfo.targetRole := None;
           RelationshipInfo.sourceMultiplicity := Multiplicity.one_one;
           RelationshipInfo.targetMultiplicity := Multiplicity.zero_one;
           RelationshipInfo.direction := RelationshipDirection.UNIDIRECTIONAL;
           RelationshipInfo.spatialType := None;
           RelationshipInfo.description := None;
           RelationshipInfo.xsdPath := moduleXsdPath this moduleName |} in
      setRelationship this relationshipId relationship.

Definition processAttributeWithType (this : RelationshipExtractor)
  (attributeElement : Dom.Located)
  (attributeName attributeType moduleName : string) : RelationshipExtractor :=
  let typeWithoutPrefix := withoutPrefix attributeType in
  if hasPrefix attributeType "xs" then this
  else
    let sourceTypeName := sourceTypeNameOf attributeElement in
    if negb (Js.truthy sourceTypeName) then this
    else
      let relationshipId :=
        "association_" +:+ sourceTypeName +:+ "_" +:+ attributeName +:+ "_" +:+
        typeWithoutPrefix in
      let relationshipName :=
        sourceTypeName +:+ "_" +:+ attributeName +:+ "_" +:+ typeWithoutPrefix in
      let relationship :=
        {| RelationshipInfo.id := relationshipId;
           RelationshipInfo.name := relationshipName;
           RelationshipInfo.type := RelationshipType.ASSOCIATION;
           RelationshipInfo.source := sourceTypeName;
           RelationshipInfo.target := typeWithoutPrefix;
           RelationshipInfo.sourceRole := Some (Js.toLowerCase sourceTypeName);
           RelationshipInfo.targetRole := Some attributeName;
           RelationshipInfo.sourceMultiplicity := Multiplicity.one_one;
           RelationshipInfo.targetMultiplicity := Multiplicity.zero_one;
           RelationshipInfo.direction := RelationshipDirection.UNIDIRECTIONAL;
           RelationshipInfo.spatialType := None;
           RelationshipInfo.description := None;
           RelationshipInfo.xsdPath := moduleXsdPath this moduleName |} in
      setRelationship this relationshipId relationship.

Definition processAttribute (moduleName : string) (this : RelationshipExtractor)
  (attributeElement : Dom.Located) : RelationshipExtractor :=
  let attributeName := Dom.getAttribute (snd attributeElement) "name" in
  let attributeType := Dom.getAttribute (snd attributeElement) "type" in
  let attributeRef := Dom.getAttribute (snd attributeElement) "ref" in
  if Js.truthy attributeRef
  then processAttributeReference this attributeElement attributeRef moduleName
  else if Js.truthy attributeName && Js.truthy attributeType
  then processAttributeWithType this attributeElement attributeName attributeType
         moduleName
  else this.

Definition extractRelationshipsFromAttributes (this : RelationshipExtractor)
  (moduleDoc : Dom.Document) (moduleName : string) : RelationshipExtractor :=
  fold_left (processAttribute moduleName)
    (Dom.selectDoc "xs:attribute" moduleDoc) this.

Definition extractAssociationRelationships (this : RelationshipExtractor)
  : RelationshipExtractor :=
  fold_left
    (fun this (entry : string * Dom.Document) =>
       extractRelationshipsFromAttributes
         (extractRelationshipsFromElements this (snd entry) (fst entry))
         (snd entry) (fst entry))
    (moduleXsdDocs this) this.

(** *** Spatial *)

Definition processGeometryElement (moduleName : string)
  (this : RelationshipExtractor) (geometryElement : Dom.Located)
  : RelationshipExtractor :=
  let geometryName := Dom.getAttribute (snd geometryElement) "name" in
  let geometryType := Dom.getAttribute (snd geometryElement) "type" in
  if negb (Js.truthy geometryName) || negb (Js.truthy geometryType) then this
  else
    let sourceTypeName := sourceTypeNameOf geometryElement in
    if negb (Js.truthy sourceTypeName) then this
    else
      let typeWithoutPrefix := withoutPrefix geometryType in
      let relationshipId :=
        "spatial_" +:+ sourceTypeName +:+ "_" +:+ geometryName +:+ "_" +:+
        typeWithoutPrefix in
      let relationshipName :=
        sourceTypeName +:+ "_has_geometry_" +:+ typeWithoutPrefix in
      let spatialType :=
        if Js.includes geometryName "boundedBy" then SpatialRelationType.WITHIN
        else if Js.includes geometryName "touches" then SpatialRelationType.TOUCHES
        else if Js.includes geometryName "overlaps" then SpatialRelationType.OVERLAPS
        else SpatialRelationType.CONTAINS in
      let relationship :=
        {| RelationshipInfo.id := relationshipId;
           RelationshipInfo.name := relationshipName;
           RelationshipInfo.type := RelationshipType.SPATIAL;
           RelationshipInfo.source := sourceTypeName;
           RelationshipInfo.target := typeWithoutPrefix;
           RelationshipInfo.sourceRole := Some (Js.toLowerCase sourceTypeName);
           RelationshipInfo.targetRole := Some geometryName;
           RelationshipInfo.sourceMultiplicity := Multiplicity.one_one;
           RelationshipInfo.targetMultiplicity := Multiplicity.zero_one;
           RelationshipInfo.direction := RelationshipDirection.UNIDIRECTIONAL;
           RelationshipInfo.spatialType := Some spatialType;
           RelationshipInfo.description := None;
           RelationshipInfo.xsdPath := moduleXsdPath this moduleName |} in
      setRelationship this relationshipId relationship.

(** XPath [//xs:element[contains(@name, "geometry") or contains(@name, "Geometry")]] *)
Definition geometryPropertyNodes (moduleDoc : Dom.Document) : list Dom.Located :=
  List.filter
    (fun e => Js.includes (Dom.getAttribute (snd e) "name") "geometry" ||
              Js.includes (Dom.getAttribute (snd e) "name") "Geometry")
    (Dom.selectDoc "xs:element" moduleDoc).

Definition extractGeometryRelationships (this : RelationshipExtractor)
  : RelationshipExtractor :=
  fold_left
    (fun this (entry : string * Dom.Document) =>
       fold_left (processGeometryElement (fst entry))
         (geometryPropertyNodes (snd entry)) this)
    (moduleXsdDocs this) this.

Definition extractSpatialRelationships (this : RelationshipExtractor)
  : RelationshipExtractor :=
  match objectExtractor this with
  | None => this
  | Some _ => extractGeometryRelationships this
  end.

(** [extractReferentialIntegrityRules] reads the [xs:key] and [xs:keyref]
    declarations and writes them to the log only; the state is untouched. *)
Definition extractReferentialIntegrityRules (this : RelationshipExtractor)
  : RelationshipExtractor := this.

(** One turn of the loading loop of [extractRelationships]: what
    [processModuleFile] throws is caught and logged. *)
Definition loadModule (fs : FileSystem) (this : RelationshipExtractor)
  (xsdFilePath : string) : RelationshipExtractor :=
  match processModuleFile fs this xsdFilePath with
  | inl _ => this
  | inr this' => this'
  end.

(** [extractRelationships]: the thrown exception or the returned map, which
    is the map held by the instance, and the instance afterwards. *)
Definition extractRelationships (fs : FileSystem) (this : RelationshipExtractor)
  (xsdFilePaths : list string)
  : Result (gmap string RelationshipInfo.t) * RelationshipExtractor :=
  match conceptExtractor this, objectExtractor this with
  | None, _ => (inl (NotConfigured "conceptExtractor"), this)
  | Some _, None => (inl (NotConfigured "objectExtractor"), this)
  | Some _, Some _ =>
      let loaded := fold_left (loadModule fs) xsdFilePaths (clear this) in
      let this' :=
        extractReferentialIntegrityRules
          (extractSpatialRelationships
             (extractAssociationRelationships
                (extractGeneralizationRelationships loaded))) in
      (inr (relationships this'), this')
  end.

(** [getRelationships] *)
Definition getRelationships (this : RelationshipExtractor)
  : gmap string RelationshipInfo.t := relationships this.

(** *** Reading the relationships back *)

(** [relationship.type === type]: the members of the enum are strings. *)
Definition sameType (a b : RelationshipType.t) : bool :=
  String.eqb (RelationshipType.value a) (RelationshipType.value b).

(** [getRelationshipsArray]: the values of the map.  The model of the map
    keeps no insertion order, so the array comes in an order of its own;
    what is stated about it below holds for every order. *)
Definition getRelationshipsArray (this : RelationshipExtractor)
  : list RelationshipInfo.t :=
  map snd (map_to_list (relationships this)).

Definition countRelationshipsByType (this : RelationshipExtractor)
  (type : RelationshipType.t) : nat :=
  fold_left
    (fun count relationship =>
       if sameType (RelationshipInfo.type relationship) type
       then S count else count)
    (getRelationshipsArray this) 0%nat.

Definition getRelationshipsByType (this : RelationshipExtractor)
  (type : RelationshipType.t) : list RelationshipInfo.t :=
  List.filter (fun relationship => sameType (RelationshipInfo.type relationship) type)
    (getRelationshipsArray this).

Definition getRelationshipsBySource (this : RelationshipExtractor)
  (sourceType : string) : list RelationshipInfo.t :=
  List.filter
    (fun relationship => String.eqb (RelationshipInfo.source relationship) sourceType)
    (getRelationshipsArray this).

Definition getRelationshipsByTarget (this : RelationshipExtractor)
  (targetType : string) : list RelationshipInfo.t :=
  List.filter
    (fun relationship => String.eqb (RelationshipInfo.target relationship) targetType)
    (getRelationshipsArray this).

(** [setConceptualModel]: stores the model and creates the collaborators
    that are still missing, unless both are there already. *)
Definition setConceptualModel (this : RelationshipExtractor)
  (conceptModel : ConceptualModel.t) : RelationshipExtractor :=
  let stored :=
    {| conceptExtractor := conceptExtractor this;
       objectExtractor := objectExtractor this;
       relationships := relationships this;
       xsdBasePath := xsdBasePath this;
       moduleNamespaces := moduleNamespaces this;
       moduleXsdDocs := moduleXsdDocs this;
       conceptualModel := Some conceptModel |} in
  match conceptExtractor stored, objectExtractor stored with
  | Some _, Some _ => stored
  | _, _ =>
      let withConcepts :=
        match conceptExtractor stored with
        | None => setConceptExtractor stored (Concepts.new (xsdBasePath stored))
        | Some _ => stored
        end in
      match objectExtractor withConcepts with
      | None =>
          setObjectExtractor withConcepts {| Objects.conceptualModel := None |}
      | Some _ => withConcepts
      end
  end.

(** [findModuleForClass]: the name of the first module that has a class of
    that name; [null] without a model or without such a module. *)
Definition findModuleForClass (this : RelationshipExtractor) (className : string)
  : option string :=
  match conceptualModel this with
  | None => None
  | Some model =>
      option_map Module_.name
        (find
           (fun module =>
              Js.some (fun cls => String.eqb (Class.name cls) className)
                (Module_.classes module))
           (ConceptualModel.modules model))
  end.

(** Truthiness of a module name that may be [null]. *)
Definition truthyName (name : option string) : bool :=
  match name with
  | Some n => Js.truthy n
  | None => false
  end.

Record ModuleLink : Type := {
  ml_source : string;
  ml_target : string
}.

Record ModuleAssociation : Type := {
  ma_source : string;
  ma_target : string;
  ma_relationship : string
}.

Record ModuleRelationships : Type := {
  dependencies : list ModuleLink;
  crossModuleAssociations : list ModuleAssociation;
  crossModuleGeneralizations : list ModuleAssociation
}.

(** The body of the loop of [extractModuleRelationships]. *)
Definition noteModuleRelationship (this : RelationshipExtractor)
  (moduleRelationships : ModuleRelationships) (relationship : RelationshipInfo.t)
  : ModuleRelationships :=
  let sourceModule := findModuleForClass this (RelationshipInfo.source relationship) in
  let targetModule := findModuleForClass this (RelationshipInfo.target relationship) in
  match sourceModule, targetModule with
  | Some sourceName, Some targetName =>
      if Js.truthy sourceName && Js.truthy targetName &&
         negb (String.eqb sourceName targetName)
      then
        let associations :=
          if sameType (RelationshipInfo.type relationship)
               RelationshipType.ASSOCIATION
          then crossModuleAssociations moduleRelationships ++
               [ {| ma_source := sourceName; ma_target := targetName;
                    ma_relationship := RelationshipInfo.name relationship |} ]
          else crossModuleAssociations moduleRelationships in
        let dependencyExists :=
          Js.some
            (fun dep => String.eqb (ml_source dep) sourceName &&
                        String.eqb (ml_target dep) targetName)
            (dependencies moduleRelationships) in
        {| dependencies :=
             if dependencyExists then dependencies moduleRelationships
             else dependencies moduleRelationships ++
                  [ {| ml_source := sourceName; ml_target := targetName |} ];
           crossModuleAssociations := associations;
           crossModuleGeneralizations :=
             crossModuleGeneralizations moduleRelationships |}
      else moduleRelationships
  | _, _ => moduleRelationships
  end.

Definition extractModuleRelationships (this : RelationshipExtractor)
  : ModuleRelationships :=
  fold_left (noteModuleRelationship this) (getRelationshipsArray this)
    {| dependencies := [];
       crossModuleAssociations := [];
       crossModuleGeneralizations := [] |}.

Record MultiplicitySummary : Type := {
  oneToOne : list RelationshipInfo.t;
  oneToMany : list RelationshipInfo.t;
  manyToOne : list RelationshipInfo.t;
  manyToMany : list RelationshipInfo.t
}.

(** [max === 1] *)
Definition isOne (max : Multiplicity.bound) : bool :=
  match max with
  | Multiplicity.Num (Js.Int 1) => true
  | _ => false
  end.

(** [max === '*' || Number(max) > 1] *)
Definition isMany (max : Multiplicity.bound) : bool :=
  match max with
  | Multiplicity.Star => true
  | Multiplicity.Num n => Js.gt1 n
  end.

Inductive MultiplicityKind : Type :=
| OneToOne | OneToMany | ManyToOne | ManyToMany.

(** The chain of tests of [analyzeRelationshipMultiplicity]. *)
Definition multiplicityKind (relationship : RelationshipInfo.t) : MultiplicityKind :=
  let sourceMax :=
    Multiplicity.max (RelationshipInfo.sourceMultiplicity relationship) in
  let targetMax :=
    Multiplicity.max (RelationshipInfo.targetMultiplicity relationship) in
  if isOne sourceMax && isOne targetMax then OneToOne
  else if isOne sourceMax && isMany targetMax then OneToMany
  else if isMany sourceMax && isOne targetMax then ManyToOne
  else ManyToMany.

Definition fileMultiplicity (summary : MultiplicitySummary)
  (relationship : RelationshipInfo.t) : MultiplicitySummary :=
  match multiplicityKind relationship with
  | OneToOne =>
      {| oneToOne := oneToOne summary ++ [relationship];
         oneToMany := oneToMany summary;
         manyToOne := manyToOne summary;
         manyToMany := manyToMany summary |}
  | OneToMany =>
      {| oneToOne := oneToOne summary;
         oneToMany := oneToMany summary ++ [relationship];
         manyToOne := manyToOne summary;
         manyToMany := manyToMany summary |}
  | ManyToOne =>
      {| oneToOne := oneToOne summary;
         oneToMany := oneToMany summary;
         manyToOne := manyToOne summary ++ [relationship];
         manyToMany := manyToMany summary |}
  | ManyToMany =>
      {| oneToOne := oneToOne summary;
         oneToMany := oneToMany summary;
         manyToOne := manyToOne summary;
         manyToMany := manyToMany summary ++ [relationship] |}
  end.

Definition analyzeRelationshipMultiplicity (this : RelationshipExtractor)
  : MultiplicitySummary :=
  fold_left fileMultiplicity (getRelationshipsArray this)
    {| oneToOne := []; oneToMany := []; manyToOne := []; manyToMany := [] |}.

Record GraphNode : Type := {
  gn_id : string;
  gn_label : string;
  gn_type : string;
  gn_isMainModule : option bool;
  gn_module : option string
}.

Record GraphEdge : Type := {
  ge_source : string;
  ge_target : string;
  ge_type : string;
  ge_label : option string
}.

Record Graph : Type := {
  nodes : list GraphNode;
  edges : list GraphEdge
}.

(** The classes of the first module named [moduleName], when both a concept
    extractor and a model are set. *)
Definition moduleClassesOf (this : RelationshipExtractor) (moduleName : string)
  : list Class.t :=
  match conceptExtractor this, conceptualModel this with
  | Some _, Some model =>
      match find (fun module => String.eqb (Module_.name module) moduleName)
              (ConceptualModel.modules model) with
      | Some module => Module_.classes module
      | None => []
      end
  | _, _ => []
  end.

Definition addClassNode (moduleName : string) (graph : Graph) (cls : Class.t)
  : Graph :=
  {| nodes := nodes graph ++
              [ {| gn_id := Class.name cls; gn_label := Class.name cls;
                   gn_type := "class"; gn_isMainModule := None;
                   gn_module := Some moduleName |} ];
     edges := edges graph ++
              [ {| ge_source := moduleName; ge_target := Class.name cls;
                   ge_type := "contains"; ge_label := None |} ] |}.

(** [if (!graph.nodes.some(node => node.id === name)) graph.nodes.push(..)] *)
Definition ensureNode (graph : Graph) (name : string) (module : option string)
  : Graph :=
  if Js.some (fun node => String.eqb (gn_id node) name) (nodes graph)
  then graph
  else
    {| nodes := nodes graph ++
                [ {| gn_id := name; gn_label := name; gn_type := "class";
                     gn_isMainModule := None;
                     gn_module :=
                       Some (if truthyName module then default "" module
                             else "external") |} ];
       edges := edges graph |}.

(** [found === moduleName] for a module name that may be [null]. *)
Definition isModule (found : option string) (moduleName : string) : bool :=
  match found with
  | Some n => String.eqb n moduleName
  | None => false
  end.

Definition addRelationshipEdge (this : RelationshipExtractor) (moduleName : string)
  (graph : Graph) (relationship : RelationshipInfo.t) : Graph :=
  let sourceModule := findModuleForClass this (RelationshipInfo.source relationship) in
  let targetModule := findModuleForClass this (RelationshipInfo.target relationship) in
  if isModule sourceModule moduleName || isModule targetModule moduleName
  then
    let withSource :=
      ensureNode graph (RelationshipInfo.source relationship) sourceModule in
    let withTarget :=
      ensureNode withSource (RelationshipInfo.target relationship) targetModule in
    {| nodes := nodes withTarget;
       edges := edges withTarget ++
                [ {| ge_source := RelationshipInfo.source relationship;
                     ge_target := RelationshipInfo.target relationship;
                     ge_type :=
                       Js.toLowerCase
                         (RelationshipType.value (RelationshipInfo.type relationship));
                     ge_label := Some (RelationshipInfo.name relationship) |} ] |}
  else graph.

Definition createModuleRelationshipGraph (this : RelationshipExtractor)
  (moduleName : string) : Graph :=
  let start :=
    {| nodes := [ {| gn_id := moduleName; gn_label := moduleName;
                     gn_type := "module"; gn_isMainModule := Some true;
                     gn_module := None |} ];
       edges := [] |} in
  let withClasses :=
    fold_left (addClassNode moduleName) (moduleClassesOf this moduleName) start in
  fold_left (addRelationshipEdge this moduleName) (getRelationshipsArray this)
    withClasses.

End Extractor.

End Relationships.

(** ** Vocabulary of the statements

    Names for the loop bodies and for the conditions that the properties
    below speak about. *)

Section Vocabulary.
Context {np : NodePath}.

Definition words (s : string) : list string :=
  List.filter (fun w => Nat.ltb 1 (String.length w)) (Js.splitW (Js.toLowerCase s)).

Definition commonWords (s t : string) : list string :=
  List.filter (fun w => Js.arr_includes (words t) w) (words s).

(** What one attribute adds to each bucket of the cardinality summary, and
    the attributes of a whole model taken module by module, class by class. *)
Definition requiredRefs (classInfo : Class.t) (attribute : Attribute.t)
  : list Attributes.AttributeRef :=
  if Attributes.isRequiredCardinality (Attribute.cardinality attribute)
  then [ {| Attributes.className := Class.name classInfo;
            Attributes.attributeName := Attribute.name attribute |} ]
  else [].

Definition optionalRefs (classInfo : Class.t) (attribute : Attribute.t)
  : list Attributes.AttributeRef :=
  if Attributes.isOptionalCardinality (Attribute.cardinality attribute)
  then [ {| Attributes.className := Class.name classInfo;
            Attributes.attributeName := Attribute.name attribute |} ]
  else [].

Definition multiValuedRefs (classInfo : Class.t) (attribute : Attribute.t)
  : list Attributes.MultiValuedRef :=
  if Attributes.isMultiValuedCardinality (Attribute.cardinality attribute)
  then [ {| Attributes.mv_className := Class.name classInfo;
            Attributes.mv_attributeName := Attribute.name attribute;
            Attributes.mv_maxOccurs :=
              default "" (Attributes.maxSegment (Attribute.cardinality attribute)) |} ]
  else [].

Definition overClass {A : Type} (f : Class.t -> Attribute.t -> list A)
  (classInfo : Class.t) : list A :=
  flat_map (f classInfo) (Class.attributes classInfo).

Definition overModule {A : Type} (f : Class.t -> Attribute.t -> list A)
  (module : Module_.t) : list A :=
  flat_map (overClass f) (Module_.classes module).

Definition overModel {A : Type} (f : Class.t -> Attribute.t -> list A)
  (model : ConceptualModel.t) : list A :=
  flat_map (overModule f) (ConceptualModel.modules model).

(** The two tiers of [isCityObjectClass]. *)
Definition hasMarkedSuperClass (classInfo : Class.t) : Prop :=
  exists superClass marker,
    In superClass (default [] (Class.superClasses classInfo)) /\
    In marker Objects.superClassMarkers /\
    Js.includes superClass marker = true.

Definition hasCityObjectName (classInfo : Class.t) : Prop :=
  exists pattern,
    In pattern Objects.cityObjectNamePatterns /\
    Js.includes (Class.name classInfo) pattern = true.

Definition collectStep (cityObjects : JsMap.t Objects.CityObject)
  (module : Module_.t) : JsMap.t Objects.CityObject :=
  if Js.arr_includes Objects.cityObjectModules (Module_.name module)
  then JsMap.setAll cityObjects (Objects.extractCityObjectsFromModule module)
  else cityObjects.

(** The inner loop of [buildObjectHierarchy] for the object under [objectName]. *)
Definition linkStep (objectName : string) (object : Objects.CityObject)
  (potential : string * Objects.CityObject) : Objects.CityObject :=
  let (potentialChildName, potentialChild) := potential in
  if Js.arr_includes (Objects.superClasses potentialChild) objectName
  then Objects.pushChild object potentialChildName
  else object.

(** The superclasses of the object a map holds under a key, and the inner
    loop body of [buildObjectHierarchy] read through such a look-up. *)
Definition supOf (objects : JsMap.t Objects.CityObject) (key : string)
  : option (list string) :=
  option_map Objects.superClasses (JsMap.get objects key).

Definition linkBy (sup : string -> option (list string)) (objectName : string)
  (object : Objects.CityObject) (potentialChildName : string)
  : Objects.CityObject :=
  if match sup potentialChildName with
     | Some supers => Js.arr_includes supers objectName
     | None => false
     end
  then Objects.pushChild object potentialChildName
  else object.

Definition codelistNames (doc : Dom.Document) (moduleName : string) : list string :=
  map Codelist.name (Concepts.extractCodelists doc moduleName).

Definition enumerationNames (doc : Dom.Document) (moduleName : string)
  : list string :=
  map Enumeration.name (Concepts.extractEnumerations doc moduleName).

(** What one import of the root schema contributes to the model: nothing
    when it has no [schemaLocation], when its file cannot be read or parsed,
    or when the file has no [xs:schema] element; one module otherwise. *)
Definition importedModules (fs : FileSystem) (basePath : string)
  (importEl : Dom.Located) : list Module_.t :=
  let schemaLocation := Dom.getAttribute (snd importEl) "schemaLocation" in
  if Js.truthy schemaLocation
  then
    match fs (path_join basePath schemaLocation) with
    | None => []
    | Some moduleXsdDoc =>
        match Dom.selectDoc "xs:schema" moduleXsdDoc with
        | [] => []
        | schemaElement :: _ =>
            [Concepts.moduleOfDocument (path_basename schemaLocation ".xsd")
               schemaElement moduleXsdDoc]
        end
    end
  else [].

(** Two file systems hold the same schema file set, as far as an extractor
    with base path [basePath] reads it: the same root schema and, for every
    import of that root schema, the same imported file. *)
Definition sameSchemaFiles (basePath : string) (fs1 fs2 : FileSystem) : Prop :=
  fs1 (path_join basePath "CityGML.xsd") = fs2 (path_join basePath "CityGML.xsd") /\
  forall mainXsdDoc importEl,
    fs1 (path_join basePath "CityGML.xsd") = Some mainXsdDoc ->
    In importEl (Dom.selectDoc "xs:import" mainXsdDoc) ->
    fs1 (path_join basePath (Dom.getAttribute (snd importEl) "schemaLocation"))
    = fs2 (path_join basePath (Dom.getAttribute (snd importEl) "schemaLocation")).

(** The id that the extractor builds from kind, source, target and, where
    the relationship has one, the target role. *)
Definition relationshipIdOf (type : RelationshipType.t) (source target : string)
  (targetRole : option string) : string :=
  match targetRole with
  | None =>
      RelationshipType.value type +:+ "_" +:+ source +:+ "_" +:+ target
  | Some role =>
      RelationshipType.value type +:+ "_" +:+ source +:+ "_" +:+ role +:+ "_" +:+
      target
  end.

(** An entry is well keyed: it sits under its own id, and its id is the one
    built from its kind, source, target and role. *)
Definition wellKeyed (key : string) (r : RelationshipInfo.t) : Prop :=
  RelationshipInfo.id r = key /\
  RelationshipInfo.id r =
    relationshipIdOf (RelationshipInfo.type r) (RelationshipInfo.source r)
      (RelationshipInfo.target r) (RelationshipInfo.targetRole r).

Definition allWellKeyed (this : Relationships.RelationshipExtractor) : Prop :=
  map_Forall wellKeyed (Relationships.relationships this).



(** A path that the loading loop of [extractRelationships] passes over: the
    file cannot be read or parsed, has no [xs:schema] element, or its schema
    element has no target namespace. *)
Definition skippedFile (fs : FileSystem) (xsdFilePath : string) : Prop :=
  match fs xsdFilePath with
  | None => True
  | Some moduleXsdDoc =>
      match Dom.selectDoc "xs:schema" moduleXsdDoc with
      | [] => True
      | schemaElement :: _ =>
          Dom.getAttribute (snd schemaElement) "targetNamespace" = ""
      end
  end.

(** The shape of an edge by its kind. *)
Definition wellShaped (r : RelationshipInfo.t) : Prop :=
  RelationshipInfo.direction r = RelationshipDirection.UNIDIRECTIONAL /\
  RelationshipInfo.source r <> "" /\
  RelationshipInfo.sourceRole r
    = option_map (fun _ => Js.toLowerCase (RelationshipInfo.source r))
        (RelationshipInfo.targetRole r) /\
  match RelationshipInfo.type r with
  | RelationshipType.GENERALIZATION =>
      RelationshipInfo.sourceMultiplicity r = Multiplicity.zero_many /\
      RelationshipInfo.targetMultiplicity r = Multiplicity.one_one /\
      RelationshipInfo.spatialType r = None /\
      RelationshipInfo.targetRole r = None
  | RelationshipType.SPATIAL =>
      RelationshipInfo.sourceMultiplicity r = Multiplicity.one_one /\
      Multiplicity.min (RelationshipInfo.targetMultiplicity r) = Js.Int 0 /\
      RelationshipInfo.spatialType r <> None
  | RelationshipType.ASSOCIATION
  | RelationshipType.AGGREGATION
  | RelationshipType.COMPOSITION =>
      RelationshipInfo.sourceMultiplicity r = Multiplicity.one_one /\
      RelationshipInfo.spatialType r = None
  | RelationshipType.TEMPORAL | RelationshipType.THEMATIC => False
  end.

(** Every edge of a graph runs between two of its nodes. *)
Definition hasNode (graph : Relationships.Graph) (name : string) : Prop :=
  exists node, In node (Relationships.nodes graph) /\
               Relationships.gn_id node = name.

Definition graphClosed (graph : Relationships.Graph) : Prop :=
  forall edge, In edge (Relationships.edges graph) ->
    hasNode graph (Relationships.ge_source edge) /\
    hasNode graph (Relationships.ge_target edge).

Definition allWellShaped (this : Relationships.RelationshipExtractor) : Prop :=
  map_Forall (fun _ r => wellShaped r) (Relationships.relationships this).

(** The bucket of a multiplicity summary by kind. *)
Definition bucketOf (kind : Relationships.MultiplicityKind)
  (summary : Relationships.MultiplicitySummary) : list RelationshipInfo.t :=
  match kind with
  | Relationships.OneToOne => Relationships.oneToOne summary
  | Relationships.OneToMany => Relationships.oneToMany summary
  | Relationships.ManyToOne => Relationships.manyToOne summary
  | Relationships.ManyToMany => Relationships.manyToMany summary
  end.

Definition sameKind (a b : Relationships.MultiplicityKind) : bool :=
  match a, b with
  | Relationships.OneToOne, Relationships.OneToOne
  | Relationships.OneToMany, Relationships.OneToMany
  | Relationships.ManyToOne, Relationships.ManyToOne
  | Relationships.ManyToMany, Relationships.ManyToMany => true
  | _, _ => false
  end.

(** What [extractModuleRelationships] keeps true of its result while it
    walks the relationships. *)
Definition tidyModuleRelationships (mr : Relationships.ModuleRelationships)
  : Prop :=
  List.NoDup (Relationships.dependencies mr) /\
  (forall dep, In dep (Relationships.dependencies mr) ->
     Relationships.ml_source dep <> Relationships.ml_target dep /\
     Relationships.ml_source dep <> "" /\
     Relationships.ml_target dep <> "") /\
  (forall assoc, In assoc (Relationships.crossModuleAssociations mr) ->
     In {| Relationships.ml_source := Relationships.ma_source assoc;
           Relationships.ml_target := Relationships.ma_target assoc |}
        (Relationships.dependencies mr)) /\
  Relationships.crossModuleGeneralizations mr = [].

(** Where an edge of the graph of module [moduleName] comes from: the
    module and one of its classes, or a relationship with an end in the
    module. *)
Definition edgeOfModule (this : Relationships.RelationshipExtractor)
  (moduleName : string) (edge : Relationships.GraphEdge) : Prop :=
  (Relationships.ge_source edge = moduleName /\
   Relationships.ge_type edge = "contains" /\
   exists cls, In cls (Relationships.moduleClassesOf this moduleName) /\
               Relationships.ge_target edge = Class.name cls) \/
  (exists r, In r (Relationships.getRelationshipsArray this) /\
             Relationships.ge_source edge = RelationshipInfo.source r /\
             Relationships.ge_target edge = RelationshipInfo.target r /\
             Relationships.ge_label edge = Some (RelationshipInfo.name r) /\
             (Relationships.findModuleForClass this (RelationshipInfo.source r)
                = Some moduleName \/
              Relationships.findModuleForClass this (RelationshipInfo.target r)
                = Some moduleName)).

(** What [extractLodInfo] keeps true of its record: the levels are digits,
    [maxLod] is the greatest of them, [minLod] is one of them and the least
    when no level is 0; without levels both are 0. *)
Definition lodSummary (info : Objects.LodInfo) : Prop :=
  let levels := map Objects.la_level (Objects.lodAttributes info) in
  Forall (fun level => 0 <= level <= 9)%Z levels /\
  Forall (fun level => level <= Objects.maxLod info)%Z levels /\
  (0 <= Objects.minLod info <= Objects.maxLod info)%Z /\
  (levels = [] -> Objects.maxLod info = 0%Z /\ Objects.minLod info = 0%Z) /\
  (levels <> [] ->
   In (Objects.maxLod info) levels /\ In (Objects.minLod info) levels) /\
  (~ In 0%Z levels -> Forall (fun level => Objects.minLod info <= level)%Z levels).

(** Where an entry of [lodAttributes] comes from. *)
Definition lodSource (classInfo : Class.t) (entry : Objects.LodAttribute) : Prop :=
  Objects.hasLodName (Objects.la_name entry) = true /\
  Objects.la_level entry = Objects.extractLodLevel (Objects.la_name entry) /\
  ((exists attribute, In attribute (Class.attributes classInfo) /\
      Objects.la_name entry = Attribute.name attribute /\
      Objects.la_type entry = Attribute.type attribute /\
      Objects.la_role entry = None) \/
   (exists association,
      In association (default [] (Class.associations classInfo)) /\
      Objects.la_name entry = Association.name association /\
      Objects.la_type entry = Association.target association /\
      Objects.la_role entry = Association.role association)).

(** The children that the entries of a map give to the key [parent]. *)
Definition childrenOf (objects : JsMap.t Objects.CityObject) (parent : string)
  : list string :=
  map fst
    (List.filter
       (fun entry => Js.arr_includes (Objects.superClasses (snd entry)) parent)
       objects).

(** An entry that differs from the object built for a class in its children
    at most. *)
Definition builtFrom (module : Module_.t) (classInfo : Class.t)
  (object : Objects.CityObject) : Prop :=
  Objects.name object = Class.name classInfo /\
  Objects.module object = Module_.name module /\
  Objects.isAbstract object
    = Objects.isAbstract (Objects.cityObjectOfClass module classInfo) /\
  Objects.superClasses object = default [] (Class.superClasses classInfo) /\
  Objects.attributes object = Class.attributes classInfo /\
  Objects.associations object = default [] (Class.associations classInfo) /\
  Objects.geometryProperties object = Objects.extractGeometryProperties classInfo /\
  Objects.lodInfo object = Objects.extractLodInfo classInfo /\
  Objects.thematicAttributes object = Objects.extractThematicAttributes classInfo.

(** The loop body of [classifyObjectsByModule]. *)
Definition classifyStep (objectsByModule : JsMap.t (list string))
  (module : Module_.t) : JsMap.t (list string) :=
  if Js.arr_includes Objects.cityObjectModules (Module_.name module)
  then JsMap.set objectsByModule (Module_.name module)
         (map Class.name
            (List.filter Objects.isCityObjectClass (Module_.classes module)))
  else objectsByModule.

(** The number of attributes filed under the five categories of
    [extractClassAttributes]. *)
Definition filedCount (result : Attributes.ClassAttributes) : nat :=
  (List.length (Attributes.basicAttributes result) +
   List.length (Attributes.geometryAttributes result) +
   List.length (Attributes.metadataAttributes result) +
   List.length (Attributes.codelistAttributes result) +
   List.length (Attributes.enumerationAttributes result))%nat.

(** Each category holds what the chain of tests sends there, the earlier
    tests having failed; a code list or enumeration attribute carries the
    code list or enumeration whose name its type contains. *)
Definition filedRight (this : Attributes.AttributeExtractor)
  (result : Attributes.ClassAttributes) : Prop :=
  Forall (fun info =>
            Attributes.isGeometryAttribute (Attributes.ai_type info) = true)
    (Attributes.geometryAttributes result) /\
  Forall (fun info =>
            Attributes.isGeometryAttribute (Attributes.ai_type info) = false /\
            Attributes.isMetadataAttribute (Attributes.ai_name info) = true)
    (Attributes.metadataAttributes result) /\
  Forall (fun entry =>
            let info := Attributes.cl_info entry in
            Attributes.isGeometryAttribute (Attributes.ai_type info) = false /\
            Attributes.isMetadataAttribute (Attributes.ai_name info) = false /\
            exists codelist,
              Attributes.cl_codelist entry = Some codelist /\
              Js.includes (Attributes.ai_type info) (Codelist.name codelist) = true)
    (Attributes.codelistAttributes result) /\
  Forall (fun entry =>
            let info := Attributes.en_info entry in
            Attributes.isGeometryAttribute (Attributes.ai_type info) = false /\
            Attributes.isMetadataAttribute (Attributes.ai_name info) = false /\
            Attributes.isCodelistAttribute this (Attributes.ai_type info) = false /\
            exists enumeration,
              Attributes.en_enumeration entry = Some enumeration /\
              Js.includes (Attributes.ai_type info) (Enumeration.name enumeration)
                = true)
    (Attributes.enumerationAttributes result) /\
  Forall (fun info =>
            Attributes.isGeometryAttribute (Attributes.ai_type info) = false /\
            Attributes.isMetadataAttribute (Attributes.ai_name info) = false /\
            Attributes.isCodelistAttribute this (Attributes.ai_type info) = false /\
            Attributes.isEnumerationAttribute this (Attributes.ai_type info) = false)
    (Attributes.basicAttributes result).

(** A string without a full stop. *)
Definition noDot (s : string) : bool :=
  forallb (fun c => negb (Ascii.eqb "." c)) (list_ascii_of_string s).

(** What every module built from a schema file satisfies. *)
Definition wellFormedAttribute (attribute : Attribute.t) : Prop :=
  Attribute.name attribute <> "" /\
  Attribute.type attribute <> "" /\
  Js.includes (Attribute.cardinality attribute) ".." = true /\
  Attribute.isNillable attribute <> None /\
  Attribute.description attribute <> None.

Definition wellFormedAssociation (association : Association.t) : Prop :=
  Association.name association <> "" /\
  Association.target association = Association.name association /\
  Association.role association = Some (Association.name association) /\
  Js.includes (Association.cardinality association) ".." = true.

Definition wellFormedClass (moduleName : string) (classInfo : Class.t) : Prop :=
  Class.name classInfo <> "" /\
  Class.module classInfo = moduleName /\
  Forall wellFormedAttribute (Class.attributes classInfo) /\
  (exists associations,
     Class.associations classInfo = Some associations /\
     Forall wellFormedAssociation associations) /\
  (exists constraints,
     Class.constraints classInfo = Some constraints /\
     Forall (fun constraint => Constraint.name constraint = "Constraint")
       constraints) /\
  (exists superClasses,
     Class.superClasses classInfo = Some superClasses /\
     Forall (fun superClass => superClass <> "") superClasses) /\
  Class.isAbstract classInfo <> None.

Definition wellFormedModule (module : Module_.t) : Prop :=
  Forall (wellFormedClass (Module_.name module)) (Module_.classes module) /\
  (exists codelists,
     Module_.codelists module = Some codelists /\
     Forall (fun codelist =>
               Codelist.name codelist <> "" /\
               Js.endsWith (Codelist.name codelist) "EnumBase" = false)
       codelists) /\
  (exists enumerations,
     Module_.enumerations module = Some enumerations /\
     Forall (fun enumeration =>
               Js.includes (Enumeration.name enumeration) "EnumBase" = true)
       enumerations) /\
  Module_.dependencies module <> None.

(** The constraints filed by [analyzeAttributeConstraints], and what each
    kind holds. *)
Definition constraintsFiled (summary : Attributes.ConstraintsSummary) : nat :=
  (List.length (Attributes.valueConstraints summary) +
   List.length (Attributes.typeConstraints summary) +
   List.length (Attributes.referentialConstraints summary))%nat.

Definition constraintsFiledRight (summary : Attributes.ConstraintsSummary)
  : Prop :=
  Forall (fun ref =>
            Attributes.isValueConstraint
              (Js.toLowerCase (Attributes.cr_description ref)) = true)
    (Attributes.valueConstraints summary) /\
  Forall (fun ref =>
            Attributes.isValueConstraint
              (Js.toLowerCase (Attributes.cr_description ref)) = false /\
            Attributes.isTypeConstraint
              (Js.toLowerCase (Attributes.cr_description ref)) = true)
    (Attributes.typeConstraints summary) /\
  Forall (fun ref =>
            Attributes.isValueConstraint
              (Js.toLowerCase (Attributes.cr_description ref)) = false /\
            Attributes.isTypeConstraint
              (Js.toLowerCase (Attributes.cr_description ref)) = false /\
            Attributes.isReferentialConstraint
              (Js.toLowerCase (Attributes.cr_description ref)) = true)
    (Attributes.referentialConstraints summary).

(** A constraint whose description holds one of the seven phrases. *)
Definition isFiledConstraint (constraint : Constraint.t) : bool :=
  let desc := Js.toLowerCase (Constraint.description constraint) in
  Attributes.isValueConstraint desc || Attributes.isTypeConstraint desc ||
  Attributes.isReferentialConstraint desc.

Definition constraintsOf (model : ConceptualModel.t) : list Constraint.t :=
  flat_map (fun classInfo => default [] (Class.constraints classInfo))
    (Attributes.classesOf model).

End Vocabulary.

(** ** Sample inputs

    A [NodePath] that is exact on the plain relative paths of the samples,
    and small schema files in the shape of the CityGML ones. *)

Module Samples.

Definition lastSegment (p : string) : string :=
  default "" (Js.pop (Js.split p "/")).

Definition posixPath : NodePath :=
  {| path_join := fun a b => a +:+ "/" +:+ b;
     path_basename := fun p ext =>
       let b := lastSegment p in
       if Js.endsWith b ext && negb (String.eqb b ext)
       then String.substring 0 (String.length b - String.length ext) b
       else b |}.

Definition E := Dom.Element.

(** A building module: one class with an element of each kind, a typed
    attribute marked as required, and three simple types with enumeration
    facets (one of them without a name). *)
Definition buildingXsd : Dom.Document :=
  {| Dom.childNodes :=
    [ E "xs:schema"
        [("targetNamespace", "http://www.opengis.net/citygml/building/3.0")]
        [ E "xs:import" [("schemaLocation", "construction.xsd")] [];
          E "xs:complexType" [("name", "BuildingType")]
            [ E "xs:complexContent" []
                [ E "xs:extension" [("base", "con:AbstractBuildingType")]
                    [ E "xs:sequence" []
                        [ E "xs:element"
                            [("name", "lod2Solid");
                             ("type", "gml:SolidPropertyType");
                             ("minOccurs", "0")] [];
                          E "xs:element"
                            [("name", "storeysAboveGround");
                             ("type", "xs:integer");
                             ("minOccurs", "4"); ("maxOccurs", "4")] [];
                          E "xs:element"
                            [("name", "buildingPart");
                             ("type", "bldg:BuildingPartPropertyType");
                             ("minOccurs", "0"); ("maxOccurs", "unbounded")] [];
                          E "xs:element" [("ref", "bldg:address")] [] ];
                      E "xs:attribute"
                        [("name", "usage"); ("type", "bldg:UsageType");
                         ("use", "required")] [] ] ] ];
          E "xs:simpleType" [("name", "RoofTypeEnumBase")]
            [ E "xs:restriction" [("base", "xs:string")]
                [ E "xs:enumeration" [("value", "flat")] [] ] ];
          E "xs:simpleType" [("name", "EnumBaseOfRoofs")]
            [ E "xs:restriction" [("base", "xs:string")]
                [ E "xs:enumeration" [("value", "gabled")] [] ] ];
          E "xs:element" [("name", "height")]
            [ E "xs:simpleType" []
                [ E "xs:restriction" [("base", "xs:string")]
                    [ E "xs:enumeration" [("value", "low")] [] ] ] ] ] ] |}.

(** The root schema, importing the building module and a file that is not
    there. *)
Definition cityGmlXsd : Dom.Document :=
  {| Dom.childNodes :=
    [ E "xs:schema" [("targetNamespace", "http://www.opengis.net/citygml/3.0")]
        [ E "xs:import" [("schemaLocation", "building.xsd")] [];
          E "xs:import" [("schemaLocation", "missing.xsd")] [] ] ] |}.

Definition files : FileSystem :=
  fun path =>
    if String.eqb path "xsds/CityGML.xsd" then Some cityGmlXsd
    else if String.eqb path "xsds/building.xsd" then Some buildingXsd
    else None.

(** A conceptual model with two classes named [Building]: one in the
    [building] module and one in the [core] module. *)
Definition plainClass (name module : string) (supers : list string) : Class.t :=
  {| Class.name := name; Class.description := ""; Class.module := module;
     Class.superClasses := Some supers; Class.attributes := [];
     Class.associations := Some []; Class.constraints := Some [];
     Class.isAbstract := Some false |}.

Definition plainModule (name : string) (classes : list Class.t) : Module_.t :=
  {| Module_.name := name; Module_.namespace := ""; Module_.description := "";
     Module_.classes := classes; Module_.codelists := Some [];
     Module_.enumerations := Some []; Module_.dependencies := Some [] |}.

Definition coreOnlyModel : ConceptualModel.t :=
  {| ConceptualModel.version := "3.0.0";
     ConceptualModel.modules :=
       [ plainModule "core" [ plainClass "Building" "core" [] ] ] |}.

Definition buildingModel : ConceptualModel.t :=
  {| ConceptualModel.version := "3.0.0";
     ConceptualModel.modules :=
       [ plainModule "building"
           [ plainClass "AbstractBuilding" "building" ["AbstractOccupiedSpace"];
             plainClass "Building" "building" ["AbstractBuilding"];
             plainClass "BuildingPart" "building" ["AbstractBuilding"] ] ] |}.

(** A relationship extractor with both collaborators set, and its run over
    the building module. *)
Definition sampleExtractor : Relationships.RelationshipExtractor :=
  Relationships.setXsdBasePath
    (Relationships.setObjectExtractor
       (Relationships.setConceptExtractor Relationships.new (Concepts.new "xsds"))
       {| Objects.conceptualModel := None |})
    "xsds".

Definition sampleRun
  : Result (gmap string RelationshipInfo.t) * Relationships.RelationshipExtractor :=
  Relationships.extractRelationships (np := posixPath) files sampleExtractor
    ["xsds/building.xsd"].

Definition sampleRelationships : gmap string RelationshipInfo.t :=
  Relationships.relationships (snd sampleRun).

Definition noRelationship : RelationshipInfo.t :=
  {| RelationshipInfo.id := "";
     RelationshipInfo.name := "";
     RelationshipInfo.type := RelationshipType.THEMATIC;
     RelationshipInfo.source := "";
     RelationshipInfo.target := "";
     RelationshipInfo.sourceRole := None;
     RelationshipInfo.targetRole := None;
     RelationshipInfo.sourceMultiplicity := Multiplicity.zero_many;
     RelationshipInfo.targetMultiplicity := Multiplicity.zero_many;
     RelationshipInfo.direction := RelationshipDirection.BIDIRECTIONAL;
     RelationshipInfo.spatialType := None;
     RelationshipInfo.description := None;
     RelationshipInfo.xsdPath := "" |}.

(** The entries of the run for the extension of [BuildingType], for its
    element [buildingPart] and for its attribute [usage]. *)
Definition buildingGeneralization : RelationshipInfo.t :=
  Eval vm_compute in
    default noRelationship
      (sampleRelationships !! "generalization_BuildingType_AbstractBuildingType").

Definition buildingPartComposition : RelationshipInfo.t :=
  Eval vm_compute in
    default noRelationship
      (sampleRelationships
         !! "composition_BuildingType_buildingPart_BuildingPartPropertyType").

Definition usageAssociation : RelationshipInfo.t :=
  Eval vm_compute in
    default noRelationship
      (sampleRelationships !! "association_BuildingType_usage_UsageType").

(** The attribute [usage] of the building schema, located in its tree. *)
Definition usageAttribute : Dom.Located :=
  Eval vm_compute in
    nth 0 (Dom.selectDoc "xs:attribute" buildingXsd) ([], Dom.Text "").

(** The simple type [RoofTypeEnumBase] of the building schema. *)
Definition roofTypeSimpleType : Dom.Located :=
  Eval vm_compute in
    nth 0 (Concepts.enumeratedSimpleTypes buildingXsd) ([], Dom.Text "").

(** The object mapping of [buildingModel] and two of its entries. *)
Definition sampleHierarchy : JsMap.t Objects.CityObject :=
  Eval vm_compute in
    match Objects.extractAllCityObjects
            {| Objects.conceptualModel := Some buildingModel |} with
    | inr objects => objects
    | inl _ => []
    end.

Definition noEntry : string * Objects.CityObject :=
  ("", Objects.cityObjectOfClass (plainModule "" []) (plainClass "" "" [])).

Definition abstractBuildingEntry : string * Objects.CityObject :=
  Eval vm_compute in nth 0 sampleHierarchy noEntry.

Definition buildingEntry : string * Objects.CityObject :=
  Eval vm_compute in nth 1 sampleHierarchy noEntry.

(** The sample files with one more file that no schema imports. *)
Definition filesWithExtra : FileSystem :=
  fun path =>
    if String.eqb path "xsds/unrelated.xsd" then Some cityGmlXsd else files path.

(** The model that a new concept extractor reads off the sample files, and
    the extractor afterwards. *)
Definition extractedConcepts : Concepts.ConceptExtractor :=
  Eval vm_compute in
    snd (Concepts.extractAllModules (np := posixPath) files (Concepts.new "xsds")).

Definition extractedModel : ConceptualModel.t :=
  Eval vm_compute in Concepts.conceptModel extractedConcepts.

(** The element [buildingPart] of the building schema, and the attribute
    record read off the schema attribute [usage]. *)
Definition buildingPartElement : Dom.Located :=
  Eval vm_compute in
    nth 2 (Dom.selectDoc "xs:element" buildingXsd) ([], Dom.Text "").

Definition noAttribute : Attribute.t :=
  {| Attribute.name := ""; Attribute.description := None; Attribute.type := "";
     Attribute.cardinality := ""; Attribute.isNillable := None;
     Attribute.defaultValue := None |}.

Definition usageConceptAttribute : Attribute.t :=
  Eval vm_compute in nth 0 (Concepts.attributeOfAttr usageAttribute) noAttribute.

(** The classes of [buildingModel] by module. *)
Definition sampleClassification : JsMap.t (list string) :=
  Eval vm_compute in
    match Objects.classifyObjectsByModule
            {| Objects.conceptualModel := Some buildingModel |} with
    | inr objectsByModule => objectsByModule
    | inl _ => []
    end.

End Samples.

(** * Properties *)

(** ** Relevance score *)

Example splitW_pieces : Js.splitW " a bc,,d " = [""; "a"; "bc"; "d"; ""].
Proof. reflexivity. Qed.

Example split_cardinality : Js.split "1..*" ".." = ["1"; "*"].
Proof. reflexivity. Qed.

Example split_leftmost : Js.split "a...b" ".." = ["a"; ".b"].
Proof. reflexivity. Qed.

Example parseInt10_digits : Js.parseInt10 " 12px" = Js.Int 12.
Proof. reflexivity. Qed.

Example parseInt10_none : Js.parseInt10 "unbounded" = Js.NaN.
Proof. reflexivity. Qed.

Example parseInt_hex : Js.parseInt "0x1f" = Js.Int 31.
Proof. reflexivity. Qed.

Example remove_first_suffix :
  Js.remove_first "SolidPropertyType" "PropertyType" = "Solid".
Proof. reflexivity. Qed.

Example withoutPrefix_second_piece :
  Relationships.withoutPrefix "a:b:c" = "b" /\ Concepts.stripPrefix "a:b:c" = "c".
Proof. split; reflexivity. Qed.

Example lod_of_lod2Solid :
  Objects.hasLodName "lod2Solid" = true /\ Objects.extractLodLevel "lod2Solid" = 2%Z.
Proof. split; reflexivity. Qed.

Example lod_without_digit :
  Objects.hasLodName "maxLOD" = true /\ Objects.extractLodLevel "maxLOD" = (-1)%Z.
Proof. split; reflexivity. Qed.

(** The extension of [BuildingType] in the sample schema gives the
    generalization edge of the specification's scenario: source 0..*,
    target 1..1. *)
Example generalization_of_sample :
  RelationshipInfo.id Samples.buildingGeneralization
    = "generalization_BuildingType_AbstractBuildingType" /\
  RelationshipInfo.sourceMultiplicity Samples.buildingGeneralization
    = Multiplicity.zero_many /\
  RelationshipInfo.targetMultiplicity Samples.buildingGeneralization
    = Multiplicity.one_one.
Proof. repeat split. Qed.

Example relevance_exact : (Context.calculateRelevance "Building" "building" == 1)%Q.
Proof. vm_compute. reflexivity. Qed.

Example relevance_contains :
  (Context.calculateRelevance "BuildingPart" "building" == 8 # 10)%Q.
Proof. vm_compute. reflexivity. Qed.

Example relevance_jaccard :
  (Context.calculateRelevance "city model data" "data city part" == 1 # 2)%Q.
Proof. vm_compute. reflexivity. Qed.

Section Relevance.

Lemma arr_includes_In (arr : list string) (x : string) :
  Js.arr_includes arr x = true <-> In x arr.
Proof.
  unfold Js.arr_includes. rewrite existsb_exists. split.
  - intros [y [Hy Heq]]. apply String.eqb_eq in Heq. now subst.
  - intros Hx. exists x. split; [assumption | apply String.eqb_refl].
Qed.

Lemma calculateRelevance_equal (s t : string) :
  Js.toLowerCase s = Js.toLowerCase t ->
  Context.calculateRelevance s t = 1%Q.
Proof.
  intros Heq. unfold Context.calculateRelevance.
  rewrite Heq, String.eqb_refl. reflexivity.
Qed.

Lemma calculateRelevance_contains (s t : string) :
  Js.toLowerCase s <> Js.toLowerCase t ->
  Js.includes (Js.toLowerCase s) (Js.toLowerCase t) = true \/
  Js.includes (Js.toLowerCase t) (Js.toLowerCase s) = true ->
  Context.calculateRelevance s t = (8 # 10)%Q.
Proof.
  intros Hne Hincl. unfold Context.calculateRelevance.
  destruct (String.eqb_spec (Js.toLowerCase s) (Js.toLowerCase t)) as [E | _].
  - contradiction.
  - destruct Hincl as [-> | ->]; [reflexivity | now rewrite orb_true_r].
Qed.

(** In the last branch the score is the quotient of the list lengths. *)
Lemma calculateRelevance_words (s t : string) :
  Js.toLowerCase s <> Js.toLowerCase t ->
  Js.includes (Js.toLowerCase s) (Js.toLowerCase t) = false ->
  Js.includes (Js.toLowerCase t) (Js.toLowerCase s) = false ->
  Context.calculateRelevance s t =
  if Nat.eqb (length (words s)) 0 || Nat.eqb (length (words t)) 0 then 0%Q
  else (inject_Z (Z.of_nat (length (commonWords s t))) /
        inject_Z (Z.of_nat (length (words s)) + Z.of_nat (length (words t))
                  - Z.of_nat (length (commonWords s t))))%Q.
Proof.
  intros Hne H1 H2. unfold Context.calculateRelevance.
  destruct (String.eqb_spec (Js.toLowerCase s) (Js.toLowerCase t)) as [E | _];
    [contradiction |].
  rewrite H1, H2. reflexivity.
Qed.

Lemma filter_length_le {A} (f : A -> bool) (l : list A) :
  (length (List.filter f l) <= length l)%nat.
Proof.
  induction l as [| a l IH]; simpl; [lia |].
  destruct (f a); simpl; lia.
Qed.

Lemma quotient_nonneg (a b : Z) :
  (0 <= a)%Z -> (0 < b)%Z -> (0 <= inject_Z a / inject_Z b)%Q.
Proof.
  intros Ha Hb. apply Qle_shift_div_l.
  - change 0%Q with (inject_Z 0). rewrite <- Zlt_Qlt. exact Hb.
  - rewrite Qmult_0_l. change 0%Q with (inject_Z 0). rewrite <- Zle_Qle. exact Ha.
Qed.

Lemma quotient_le_1 (a b : Z) :
  (0 < b)%Z -> (a <= b)%Z -> (inject_Z a / inject_Z b <= 1)%Q.
Proof.
  intros Hb Hab. apply Qle_shift_div_r.
  - change 0%Q with (inject_Z 0). rewrite <- Zlt_Qlt. exact Hb.
  - rewrite Qmult_1_l. rewrite <- Zle_Qle. exact Hab.
Qed.

(** The score is never negative. *)
Lemma calculateRelevance_nonneg (s t : string) :
  (0 <= Context.calculateRelevance s t)%Q.
Proof.
  destruct (String.eqb_spec (Js.toLowerCase s) (Js.toLowerCase t)) as [E | NE].
  - rewrite (calculateRelevance_equal _ _ E). discriminate.
  - destruct (Js.includes (Js.toLowerCase s) (Js.toLowerCase t)) eqn:H1.
    { rewrite calculateRelevance_contains by auto. discriminate. }
    destruct (Js.includes (Js.toLowerCase t) (Js.toLowerCase s)) eqn:H2.
    { rewrite calculateRelevance_contains by auto. discriminate. }
    rewrite (calculateRelevance_words _ _ NE H1 H2).
    destruct (Nat.eqb_spec (length (words s)) 0) as [| N1]; simpl;
      [apply Qle_refl |].
    destruct (Nat.eqb_spec (length (words t)) 0) as [| N2]; simpl;
      [apply Qle_refl |].
    pose proof (filter_length_le (fun w => Js.arr_includes (words t) w) (words s)) as Hc.
    fold (commonWords s t) in Hc.
    apply quotient_nonneg; lia.
Qed.

(** When no token of the first string repeats, the quotient is the Jaccard
    index of two sets and stays within the unit interval. *)
Lemma calculateRelevance_le_1_nodup (s t : string) :
  List.NoDup (words s) ->
  (Context.calculateRelevance s t <= 1)%Q.
Proof.
  intros Hnd.
  destruct (String.eqb_spec (Js.toLowerCase s) (Js.toLowerCase t)) as [E | NE].
  - rewrite (calculateRelevance_equal _ _ E). apply Qle_refl.
  - destruct (Js.includes (Js.toLowerCase s) (Js.toLowerCase t)) eqn:H1.
    { rewrite calculateRelevance_contains by auto. discriminate. }
    destruct (Js.includes (Js.toLowerCase t) (Js.toLowerCase s)) eqn:H2.
    { rewrite calculateRelevance_contains by auto. discriminate. }
    rewrite (calculateRelevance_words _ _ NE H1 H2).
    destruct (Nat.eqb_spec (length (words s)) 0) as [| N1]; simpl;
      [discriminate |].
    destruct (Nat.eqb_spec (length (words t)) 0) as [| N2]; simpl;
      [discriminate |].
    pose proof (filter_length_le (fun w => Js.arr_includes (words t) w) (words s)) as Hc.
    fold (commonWords s t) in Hc.
    assert (Hc2 : (length (commonWords s t) <= length (words t))%nat).
    { apply List.NoDup_incl_length.
      - unfold commonWords. now apply List.NoDup_filter.
      - intros w Hw. unfold commonWords in Hw. apply filter_In in Hw.
        destruct Hw as [_ Hw]. now apply arr_includes_In. }
    apply quotient_le_1; lia.
Qed.

End Relevance.

(** C1 (the code departs from the claim).  The score of
    [calculateRelevance] is documented as lying between 0 and 1 and as a
    Jaccard similarity, but the tokens are counted as array elements, not as
    set members: a token repeated in the first string is counted once per
    occurrence.  For ["ab ab ab"] against ["ab cd"] the three array lengths
    are 3, 2 and 3, and the score is 3 / (3 + 2 - 3) = 3/2, above 1. *)
Theorem calculateRelevance_repeated_token_exceeds_one :
  (Context.calculateRelevance "ab ab ab" "ab cd" == 3 # 2)%Q /\
  ~ (Context.calculateRelevance "ab ab ab" "ab cd" <= 1)%Q.
Proof.
  split.
  - vm_compute. reflexivity.
  - vm_compute. intros Hle. apply Hle. reflexivity.
Qed.

(** ** Cardinality analysis *)

Section Cardinality.

Lemma isRequiredCardinality_digits (cardinality : string) :
  Attributes.isRequiredCardinality cardinality = true <->
  exists rest, cardinality = String "1" rest \/ cardinality = String "2" rest \/
               cardinality = String "3" rest.
Proof.
  unfold Attributes.isRequiredCardinality. split.
  - destruct cardinality as [| c rest]; cbn [Js.startsWith]; [discriminate |].
    intros Hc. exists rest. rewrite !andb_true_r in Hc.
    destruct (Ascii.eqb_spec "1" c) as [<- | N1]; [now left |].
    destruct (Ascii.eqb_spec "2" c) as [<- | N2]; [now right; left |].
    destruct (Ascii.eqb_spec "3" c) as [<- | N3]; [now right; right |].
    discriminate.
  - intros [rest [-> | [-> | ->]]]; reflexivity.
Qed.

Lemma isOptionalCardinality_zero (cardinality : string) :
  Attributes.isOptionalCardinality cardinality = true <->
  exists rest, cardinality = String "0" rest.
Proof.
  unfold Attributes.isOptionalCardinality, Attributes.isRequiredCardinality.
  split.
  - destruct cardinality as [| c rest]; cbn [Js.startsWith]; [discriminate |].
    intros Hc. exists rest. rewrite !andb_true_r in Hc.
    destruct (Ascii.eqb_spec "0" c) as [<- | N0]; [reflexivity |].
    rewrite andb_false_r in Hc. discriminate.
  - intros [rest ->]. reflexivity.
Qed.

Lemma fold_left_appends {S X A : Type} (proj : S -> list A) (step : S -> X -> S)
  (g : X -> list A) (l : list X) (s : S) :
  (forall s x, proj (step s x) = proj s ++ g x) ->
  proj (fold_left step l s) = proj s ++ flat_map g l.
Proof.
  intros Hstep. revert s. induction l as [| x l IH]; intros s; cbn [fold_left flat_map].
  - now rewrite app_nil_r.
  - now rewrite IH, Hstep, app_assoc.
Qed.

Lemma analyzeAttribute_appends (classInfo : Class.t)
  (summary : Attributes.CardinalitySummary) (attribute : Attribute.t) :
  Attributes.analyzeAttribute classInfo summary attribute =
  {| Attributes.requiredAttributes :=
       Attributes.requiredAttributes summary ++ requiredRefs classInfo attribute;
     Attributes.optionalAttributes :=
       Attributes.optionalAttributes summary ++ optionalRefs classInfo attribute;
     Attributes.multiValuedAttributes :=
       Attributes.multiValuedAttributes summary ++
       multiValuedRefs classInfo attribute |}.
Proof.
  unfold Attributes.analyzeAttribute, requiredRefs, optionalRefs, multiValuedRefs,
    Attributes.isOptionalCardinality.
  destruct summary as [req opt multi].
  destruct (Attributes.isRequiredCardinality _);
    destruct (Js.startsWith _ "0");
    destruct (Attributes.isMultiValuedCardinality _);
    cbn; rewrite ?app_nil_r; reflexivity.
Qed.

(** The three buckets of [analyzeCardinality], attribute by attribute: an
    attribute is filed as required when its cardinality starts with 1, 2 or
    3, as optional when it starts with 0, and as multi-valued when the piece
    after the first [..] is [*] or parses to a number above 1. *)
Lemma analyzeCardinality_buckets (model : ConceptualModel.t) :
  exists summary,
    Attributes.analyzeCardinality {| Attributes.conceptualModel := Some model |}
      = inr summary /\
    Attributes.requiredAttributes summary = overModel requiredRefs model /\
    Attributes.optionalAttributes summary = overModel optionalRefs model /\
    Attributes.multiValuedAttributes summary = overModel multiValuedRefs model.
Proof.
  eexists. split; [reflexivity |].
  unfold overModel, Attributes.analyzeModule, Attributes.analyzeClass.
  repeat split.
  - rewrite (fold_left_appends Attributes.requiredAttributes _
               (overModule requiredRefs)); [reflexivity |].
    intros s module.
    rewrite (fold_left_appends Attributes.requiredAttributes _
               (overClass requiredRefs)); [reflexivity |].
    intros s' classInfo.
    rewrite (fold_left_appends Attributes.requiredAttributes _
               (requiredRefs classInfo)); [reflexivity |].
    intros s'' attribute. now rewrite analyzeAttribute_appends.
  - rewrite (fold_left_appends Attributes.optionalAttributes _
               (overModule optionalRefs)); [reflexivity |].
    intros s module.
    rewrite (fold_left_appends Attributes.optionalAttributes _
               (overClass optionalRefs)); [reflexivity |].
    intros s' classInfo.
    rewrite (fold_left_appends Attributes.optionalAttributes _
               (optionalRefs classInfo)); [reflexivity |].
    intros s'' attribute. now rewrite analyzeAttribute_appends.
  - rewrite (fold_left_appends Attributes.multiValuedAttributes _
               (overModule multiValuedRefs)); [reflexivity |].
    intros s module.
    rewrite (fold_left_appends Attributes.multiValuedAttributes _
               (overClass multiValuedRefs)); [reflexivity |].
    intros s' classInfo.
    rewrite (fold_left_appends Attributes.multiValuedAttributes _
               (multiValuedRefs classInfo)); [reflexivity |].
    intros s'' attribute. now rewrite analyzeAttribute_appends.
Qed.

End Cardinality.

(** C8 (the code departs from the claim).  [analyzeCardinality] files an
    attribute as required when its cardinality starts with 1, 2 or 3 only,
    though its own comment says "minimum occurrence of 1 or more".  The
    element [storeysAboveGround] of the sample building schema has
    [minOccurs="4"] and [maxOccurs="4"]; the concept extractor gives it the
    cardinality ["4..4"], and the analysis files it neither as required nor
    as optional (it is filed as multi-valued). *)
Theorem analyzeCardinality_min_four_unfiled :
  exists model summary,
    fst (Concepts.extractAllModules (np := Samples.posixPath) Samples.files
           (Concepts.new "xsds")) = inr model /\
    Attributes.analyzeCardinality {| Attributes.conceptualModel := Some model |}
      = inr summary /\
    let ref := {| Attributes.className := "BuildingType";
                  Attributes.attributeName := "storeysAboveGround" |} in
    Attributes.isRequiredCardinality "4..4" = false /\
    ~ In ref (Attributes.requiredAttributes summary) /\
    ~ In ref (Attributes.optionalAttributes summary) /\
    In {| Attributes.mv_className := "BuildingType";
          Attributes.mv_attributeName := "storeysAboveGround";
          Attributes.mv_maxOccurs := "4" |}
       (Attributes.multiValuedAttributes summary).
Proof.
  eexists. eexists. split; [vm_compute; reflexivity |].
  split; [vm_compute; reflexivity |].
  simpl. split; [reflexivity |].
  split; [| split].
  - intros [Heq | []]. discriminate Heq.
  - intros [Heq | [Heq | []]]; discriminate Heq.
  - left. reflexivity.
Qed.

(** ** Loops *)

Lemma fold_left_preserves {S A : Type} (P : S -> Prop) (f : S -> A -> S)
  (l : list A) (s : S) :
  (forall s a, P s -> P (f s a)) -> P s -> P (fold_left f l s).
Proof.
  intros Hstep. revert s. induction l as [| a l IH]; intros s Hs; simpl; auto.
Qed.

Lemma fold_left_preserves_in {S A : Type} (P : S -> Prop) (f : S -> A -> S)
  (l : list A) (s : S) :
  (forall s a, In a l -> P s -> P (f s a)) -> P s -> P (fold_left f l s).
Proof.
  revert s. induction l as [| a l IH]; intros s Hstep Hs; cbn [fold_left].
  - exact Hs.
  - apply IH.
    + intros s' a' Hin. apply Hstep. now right.
    + apply Hstep; [now left | exact Hs].
Qed.

(** ** The [Map] model *)

Section JsMapFacts.
Context {V : Type}.

Lemma JsMap_keys_set (m : JsMap.t V) (k k' : string) (v : V) :
  In k (JsMap.keys (JsMap.set m k' v)) <-> k = k' \/ In k (JsMap.keys m).
Proof.
  unfold JsMap.keys. induction m as [| [k0 v0] m IH]; simpl.
  - split; [intros [<- | []]; now left | intros [-> | []]; now left].
  - destruct (String.eqb_spec k0 k') as [-> | Hne]; simpl.
    + split; [intros [<- | Hin]; auto | intros [-> | [<- | Hin]]; auto].
    + rewrite IH. split.
      * intros [<- | [-> | Hin]]; auto.
      * intros [-> | [<- | Hin]]; auto.
Qed.

Lemma JsMap_entries_set (m : JsMap.t V) (k k' : string) (v v' : V) :
  In (k, v) (JsMap.set m k' v') -> (k = k' /\ v = v') \/ In (k, v) m.
Proof.
  induction m as [| [k0 v0] m IH]; simpl.
  - intros [Heq | []]. inversion Heq. now left.
  - destruct (String.eqb_spec k0 k') as [-> | Hne]; simpl.
    + intros [Heq | Hin]; [inversion Heq; now left | right; now right].
    + intros [Heq | Hin]; [right; now left |].
      destruct (IH Hin) as [Hnew | Hold]; [now left | right; now right].
Qed.

Lemma JsMap_keys_setAll (src dst : JsMap.t V) (k : string) :
  In k (JsMap.keys (JsMap.setAll dst src)) <->
  In k (JsMap.keys dst) \/ In k (JsMap.keys src).
Proof.
  unfold JsMap.setAll. revert dst.
  induction src as [| [k0 v0] src IH]; intros dst; simpl.
  - tauto.
  - rewrite IH, JsMap_keys_set. simpl. intuition congruence.
Qed.

Lemma JsMap_entries_setAll (src dst : JsMap.t V) (k : string) (v : V) :
  In (k, v) (JsMap.setAll dst src) -> In (k, v) dst \/ In (k, v) src.
Proof.
  unfold JsMap.setAll. revert dst.
  induction src as [| [k0 v0] src IH]; intros dst; simpl.
  - tauto.
  - intros Hin. destruct (IH _ Hin) as [Hd | Hs]; [| right; now right].
    destruct (JsMap_entries_set _ _ _ _ _ Hd) as [[-> ->] | Hold]; auto.
Qed.

Lemma JsMap_get_set (m : JsMap.t V) (k k' : string) (v : V) :
  JsMap.get (JsMap.set m k v) k' =
  if String.eqb k k' then Some v else JsMap.get m k'.
Proof.
  induction m as [| [k0 v0] m IH]; simpl; [reflexivity |].
  destruct (String.eqb_spec k0 k) as [-> | Hne]; simpl.
  - destruct (String.eqb_spec k k'); reflexivity.
  - rewrite IH. destruct (String.eqb_spec k0 k') as [-> | Hne'];
      [| reflexivity].
    destruct (String.eqb_spec k k'); [congruence | reflexivity].
Qed.

Lemma JsMap_keys_set_present (m : JsMap.t V) (k : string) (v v0 : V) :
  JsMap.get m k = Some v0 -> JsMap.keys (JsMap.set m k v) = JsMap.keys m.
Proof.
  unfold JsMap.keys. induction m as [| [k1 v1] m IH]; simpl; [discriminate |].
  destruct (String.eqb_spec k1 k) as [-> | Hne]; simpl; [reflexivity |].
  intros Hget. now rewrite IH.
Qed.

Lemma JsMap_NoDup_set (m : JsMap.t V) (k : string) (v : V) :
  List.NoDup (JsMap.keys m) -> List.NoDup (JsMap.keys (JsMap.set m k v)).
Proof.
  induction m as [| [k0 v0] m IH]; simpl.
  - intros _. constructor; [intros [] | constructor].
  - intros Hnd. inversion Hnd as [| x l Hnotin Hnd']; subst.
    destruct (String.eqb_spec k0 k) as [-> | Hne]; simpl.
    + constructor; assumption.
    + constructor; [| now apply IH].
      change (~ In k0 (JsMap.keys (JsMap.set m k v))).
      rewrite JsMap_keys_set. intros [Heq | Hin]; [congruence | contradiction].
Qed.

Lemma JsMap_NoDup_setAll (src dst : JsMap.t V) :
  List.NoDup (JsMap.keys dst) -> List.NoDup (JsMap.keys (JsMap.setAll dst src)).
Proof.
  unfold JsMap.setAll. revert dst.
  induction src as [| [k0 v0] src IH]; intros dst Hnd; simpl; [assumption |].
  apply IH. now apply JsMap_NoDup_set.
Qed.

Lemma JsMap_get_In (m : JsMap.t V) (k : string) (v : V) :
  JsMap.get m k = Some v -> In (k, v) m.
Proof.
  induction m as [| [k0 v0] m IH]; simpl; [discriminate |].
  destruct (String.eqb_spec k0 k) as [-> | Hne].
  - intros Heq. inversion Heq. now left.
  - intros Hget. right. now apply IH.
Qed.

Lemma JsMap_In_get (m : JsMap.t V) (k : string) (v : V) :
  List.NoDup (JsMap.keys m) -> In (k, v) m -> JsMap.get m k = Some v.
Proof.
  induction m as [| [k0 v0] m IH]; simpl; [intros _ [] |].
  intros Hnd. inversion Hnd as [| x l Hnotin Hnd']; subst.
  intros [Heq | Hin].
  - inversion Heq; subst. now rewrite String.eqb_refl.
  - destruct (String.eqb_spec k0 k) as [-> | Hne]; [| now apply IH].
    exfalso. apply Hnotin. apply in_map_iff. exists (k, v). auto.
Qed.

Lemma JsMap_get_None (m : JsMap.t V) (k : string) :
  ~ In k (JsMap.keys m) -> JsMap.get m k = None.
Proof.
  induction m as [| [k0 v0] m IH]; simpl; [reflexivity |].
  intros Hnotin. destruct (String.eqb_spec k0 k) as [-> | Hne];
    [exfalso; apply Hnotin; now left |].
  apply IH. intros Hin. apply Hnotin. now right.
Qed.

End JsMapFacts.

(** ** Object classifier *)

Section ObjectFacts.

Lemma isMarkedSuperClass_markers (superClass : string) :
  Objects.isMarkedSuperClass superClass = true <->
  exists marker, In marker Objects.superClassMarkers /\
                 Js.includes superClass marker = true.
Proof.
  unfold Objects.isMarkedSuperClass, Objects.superClassMarkers.
  rewrite !orb_true_iff. simpl. split.
  - intros [[[H1 | H2] | H3] | H4];
      [ exists "AbstractCityObject" | exists "AbstractFeature"
      | exists "AbstractSpace" | exists "AbstractOccupiedSpace" ];
      (split; [tauto | assumption]).
  - intros [marker [[<- | [<- | [<- | [<- | []]]]] Hm]]; tauto.
Qed.

Lemma isCityObjectClass_tiers (classInfo : Class.t) :
  Objects.isCityObjectClass classInfo = true <->
  hasMarkedSuperClass classInfo \/ hasCityObjectName classInfo.
Proof.
  unfold Objects.isCityObjectClass, hasMarkedSuperClass, hasCityObjectName.
  rewrite orb_true_iff.
  assert (Hiff : forall A B C D : Prop, (A <-> C) -> (B <-> D) -> (A \/ B <-> C \/ D))
    by (intros; tauto).
  apply Hiff.
  - destruct (Class.superClasses classInfo) as [supers |]; simpl.
    + rewrite existsb_exists. split.
      * intros [s [Hs Hm]]. apply isMarkedSuperClass_markers in Hm.
        destruct Hm as [marker [Hin Hinc]]. exists s, marker. auto.
      * intros [s [marker [Hs [Hin Hinc]]]]. exists s. split; [assumption |].
        apply isMarkedSuperClass_markers. exists marker. auto.
    + split; [discriminate | intros [s [marker [[] _]]]].
  - rewrite existsb_exists. reflexivity.
Qed.

(** Keys and entries of the per-module map. *)
Lemma fromModule_entries (module : Module_.t) (classes : list Class.t)
  (acc : JsMap.t Objects.CityObject) (k : string) (o : Objects.CityObject) :
  In (k, o)
     (fold_left
        (fun objects classInfo =>
           if Objects.isCityObjectClass classInfo
           then JsMap.set objects (Class.name classInfo)
                  (Objects.cityObjectOfClass module classInfo)
           else objects) classes acc) ->
  In (k, o) acc \/
  exists classInfo, In classInfo classes /\ k = Class.name classInfo /\
                    o = Objects.cityObjectOfClass module classInfo.
Proof.
  revert acc. induction classes as [| c classes IH]; intros acc; simpl.
  - tauto.
  - intros Hin. destruct (IH _ Hin) as [Hacc | [c' [Hc' Heq]]].
    + destruct (Objects.isCityObjectClass c); [| now left].
      destruct (JsMap_entries_set _ _ _ _ _ Hacc) as [[-> ->] | Hold];
        [right; exists c; auto | now left].
    + right. exists c'. auto.
Qed.

Lemma fromModule_keys (module : Module_.t) (classes : list Class.t)
  (acc : JsMap.t Objects.CityObject) (k : string) :
  In k (JsMap.keys
          (fold_left
             (fun objects classInfo =>
                if Objects.isCityObjectClass classInfo
                then JsMap.set objects (Class.name classInfo)
                       (Objects.cityObjectOfClass module classInfo)
                else objects) classes acc)) <->
  In k (JsMap.keys acc) \/
  exists classInfo, In classInfo classes /\
                    Objects.isCityObjectClass classInfo = true /\
                    Class.name classInfo = k.
Proof.
  revert acc. induction classes as [| c classes IH]; intros acc; simpl.
  - split; [tauto | intros [Hk | [c [[] _]]]; assumption].
  - rewrite IH. destruct (Objects.isCityObjectClass c) eqn:Hc.
    + rewrite JsMap_keys_set. split.
      * intros [[-> | Hk] | [c' [Hin Hrest]]];
          first [ solve [eauto 6] | right; exists c; solve [auto] ].
      * intros [Hk | [c' [[<- | Hin] [Hcity Hname]]]]; solve [eauto 6].
    + split.
      * intros [Hk | [c' [Hin Hrest]]]; solve [eauto 6].
      * intros [Hk | [c' [[<- | Hin] [Hcity Hname]]]];
          first [ congruence | solve [eauto 6] ].
Qed.

Lemma extractCityObjectsFromModule_keys (module : Module_.t) (k : string) :
  In k (JsMap.keys (Objects.extractCityObjectsFromModule module)) <->
  exists classInfo, In classInfo (Module_.classes module) /\
                    Objects.isCityObjectClass classInfo = true /\
                    Class.name classInfo = k.
Proof.
  unfold Objects.extractCityObjectsFromModule. rewrite fromModule_keys.
  simpl. tauto.
Qed.

Lemma extractCityObjectsFromModule_named (module : Module_.t) (k : string)
  (o : Objects.CityObject) :
  In (k, o) (Objects.extractCityObjectsFromModule module) -> Objects.name o = k.
Proof.
  unfold Objects.extractCityObjectsFromModule. intros Hin.
  apply fromModule_entries in Hin. destruct Hin as [[] | [c [_ [-> ->]]]].
  reflexivity.
Qed.

Lemma collect_keys (modules : list Module_.t) (acc : JsMap.t Objects.CityObject)
  (k : string) :
  In k (JsMap.keys (fold_left collectStep modules acc)) <->
  In k (JsMap.keys acc) \/
  exists module classInfo,
    In module modules /\
    In (Module_.name module) Objects.cityObjectModules /\
    In classInfo (Module_.classes module) /\
    Objects.isCityObjectClass classInfo = true /\
    Class.name classInfo = k.
Proof.
  revert acc. induction modules as [| m modules IH]; intros acc; cbn [fold_left].
  - split; [tauto | intros [Hk | [m [c [[] _]]]]; assumption].
  - rewrite IH. unfold collectStep.
    destruct (Js.arr_includes Objects.cityObjectModules (Module_.name m)) eqn:Hm.
    + rewrite JsMap_keys_setAll, extractCityObjectsFromModule_keys.
      apply arr_includes_In in Hm. split.
      * intros [[Hk | [c Hc]] | [m' [c [Hin Hrest]]]].
        -- now left.
        -- right. exists m, c. split; [apply in_eq | tauto].
        -- right. exists m', c. split; [now apply in_cons | exact Hrest].
      * intros [Hk | [m' [c [[<- | Hin] Hrest]]]].
        -- left. now left.
        -- left. right. exists c. tauto.
        -- right. exists m', c. tauto.
    + split.
      * intros [Hk | [m' [c [Hin Hrest]]]].
        -- now left.
        -- right. exists m', c. split; [now apply in_cons | exact Hrest].
      * intros [Hk | [m' [c [[<- | Hin] [Hmod Hrest]]]]].
        -- now left.
        -- apply arr_includes_In in Hmod. congruence.
        -- right. exists m', c. tauto.
Qed.

Lemma collect_named (modules : list Module_.t)
  (acc : JsMap.t Objects.CityObject) :
  (forall k o, In (k, o) acc -> Objects.name o = k) ->
  forall k o, In (k, o) (fold_left collectStep modules acc) -> Objects.name o = k.
Proof.
  revert acc. induction modules as [| m modules IH]; intros acc Hacc; simpl.
  - exact Hacc.
  - apply IH. intros k o. unfold collectStep.
    destruct (Js.arr_includes Objects.cityObjectModules (Module_.name m)).
    + intros Hin. apply JsMap_entries_setAll in Hin.
      destruct Hin as [Hold | Hnew];
        [now apply Hacc | now apply extractCityObjectsFromModule_named with m].
    + apply Hacc.
Qed.

Lemma linkStep_keeps (objectName : string) (object : Objects.CityObject)
  (potential : string * Objects.CityObject) :
  Objects.name (linkStep objectName object potential) = Objects.name object /\
  Objects.superClasses (linkStep objectName object potential)
    = Objects.superClasses object /\
  forall child, In child (default [] (Objects.children object)) ->
                In child (default [] (Objects.children
                                        (linkStep objectName object potential))).
Proof.
  destruct potential as [k c]. unfold linkStep.
  destruct (Js.arr_includes (Objects.superClasses c) objectName); simpl;
    repeat split; auto.
  intros child Hin. apply in_or_app. now left.
Qed.

Lemma link_keeps (objectName : string) (entries : JsMap.t Objects.CityObject)
  (object : Objects.CityObject) :
  Objects.name (fold_left (linkStep objectName) entries object)
    = Objects.name object /\
  Objects.superClasses (fold_left (linkStep objectName) entries object)
    = Objects.superClasses object /\
  forall child, In child (default [] (Objects.children object)) ->
                In child (default [] (Objects.children
                            (fold_left (linkStep objectName) entries object))).
Proof.
  revert object. induction entries as [| kc entries IH]; intros object;
    cbn [fold_left].
  - auto.
  - destruct (IH (linkStep objectName object kc)) as [Hn [Hs Hc]].
    destruct (linkStep_keeps objectName object kc) as [Hn1 [Hs1 Hc1]].
    rewrite Hn, Hs, Hn1, Hs1. auto.
Qed.

Lemma link_adds (objectName : string) (entries : JsMap.t Objects.CityObject)
  (object : Objects.CityObject) (childName : string) (child : Objects.CityObject) :
  In (childName, child) entries ->
  In objectName (Objects.superClasses child) ->
  exists children,
    Objects.children (fold_left (linkStep objectName) entries object)
      = Some children /\
    In childName children.
Proof.
  revert object. induction entries as [| kc entries IH]; intros object;
    cbn [fold_left].
  - intros [].
  - intros [Heq | Hin] Hsuper; [| now apply IH].
    subst kc. apply arr_includes_In in Hsuper.
    destruct (link_keeps objectName entries
                (linkStep objectName object (childName, child)))
      as [_ [_ Hkeep]].
    specialize (Hkeep childName).
    assert (Hpushed : In childName
              (default [] (Objects.children
                             (linkStep objectName object (childName, child))))).
    { unfold linkStep. rewrite Hsuper. simpl. apply in_or_app. right. now left. }
    specialize (Hkeep Hpushed).
    destruct (Objects.children
                (fold_left (linkStep objectName) entries
                   (linkStep objectName object (childName, child))))
      as [children |]; simpl in Hkeep; [eauto | contradiction].
Qed.

Lemma linkBy_keeps_superClasses (sup : string -> option (list string))
  (k : string) (o : Objects.CityObject) (ck : string) :
  Objects.superClasses (linkBy sup k o ck) = Objects.superClasses o.
Proof. unfold linkBy. now destruct (match sup ck with Some _ => _ | None => _ end). Qed.

Lemma linkBy_ext (sup sup' : string -> option (list string)) (k : string)
  (o : Objects.CityObject) (ck : string) :
  sup ck = sup' ck -> linkBy sup k o ck = linkBy sup' k o ck.
Proof. unfold linkBy. now intros ->. Qed.

(** One turn of the inner loop rewrites the entry under [k] and nothing else. *)
Lemma linkChild_get (k ck x : string) (st : JsMap.t Objects.CityObject) :
  JsMap.get (Objects.linkChild k st ck) x =
  if String.eqb k x
  then option_map (fun o => linkBy (supOf st) k o ck) (JsMap.get st k)
  else JsMap.get st x.
Proof.
  unfold Objects.linkChild, linkBy, supOf.
  destruct (JsMap.get st ck) as [c |] eqn:Hc; simpl.
  - destruct (JsMap.get st k) as [o |] eqn:Ho; simpl.
    + destruct (Js.arr_includes (Objects.superClasses c) k).
      * rewrite JsMap_get_set. reflexivity.
      * destruct (String.eqb_spec k x); congruence.
    + destruct (String.eqb_spec k x); congruence.
  - destruct (JsMap.get st k) as [o |] eqn:Ho; simpl;
      destruct (String.eqb_spec k x); congruence.
Qed.

Lemma linkChild_keys (k ck : string) (st : JsMap.t Objects.CityObject) :
  JsMap.keys (Objects.linkChild k st ck) = JsMap.keys st.
Proof.
  unfold Objects.linkChild.
  destruct (JsMap.get st ck) as [c |]; [| reflexivity].
  destruct (JsMap.get st k) as [o |] eqn:Ho; [| reflexivity].
  destruct (Js.arr_includes (Objects.superClasses c) k); [| reflexivity].
  now apply JsMap_keys_set_present with o.
Qed.

Lemma linkChild_sup (k ck x : string) (st : JsMap.t Objects.CityObject) :
  supOf (Objects.linkChild k st ck) x = supOf st x.
Proof.
  unfold supOf at 1. rewrite linkChild_get.
  destruct (String.eqb_spec k x) as [-> | Hne]; [| reflexivity].
  unfold supOf at 2. destruct (JsMap.get st x) as [o |]; simpl; [| reflexivity].
  now rewrite linkBy_keeps_superClasses.
Qed.

(** The inner loop for the key [k], over the child names [cks]. *)
Lemma inner_loop_get (k : string) (sup : string -> option (list string))
  (cks : list string) (st : JsMap.t Objects.CityObject) :
  (forall x, supOf st x = sup x) ->
  JsMap.keys (fold_left (Objects.linkChild k) cks st) = JsMap.keys st /\
  (forall x, supOf (fold_left (Objects.linkChild k) cks st) x = sup x) /\
  (forall x,
     JsMap.get (fold_left (Objects.linkChild k) cks st) x =
     if String.eqb k x
     then option_map (fun o => fold_left (linkBy sup k) cks o) (JsMap.get st k)
     else JsMap.get st x).
Proof.
  revert st. induction cks as [| ck cks IH]; intros st Hsup; cbn [fold_left].
  - repeat split; auto. intros x.
    destruct (String.eqb_spec k x) as [-> | Hne]; [| reflexivity].
    now destruct (JsMap.get st x).
  - assert (Hsup1 : forall x, supOf (Objects.linkChild k st ck) x = sup x).
    { intros x. now rewrite linkChild_sup. }
    destruct (IH _ Hsup1) as [Hkeys [Hsup' Hget]].
    split; [now rewrite Hkeys, linkChild_keys |].
    split; [exact Hsup' |].
    intros x. rewrite Hget, !linkChild_get, String.eqb_refl.
    destruct (String.eqb_spec k x) as [-> | Hne]; [| reflexivity].
    destruct (JsMap.get st x) as [o |]; simpl; [| reflexivity].
    now rewrite (linkBy_ext (supOf st) sup x o ck (Hsup ck)).
Qed.

(** The outer loop over the keys [ks], each key once. *)
Lemma outer_loop_get (names : list string) (sup : string -> option (list string))
  (ks : list string) :
  List.NoDup ks ->
  forall st : JsMap.t Objects.CityObject,
    (forall x, supOf st x = sup x) ->
    let st' :=
      fold_left (fun st k => fold_left (Objects.linkChild k) names st) ks st in
    JsMap.keys st' = JsMap.keys st /\
    (forall x, In x ks ->
       JsMap.get st' x =
       option_map (fun o => fold_left (linkBy sup x) names o) (JsMap.get st x)) /\
    (forall x, ~ In x ks -> JsMap.get st' x = JsMap.get st x).
Proof.
  induction 1 as [| k ks Hnotin Hnd IH]; intros st Hsup; cbn [fold_left].
  - repeat split; auto. intros x [].
  - destruct (inner_loop_get k sup names st Hsup) as [Hkeys1 [Hsup1 Hget1]].
    destruct (IH _ Hsup1) as [Hkeys [Hin Hout]].
    split; [now rewrite Hkeys, Hkeys1 |]. split.
    + intros x [<- | Hx].
      * rewrite (Hout _ Hnotin), Hget1, String.eqb_refl. reflexivity.
      * rewrite (Hin _ Hx), Hget1.
        destruct (String.eqb_spec k x) as [-> | Hne]; [contradiction | reflexivity].
    + intros x Hx. rewrite Hout by (intros Hin'; apply Hx; now right).
      rewrite Hget1.
      destruct (String.eqb_spec k x) as [-> | Hne];
        [exfalso; apply Hx; now left | reflexivity].
Qed.

(** Reading the superclasses through the map or off the entries walked is
    the same when every key holds one entry. *)
Lemma linkBy_linkStep (objects entries : JsMap.t Objects.CityObject)
  (k : string) (o : Objects.CityObject) :
  (forall ck c, In (ck, c) entries ->
                supOf objects ck = Some (Objects.superClasses c)) ->
  fold_left (linkBy (supOf objects) k) (JsMap.keys entries) o
  = fold_left (linkStep k) entries o.
Proof.
  revert o. induction entries as [| [ck c] entries IH]; intros o Hsup;
    cbn [JsMap.keys map fold_left fst]; [reflexivity |].
  assert (Hstep : linkBy (supOf objects) k o ck = linkStep k o (ck, c)).
  { unfold linkBy, linkStep. now rewrite (Hsup ck c (in_eq _ _)). }
  rewrite Hstep. apply IH. intros ck' c' Hin. apply Hsup. now right.
Qed.

Lemma buildObjectHierarchy_keys (objects : JsMap.t Objects.CityObject) :
  List.NoDup (JsMap.keys objects) ->
  JsMap.keys (Objects.buildObjectHierarchy objects) = JsMap.keys objects.
Proof.
  intros Hnd. unfold Objects.buildObjectHierarchy.
  exact (proj1 (outer_loop_get (JsMap.keys objects) (supOf objects)
                  (JsMap.keys objects) Hnd objects (fun x => eq_refl))).
Qed.

(** After both loops every entry is the entry it was, relinked by a pass
    over all entries. *)
Lemma buildObjectHierarchy_entries (objects : JsMap.t Objects.CityObject)
  (k : string) (o : Objects.CityObject) :
  List.NoDup (JsMap.keys objects) ->
  In (k, o) (Objects.buildObjectHierarchy objects) ->
  exists o0, In (k, o0) objects /\ o = fold_left (linkStep k) objects o0.
Proof.
  intros Hnd Hin.
  pose proof (buildObjectHierarchy_keys objects Hnd) as Hkeys.
  assert (Hk : In k (JsMap.keys objects)).
  { rewrite <- Hkeys. apply in_map_iff. exists (k, o). auto. }
  apply JsMap_In_get in Hin; [| now rewrite Hkeys].
  unfold Objects.buildObjectHierarchy in Hin.
  destruct (outer_loop_get (JsMap.keys objects) (supOf objects)
              (JsMap.keys objects) Hnd objects (fun x => eq_refl))
    as [_ [Hget _]].
  rewrite (Hget k Hk) in Hin.
  destruct (JsMap.get objects k) as [o0 |] eqn:Ho0; [| discriminate].
  simpl in Hin. inversion Hin as [Ho]. exists o0.
  split; [now apply JsMap_get_In |].
  apply linkBy_linkStep. intros ck c Hc. unfold supOf.
  now rewrite (JsMap_In_get _ _ _ Hnd Hc).
Qed.

Lemma fromModule_NoDup (module : Module_.t) (classes : list Class.t)
  (acc : JsMap.t Objects.CityObject) :
  List.NoDup (JsMap.keys acc) ->
  List.NoDup
    (JsMap.keys
       (fold_left
          (fun objects classInfo =>
             if Objects.isCityObjectClass classInfo
             then JsMap.set objects (Class.name classInfo)
                    (Objects.cityObjectOfClass module classInfo)
             else objects) classes acc)).
Proof.
  revert acc. induction classes as [| c classes IH]; intros acc Hnd;
    cbn [fold_left]; [assumption |].
  apply IH. destruct (Objects.isCityObjectClass c); [| assumption].
  now apply JsMap_NoDup_set.
Qed.

Lemma collectCityObjects_NoDup (model : ConceptualModel.t) :
  List.NoDup (JsMap.keys (Objects.collectCityObjects model)).
Proof.
  change (Objects.collectCityObjects model)
    with (fold_left collectStep (ConceptualModel.modules model) []).
  apply (fold_left_preserves
           (fun m : JsMap.t Objects.CityObject => List.NoDup (JsMap.keys m))).
  - intros m module Hnd. unfold collectStep.
    destruct (Js.arr_includes _ _); [| assumption].
    now apply JsMap_NoDup_setAll.
  - constructor.
Qed.

End ObjectFacts.

(** C2 (counterexample to the claim as stated).  The class [Building] of a
    module named [core] has a name containing the pattern [Building], so
    condition (b) holds for it, yet the mapping returned by
    [extractAllCityObjects] is empty: only the modules listed in
    [cityObjectModules] are searched. *)
Lemma extractAllCityObjects_skips_unlisted_module :
  let classInfo := Samples.plainClass "Building" "core" [] in
  In classInfo (flat_map Module_.classes
                  (ConceptualModel.modules Samples.coreOnlyModel)) /\
  hasCityObjectName classInfo /\
  exists objects,
    Objects.extractAllCityObjects
      {| Objects.conceptualModel := Some Samples.coreOnlyModel |} = inr objects /\
    ~ In (Class.name classInfo) (JsMap.keys objects).
Proof.
  split; [left; reflexivity |].
  split.
  - exists "Building". split; [left; reflexivity | reflexivity].
  - exists []. split; [reflexivity | intros []].
Qed.

(** C2 (as amended).  With a conceptual model set, [extractAllCityObjects]
    returns a mapping, and a name is a key of it if and only if some class of
    that name, in a module whose name is listed in [cityObjectModules],
    has a superclass name containing one of the four markers or has itself
    a name containing one of the domain patterns. *)
Theorem extractAllCityObjects_keys (model : ConceptualModel.t) :
  exists objects,
    Objects.extractAllCityObjects {| Objects.conceptualModel := Some model |}
      = inr objects /\
    forall n : string,
      In n (JsMap.keys objects) <->
      exists module classInfo,
        In module (ConceptualModel.modules model) /\
        In (Module_.name module) Objects.cityObjectModules /\
        In classInfo (Module_.classes module) /\
        Class.name classInfo = n /\
        (hasMarkedSuperClass classInfo \/ hasCityObjectName classInfo).
Proof.
  eexists. split; [reflexivity |].
  intros n.
  rewrite buildObjectHierarchy_keys by apply collectCityObjects_NoDup.
  change (Objects.collectCityObjects model)
    with (fold_left collectStep (ConceptualModel.modules model) []).
  rewrite collect_keys. split.
  - intros [[] | [module [classInfo [Hm [Hn [Hc [Hcity Hname]]]]]]].
    exists module, classInfo. rewrite <- isCityObjectClass_tiers. auto.
  - intros [module [classInfo [Hm [Hn [Hc [Hname Hcity]]]]]].
    right. exists module, classInfo. rewrite isCityObjectClass_tiers. auto.
Qed.

(** Every entry of the returned mapping is filed under its own name. *)
Lemma extractAllCityObjects_named (this : Objects.ObjectExtractor)
  (objects : JsMap.t Objects.CityObject) (k : string) (o : Objects.CityObject) :
  Objects.extractAllCityObjects this = inr objects ->
  In (k, o) objects -> Objects.name o = k.
Proof.
  unfold Objects.extractAllCityObjects.
  destruct (Objects.conceptualModel this) as [model |]; [| discriminate].
  intros Heq Hin. inversion Heq; subst objects; clear Heq.
  apply buildObjectHierarchy_entries in Hin;
    [| apply collectCityObjects_NoDup].
  destruct Hin as [o0 [Hin0 ->]].
  destruct (link_keeps k (Objects.collectCityObjects model) o0) as [-> _].
  revert Hin0. apply (collect_named (ConceptualModel.modules model) []).
  intros k' o' [].
Qed.

(** C4.  In the mapping returned by [extractAllCityObjects], whenever the
    name of an entry [P] is listed among the superclasses of an entry [C],
    the children of [P] are set and list the name of [C]. *)
Theorem children_symmetric_with_superClasses
  (this : Objects.ObjectExtractor) (objects : JsMap.t Objects.CityObject)
  (C P : string * Objects.CityObject) :
  Objects.extractAllCityObjects this = inr objects ->
  In C objects -> In P objects ->
  In (Objects.name (snd P)) (Objects.superClasses (snd C)) ->
  exists children,
    Objects.children (snd P) = Some children /\
    In (Objects.name (snd C)) children.
Proof.
  intros Hrun HC HP Hsuper.
  destruct C as [cName c], P as [pName p]. simpl in *.
  rewrite (extractAllCityObjects_named _ _ _ _ Hrun HC).
  rewrite (extractAllCityObjects_named _ _ _ _ Hrun HP) in Hsuper.
  unfold Objects.extractAllCityObjects in Hrun.
  destruct (Objects.conceptualModel this) as [model |]; [| discriminate].
  inversion Hrun; subst objects; clear Hrun.
  apply buildObjectHierarchy_entries in HC; [| apply collectCityObjects_NoDup].
  apply buildObjectHierarchy_entries in HP; [| apply collectCityObjects_NoDup].
  destruct HC as [c0 [HC0 ->]], HP as [p0 [HP0 ->]].
  destruct (link_keeps cName (Objects.collectCityObjects model) c0)
    as [_ [Hsupers _]].
  rewrite Hsupers in Hsuper.
  exact (link_adds pName _ p0 cName c0 HC0 Hsuper).
Qed.

(** ** Concept extractor *)

Section StringFacts.

Lemma startsWith_refl (s : string) : Js.startsWith s s = true.
Proof.
  induction s as [| c s IH]; simpl; [reflexivity |].
  now rewrite Ascii.eqb_refl, IH.
Qed.

Lemma endsWith_includes (s suf : string) :
  Js.endsWith s suf = true -> Js.includes s suf = true.
Proof.
  induction s as [| c s IH]; cbn [Js.endsWith Js.includes].
  - rewrite orb_false_r. intros Heq. apply String.eqb_eq in Heq. subst suf.
    reflexivity.
  - intros Hends. apply orb_true_iff in Hends. destruct Hends as [Heq | Htail].
    + apply String.eqb_eq in Heq. subst suf.
      now rewrite startsWith_refl.
    + rewrite (IH Htail). apply orb_true_r.
Qed.

Lemma truthy_nonempty (s : string) : Js.truthy s = true <-> s <> "".
Proof.
  unfold Js.truthy. destruct (String.eqb_spec s ""); simpl; split; intros;
    congruence.
Qed.

End StringFacts.

Section ConceptFacts.
Context {np : NodePath}.

Lemma codelistNames_spec (doc : Dom.Document) (moduleName n : string) :
  In n (codelistNames doc moduleName) <->
  exists simpleType,
    In simpleType (Concepts.enumeratedSimpleTypes doc) /\
    Dom.getAttribute (snd simpleType) "name" = n /\
    n <> "" /\ Js.endsWith n "EnumBase" = false.
Proof.
  unfold codelistNames, Concepts.extractCodelists.
  rewrite in_map_iff. split.
  - intros [cl [Hname Hin]]. apply in_flat_map in Hin.
    destruct Hin as [st [Hst Hcl]]. exists st. split; [assumption |].
    unfold Concepts.codelistOfSimpleType in Hcl.
    destruct (Js.truthy (Dom.getAttribute (snd st) "name")) eqn:Ht;
      [| destruct Hcl].
    destruct (Js.endsWith (Dom.getAttribute (snd st) "name") "EnumBase") eqn:He;
      simpl in Hcl; [destruct Hcl |].
    destruct Hcl as [<- | []]. simpl in Hname. subst n.
    apply truthy_nonempty in Ht. auto.
  - intros [st [Hst [Hname [Hne Hends]]]].
    apply truthy_nonempty in Hne. subst n.
    eexists. split; [| apply in_flat_map; exists st; split; [exact Hst |]].
    2: { unfold Concepts.codelistOfSimpleType. rewrite Hne, Hends. simpl.
         left. reflexivity. }
    reflexivity.
Qed.

Lemma enumerationNames_spec (doc : Dom.Document) (moduleName n : string) :
  In n (enumerationNames doc moduleName) <->
  exists simpleType,
    In simpleType (Concepts.enumeratedSimpleTypes doc) /\
    Dom.getAttribute (snd simpleType) "name" = n /\
    n <> "" /\ Js.includes n "EnumBase" = true.
Proof.
  unfold enumerationNames, Concepts.extractEnumerations.
  rewrite in_map_iff. split.
  - intros [en [Hname Hin]]. apply in_flat_map in Hin.
    destruct Hin as [st [Hst Hen]]. apply filter_In in Hst.
    destruct Hst as [Hst Hincl]. exists st. split; [assumption |].
    unfold Concepts.enumerationOfSimpleType in Hen.
    destruct (Js.truthy (Dom.getAttribute (snd st) "name")) eqn:Ht;
      [| destruct Hen].
    destruct Hen as [<- | []]. simpl in Hname. subst n.
    apply truthy_nonempty in Ht. auto.
  - intros [st [Hst [Hname [Hne Hincl]]]].
    apply truthy_nonempty in Hne. subst n.
    eexists. split; [| apply in_flat_map; exists st; split].
    2: { apply filter_In. split; assumption. }
    2: { unfold Concepts.enumerationOfSimpleType. rewrite Hne. left. reflexivity. }
    reflexivity.
Qed.

(** C6 (as amended).  For a simple type with at least one enumeration facet:
    without a name it is listed neither as a codelist nor as an enumeration;
    with a name it is listed as a codelist exactly when the name does not end
    in [EnumBase], and it is listed as an enumeration (and not as a codelist)
    when the name ends in [EnumBase]. *)
Theorem simpleType_classification (doc : Dom.Document) (moduleName : string)
  (simpleType : Dom.Located) :
  In simpleType (Concepts.enumeratedSimpleTypes doc) ->
  let n := Dom.getAttribute (snd simpleType) "name" in
  (n = "" ->
   ~ In n (codelistNames doc moduleName) /\
   ~ In n (enumerationNames doc moduleName)) /\
  (n <> "" ->
   (In n (codelistNames doc moduleName) <-> Js.endsWith n "EnumBase" = false) /\
   (Js.endsWith n "EnumBase" = true ->
    In n (enumerationNames doc moduleName) /\
    ~ In n (codelistNames doc moduleName))).
Proof.
  intros Hst n. split.
  - intros Hempty. split.
    + rewrite codelistNames_spec. intros [st [_ [_ [Hne _]]]]. contradiction.
    + rewrite enumerationNames_spec. intros [st [_ [_ [Hne _]]]]. contradiction.
  - intros Hne.
    assert (Hcl : In n (codelistNames doc moduleName) <->
                  Js.endsWith n "EnumBase" = false).
    { rewrite codelistNames_spec. split.
      - intros [st [_ [_ [_ Hends]]]]. exact Hends.
      - intros Hends. exists simpleType. auto. }
    split; [exact Hcl |].
    intros Hends. split.
    + rewrite enumerationNames_spec. exists simpleType.
      repeat split; auto. now apply endsWith_includes.
    + rewrite Hcl. congruence.
Qed.

Lemma processImport_modules (fs : FileSystem) (this : Concepts.ConceptExtractor)
  (importEl : Dom.Located) :
  Concepts.xsdBasePath (Concepts.processImport fs this importEl)
    = Concepts.xsdBasePath this /\
  ConceptualModel.version
    (Concepts.conceptModel (Concepts.processImport fs this importEl))
    = ConceptualModel.version (Concepts.conceptModel this) /\
  ConceptualModel.modules
    (Concepts.conceptModel (Concepts.processImport fs this importEl))
    = ConceptualModel.modules (Concepts.conceptModel this) ++
      importedModules fs (Concepts.xsdBasePath this) importEl.
Proof.
  unfold Concepts.processImport, importedModules, Concepts.processModuleFile.
  destruct (Js.truthy (Dom.getAttribute (snd importEl) "schemaLocation")).
  - destruct (fs _) as [doc |].
    + destruct (Dom.selectDoc "xs:schema" doc) as [| se rest]; simpl;
        rewrite ?app_nil_r; auto.
    + rewrite app_nil_r. auto.
  - rewrite app_nil_r. auto.
Qed.

Lemma processImports_modules (fs : FileSystem) (imports : list Dom.Located)
  (this : Concepts.ConceptExtractor) :
  Concepts.xsdBasePath (fold_left (Concepts.processImport fs) imports this)
    = Concepts.xsdBasePath this /\
  ConceptualModel.version
    (Concepts.conceptModel (fold_left (Concepts.processImport fs) imports this))
    = ConceptualModel.version (Concepts.conceptModel this) /\
  ConceptualModel.modules
    (Concepts.conceptModel (fold_left (Concepts.processImport fs) imports this))
    = ConceptualModel.modules (Concepts.conceptModel this) ++
      flat_map (importedModules fs (Concepts.xsdBasePath this)) imports.
Proof.
  revert this. induction imports as [| importEl imports IH]; intros this;
    cbn [fold_left flat_map].
  - rewrite app_nil_r. auto.
  - destruct (IH (Concepts.processImport fs this importEl)) as [Hb [Hv Hm]].
    destruct (processImport_modules fs this importEl) as [Hb1 [Hv1 Hm1]].
    rewrite Hb, Hv, Hm, Hb1, Hv1, Hm1, app_assoc. auto.
Qed.

(** C7.  When the root schema cannot be read or parsed, [extractAllModules]
    throws and leaves the instance as it was.  When it can, the call returns
    the model of the instance, to which every import of the root schema has
    added its module, except that an import whose file cannot be read or
    parsed (or has no schema element) adds nothing; the modules of the other
    imports are all there, in order. *)
Theorem extractAllModules_error_policy (fs : FileSystem)
  (this : Concepts.ConceptExtractor) :
  let root := path_join (Concepts.xsdBasePath this) "CityGML.xsd" in
  match fs root with
  | None => Concepts.extractAllModules fs this = (inl (FileError root), this)
  | Some mainXsdDoc =>
      exists this',
        Concepts.extractAllModules fs this
          = (inr (Concepts.conceptModel this'), this') /\
        ConceptualModel.modules (Concepts.conceptModel this')
          = ConceptualModel.modules (Concepts.conceptModel this) ++
            flat_map (importedModules fs (Concepts.xsdBasePath this))
              (Dom.selectDoc "xs:import" mainXsdDoc) /\
        forall importEl,
          fs (path_join (Concepts.xsdBasePath this)
                (Dom.getAttribute (snd importEl) "schemaLocation")) = None ->
          importedModules fs (Concepts.xsdBasePath this) importEl = []
  end.
Proof.
  intros root. unfold Concepts.extractAllModules. fold root.
  destruct (fs root) as [mainXsdDoc |]; [| reflexivity].
  eexists. split; [reflexivity |]. split.
  - apply processImports_modules.
  - intros importEl Hfail. unfold importedModules. rewrite Hfail.
    now destruct (Js.truthy _).
Qed.

End ConceptFacts.

Section Rerun.
Context {np : NodePath}.

Lemma processImports_agree (fs1 fs2 : FileSystem) (imports : list Dom.Located)
  (this : Concepts.ConceptExtractor) :
  (forall importEl, In importEl imports ->
     fs1 (path_join (Concepts.xsdBasePath this)
            (Dom.getAttribute (snd importEl) "schemaLocation"))
     = fs2 (path_join (Concepts.xsdBasePath this)
              (Dom.getAttribute (snd importEl) "schemaLocation"))) ->
  fold_left (Concepts.processImport fs1) imports this
  = fold_left (Concepts.processImport fs2) imports this.
Proof.
  revert this. induction imports as [| importEl imports IH]; intros this Hagree;
    cbn [fold_left]; [reflexivity |].
  assert (Hstep : Concepts.processImport fs1 this importEl
                  = Concepts.processImport fs2 this importEl).
  { unfold Concepts.processImport, Concepts.processModuleFile.
    rewrite (Hagree importEl (in_eq _ _)). reflexivity. }
  rewrite Hstep. apply IH. intros importEl' Hin.
  destruct (processImport_modules fs2 this importEl) as [-> _].
  apply Hagree. now apply in_cons.
Qed.

(** C9 (as amended).  Run on freshly constructed extractors with the same
    base path, over file systems that hold the same root schema and the same
    imported files, [extractAllModules] gives the same outcome: both calls
    throw, or both return the same model. *)
Theorem extractAllModules_fresh_deterministic (basePath : string)
  (fs1 fs2 : FileSystem) :
  sameSchemaFiles basePath fs1 fs2 ->
  Concepts.extractAllModules fs1 (Concepts.new basePath)
  = Concepts.extractAllModules fs2 (Concepts.new basePath).
Proof.
  intros [Hroot Himports]. unfold Concepts.extractAllModules.
  change (Concepts.xsdBasePath (Concepts.new basePath)) with basePath.
  rewrite <- Hroot.
  destruct (fs1 (path_join basePath "CityGML.xsd")) as [mainXsdDoc |] eqn:Hmain;
    [| reflexivity].
  rewrite (processImports_agree fs1 fs2); [reflexivity |].
  intros importEl Hin. exact (Himports mainXsdDoc importEl eq_refl Hin).
Qed.

(** A second call on the same instance starts from the modules already
    held and appends the imported modules to them once more. *)
Lemma extractAllModules_again_appends (fs : FileSystem)
  (this this1 this2 : Concepts.ConceptExtractor)
  (m1 m2 : ConceptualModel.t) :
  Concepts.extractAllModules fs this = (inr m1, this1) ->
  Concepts.extractAllModules fs this1 = (inr m2, this2) ->
  exists imported,
    ConceptualModel.modules m1
      = ConceptualModel.modules (Concepts.conceptModel this) ++ imported /\
    ConceptualModel.modules m2 = ConceptualModel.modules m1 ++ imported.
Proof.
  unfold Concepts.extractAllModules. intros H1 H2.
  destruct (fs (path_join (Concepts.xsdBasePath this) "CityGML.xsd"))
    as [doc |] eqn:Hroot; [| discriminate].
  inversion H1; subst m1 this1; clear H1.
  destruct (processImports_modules fs (Dom.selectDoc "xs:import" doc) this)
    as [Hb [_ Hm]].
  rewrite Hb, Hroot in H2. inversion H2; subst m2 this2; clear H2.
  exists (flat_map (importedModules fs (Concepts.xsdBasePath this))
            (Dom.selectDoc "xs:import" doc)).
  split; [exact Hm |].
  destruct (processImports_modules fs (Dom.selectDoc "xs:import" doc)
              (fold_left (Concepts.processImport fs)
                 (Dom.selectDoc "xs:import" doc) this)) as [_ [_ Hm2]].
  rewrite Hm2, Hb. reflexivity.
Qed.

End Rerun.

(** C6 (counterexample to the claim as stated).  The sample building schema
    holds a simple type with an enumeration facet and no name (nested in the
    element [height]); it is listed neither as a codelist nor as an
    enumeration. *)
Lemma anonymous_simpleType_unclassified :
  exists simpleType,
    In simpleType (Concepts.enumeratedSimpleTypes Samples.buildingXsd) /\
    Dom.getAttribute (snd simpleType) "name" = "" /\
    ~ In (Dom.getAttribute (snd simpleType) "name")
         (codelistNames Samples.buildingXsd "building") /\
    ~ In (Dom.getAttribute (snd simpleType) "name")
         (enumerationNames Samples.buildingXsd "building").
Proof.
  eexists. split.
  - vm_compute. right. right. left. reflexivity.
  - split; [reflexivity |]. split; vm_compute; intuition discriminate.
Qed.

(** The enumeration list is selected by [contains(@name, "EnumBase")], not
    by the suffix: [EnumBaseOfRoofs] does not end in [EnumBase], and it is
    listed both as a codelist and as an enumeration. *)
Lemma name_containing_EnumBase_listed_twice :
  Js.endsWith "EnumBaseOfRoofs" "EnumBase" = false /\
  In "EnumBaseOfRoofs" (codelistNames Samples.buildingXsd "building") /\
  In "EnumBaseOfRoofs" (enumerationNames Samples.buildingXsd "building").
Proof.
  split; [reflexivity |]. split; vm_compute; auto.
Qed.

(** C9 (counterexample to the claim as stated).  On the sample files a
    fresh extractor returns a model that holds one module when the call
    returns; called once more, the same extractor returns a model that
    holds two, the module [building] twice.  (Both calls return the one
    model object of the instance, so whoever kept the first result sees it
    grow as well.) *)
Lemma extractAllModules_second_run_differs :
  let first :=
    Concepts.extractAllModules (np := Samples.posixPath) Samples.files
      (Concepts.new "xsds") in
  let second :=
    Concepts.extractAllModules (np := Samples.posixPath) Samples.files
      (snd first) in
  exists m1 m2,
    fst first = inr m1 /\ fst second = inr m2 /\
    length (ConceptualModel.modules m1) = 1 /\
    length (ConceptualModel.modules m2) = 2 /\
    map Module_.name (ConceptualModel.modules m2) = ["building"; "building"].
Proof.
  eexists. eexists. split; [vm_compute; reflexivity |].
  split; [vm_compute; reflexivity |].
  split; [reflexivity |]. split; reflexivity.
Qed.

(** ** Relationship extractor *)

Section RelationshipFacts.
Context {np : NodePath}.

Lemma toLowerCase_value (type : RelationshipType.t) :
  Js.toLowerCase (RelationshipType.value type) = RelationshipType.value type.
Proof. destruct type; reflexivity. Qed.

Lemma setRelationship_wellKeyed (this : Relationships.RelationshipExtractor)
  (key : string) (r : RelationshipInfo.t) :
  wellKeyed key r -> allWellKeyed this ->
  allWellKeyed (Relationships.setRelationship this key r).
Proof.
  unfold allWellKeyed. simpl. intros Hr Hall. now apply map_Forall_insert_2.
Qed.

Ltac keyed_step :=
  first
    [ assumption
    | apply setRelationship_wellKeyed;
      [ split; cbn [RelationshipInfo.id RelationshipInfo.type
                      RelationshipInfo.source RelationshipInfo.target
                      RelationshipInfo.targetRole relationshipIdOf];
        rewrite ?toLowerCase_value; reflexivity
      | assumption ] ].

Lemma processExtension_wellKeyed (moduleName typeName : string)
  (this : Relationships.RelationshipExtractor) (extensionElement : Dom.Located) :
  allWellKeyed this ->
  allWellKeyed
    (Relationships.processExtension moduleName typeName this extensionElement).
Proof.
  intros Hall. unfold Relationships.processExtension.
  destruct (Js.truthy _); keyed_step.
Qed.

Lemma processElementReference_wellKeyed
  (this : Relationships.RelationshipExtractor) (elementElement : Dom.Located)
  (elementRef moduleName : string) :
  allWellKeyed this ->
  allWellKeyed
    (Relationships.processElementReference this elementElement elementRef
       moduleName).
Proof.
  intros Hall. unfold Relationships.processElementReference.
  destruct (negb _); keyed_step.
Qed.

Lemma processElementWithType_wellKeyed
  (this : Relationships.RelationshipExtractor) (elementElement : Dom.Located)
  (elementName elementType moduleName : string) :
  allWellKeyed this ->
  allWellKeyed
    (Relationships.processElementWithType this elementElement elementName
       elementType moduleName).
Proof.
  intros Hall. unfold Relationships.processElementWithType.
  destruct (Relationships.hasPrefix _ _); [assumption |].
  destruct (negb _); keyed_step.
Qed.

Lemma processXlinkReference_wellKeyed
  (this : Relationships.RelationshipExtractor) (attributeElement : Dom.Located)
  (moduleName : string) :
  allWellKeyed this ->
  allWellKeyed
    (Relationships.processXlinkReference this attributeElement moduleName).
Proof.
  intros Hall. unfold Relationships.processXlinkReference.
  destruct (negb _); keyed_step.
Qed.

Lemma processAttributeReference_wellKeyed
  (this : Relationships.RelationshipExtractor) (attributeElement : Dom.Located)
  (attributeRef moduleName : string) :
  allWellKeyed this ->
  allWellKeyed
    (Relationships.processAttributeReference this attributeElement attributeRef
       moduleName).
Proof.
  intros Hall. unfold Relationships.processAttributeReference.
  destruct (_ && _); [now apply processXlinkReference_wellKeyed |].
  destruct (negb _); keyed_step.
Qed.

Lemma processAttributeWithType_wellKeyed
  (this : Relationships.RelationshipExtractor) (attributeElement : Dom.Located)
  (attributeName attributeType moduleName : string) :
  allWellKeyed this ->
  allWellKeyed
    (Relationships.processAttributeWithType this attributeElement attributeName
       attributeType moduleName).
Proof.
  intros Hall. unfold Relationships.processAttributeWithType.
  destruct (Relationships.hasPrefix _ _); [assumption |].
  destruct (negb _); keyed_step.
Qed.

Lemma processGeometryElement_wellKeyed (moduleName : string)
  (this : Relationships.RelationshipExtractor) (geometryElement : Dom.Located) :
  allWellKeyed this ->
  allWellKeyed
    (Relationships.processGeometryElement moduleName this geometryElement).
Proof.
  intros Hall. unfold Relationships.processGeometryElement.
  destruct (_ || _); [assumption |].
  destruct (negb _); keyed_step.
Qed.

Lemma extractGeneralizationRelationships_wellKeyed
  (this : Relationships.RelationshipExtractor) :
  allWellKeyed this ->
  allWellKeyed (Relationships.extractGeneralizationRelationships this).
Proof.
  intros Hall. unfold Relationships.extractGeneralizationRelationships.
  destruct (Relationships.conceptExtractor this); [| assumption].
  apply fold_left_preserves; [| assumption].
  intros s entry Hs. apply fold_left_preserves; [| assumption].
  intros s' complexType Hs'. unfold Relationships.processComplexType.
  destruct (Js.truthy _); [| assumption].
  apply fold_left_preserves; [| assumption].
  intros s'' ext Hs''. now apply processExtension_wellKeyed.
Qed.

Lemma extractAssociationRelationships_wellKeyed
  (this : Relationships.RelationshipExtractor) :
  allWellKeyed this ->
  allWellKeyed (Relationships.extractAssociationRelationships this).
Proof.
  intros Hall. unfold Relationships.extractAssociationRelationships.
  apply fold_left_preserves; [| assumption].
  intros s entry Hs.
  unfold Relationships.extractRelationshipsFromAttributes,
    Relationships.extractRelationshipsFromElements.
  apply fold_left_preserves.
  - intros s' attributeElement Hs'. unfold Relationships.processAttribute.
    destruct (Js.truthy _);
      [now apply processAttributeReference_wellKeyed |].
    destruct (_ && _); [now apply processAttributeWithType_wellKeyed | assumption].
  - apply fold_left_preserves; [| assumption].
    intros s' elementElement Hs'. unfold Relationships.processElement.
    destruct (Js.truthy _);
      [now apply processElementReference_wellKeyed |].
    destruct (_ && _); [now apply processElementWithType_wellKeyed | assumption].
Qed.

Lemma extractSpatialRelationships_wellKeyed
  (this : Relationships.RelationshipExtractor) :
  allWellKeyed this ->
  allWellKeyed (Relationships.extractSpatialRelationships this).
Proof.
  intros Hall. unfold Relationships.extractSpatialRelationships,
    Relationships.extractGeometryRelationships.
  destruct (Relationships.objectExtractor this); [| assumption].
  apply fold_left_preserves; [| assumption].
  intros s entry Hs. apply fold_left_preserves; [| assumption].
  intros s' geometryElement Hs'. now apply processGeometryElement_wellKeyed.
Qed.

Lemma loadModule_relationships (fs : FileSystem)
  (this : Relationships.RelationshipExtractor) (xsdFilePath : string) :
  Relationships.relationships (Relationships.loadModule fs this xsdFilePath)
  = Relationships.relationships this.
Proof.
  unfold Relationships.loadModule, Relationships.processModuleFile.
  destruct (fs xsdFilePath) as [doc |]; [| reflexivity].
  destruct (Dom.selectDoc "xs:schema" doc) as [| se rest]; [reflexivity |].
  destruct (Js.truthy _); reflexivity.
Qed.

(** Every entry of the map returned by [extractRelationships] is well keyed. *)
Lemma extractRelationships_wellKeyed (fs : FileSystem)
  (this this' : Relationships.RelationshipExtractor) (xsdFilePaths : list string)
  (m : gmap string RelationshipInfo.t) :
  Relationships.extractRelationships fs this xsdFilePaths = (inr m, this') ->
  map_Forall wellKeyed m.
Proof.
  unfold Relationships.extractRelationships.
  destruct (Relationships.conceptExtractor this); [| discriminate].
  destruct (Relationships.objectExtractor this); [| discriminate].
  intros Heq. inversion Heq; subst m this'; clear Heq.
  unfold Relationships.extractReferentialIntegrityRules.
  apply extractSpatialRelationships_wellKeyed,
    extractAssociationRelationships_wellKeyed,
    extractGeneralizationRelationships_wellKeyed.
  assert (Hempty : Relationships.relationships
                     (fold_left (Relationships.loadModule fs) xsdFilePaths
                        (Relationships.clear this)) = ∅).
  { apply (fold_left_preserves (fun s => Relationships.relationships s = ∅)).
    - intros s a Hs. now rewrite loadModule_relationships.
    - reflexivity. }
  unfold allWellKeyed. rewrite Hempty. apply map_Forall_empty.
Qed.

(** With both collaborators set, [extractRelationships] returns. *)
Lemma extractRelationships_returns (fs : FileSystem)
  (this : Relationships.RelationshipExtractor) (xsdFilePaths : list string) :
  Relationships.conceptExtractor this <> None ->
  Relationships.objectExtractor this <> None ->
  exists m this',
    Relationships.extractRelationships fs this xsdFilePaths = (inr m, this').
Proof.
  intros Hce Hoe. unfold Relationships.extractRelationships.
  destruct (Relationships.conceptExtractor this); [| contradiction].
  destruct (Relationships.objectExtractor this); [| contradiction].
  eexists. eexists. reflexivity.
Qed.

End RelationshipFacts.

Section RelationshipClaims.
Context {np : NodePath}.

(** C10.  In the map returned by [extractRelationships] every entry sits
    under the id it carries, so two entries with the same id are one and the
    same entry. *)
Theorem relationship_key_is_id (fs : FileSystem)
  (this this' : Relationships.RelationshipExtractor) (xsdFilePaths : list string)
  (m : gmap string RelationshipInfo.t) :
  Relationships.extractRelationships fs this xsdFilePaths = (inr m, this') ->
  (forall k r, m !! k = Some r -> RelationshipInfo.id r = k) /\
  (forall k1 k2 r1 r2,
     m !! k1 = Some r1 -> m !! k2 = Some r2 ->
     RelationshipInfo.id r1 = RelationshipInfo.id r2 -> k1 = k2 /\ r1 = r2).
Proof.
  intros Hrun. pose proof (extractRelationships_wellKeyed _ _ _ _ _ Hrun) as Hall.
  assert (Hkey : forall k r, m !! k = Some r -> RelationshipInfo.id r = k).
  { intros k r Hk. exact (proj1 (Hall k r Hk)). }
  split; [exact Hkey |].
  intros k1 k2 r1 r2 H1 H2 Hid.
  rewrite (Hkey _ _ H1), (Hkey _ _ H2) in Hid. subst k2.
  split; [reflexivity | congruence].
Qed.

(** C5.  In the map returned by [extractRelationships] the id of every
    entry is [relationshipIdOf] of its kind, source, target and target role;
    so two entries that agree on these four carry the same id (and are the
    same entry). *)
Theorem relationship_id_function_of_tuple (fs : FileSystem)
  (this this' : Relationships.RelationshipExtractor) (xsdFilePaths : list string)
  (m : gmap string RelationshipInfo.t) :
  Relationships.extractRelationships fs this xsdFilePaths = (inr m, this') ->
  (forall k r,
     m !! k = Some r ->
     RelationshipInfo.id r =
       relationshipIdOf (RelationshipInfo.type r) (RelationshipInfo.source r)
         (RelationshipInfo.target r) (RelationshipInfo.targetRole r)) /\
  (forall k1 k2 r1 r2,
     m !! k1 = Some r1 -> m !! k2 = Some r2 ->
     RelationshipInfo.type r1 = RelationshipInfo.type r2 ->
     RelationshipInfo.source r1 = RelationshipInfo.source r2 ->
     RelationshipInfo.target r1 = RelationshipInfo.target r2 ->
     RelationshipInfo.targetRole r1 = RelationshipInfo.targetRole r2 ->
     RelationshipInfo.id r1 = RelationshipInfo.id r2).
Proof.
  intros Hrun. pose proof (extractRelationships_wellKeyed _ _ _ _ _ Hrun) as Hall.
  assert (Hid : forall k r,
             m !! k = Some r ->
             RelationshipInfo.id r =
               relationshipIdOf (RelationshipInfo.type r)
                 (RelationshipInfo.source r) (RelationshipInfo.target r)
                 (RelationshipInfo.targetRole r)).
  { intros k r Hk. exact (proj2 (Hall k r Hk)). }
  split; [exact Hid |].
  intros k1 k2 r1 r2 H1 H2 Ht Hs Hg Hr.
  rewrite (Hid _ _ H1), (Hid _ _ H2), Ht, Hs, Hg, Hr. reflexivity.
Qed.

(** C3 (as amended).  For a typed attribute whose type is not built in and
    which lies inside a named complex type, [processAttributeWithType] files
    an association whose source multiplicity is 1..1 and whose target
    multiplicity is 0..1, whatever the attribute declares as [use]. *)
Theorem processAttributeWithType_multiplicities
  (this : Relationships.RelationshipExtractor) (attributeElement : Dom.Located)
  (attributeName attributeType moduleName : string) :
  Relationships.hasPrefix attributeType "xs" = false ->
  Relationships.sourceTypeNameOf attributeElement <> "" ->
  exists r,
    Relationships.relationships
      (Relationships.processAttributeWithType this attributeElement
         attributeName attributeType moduleName)
    !! ("association_" +:+ Relationships.sourceTypeNameOf attributeElement +:+
        "_" +:+ attributeName +:+ "_" +:+
        Relationships.withoutPrefix attributeType) = Some r /\
    RelationshipInfo.type r = RelationshipType.ASSOCIATION /\
    RelationshipInfo.sourceMultiplicity r = Multiplicity.one_one /\
    RelationshipInfo.targetMultiplicity r = Multiplicity.zero_one.
Proof.
  intros Hbuiltin Hsource. unfold Relationships.processAttributeWithType.
  rewrite Hbuiltin. apply truthy_nonempty in Hsource. rewrite Hsource.
  cbn [negb Relationships.setRelationship Relationships.relationships].
  eexists. split; [apply lookup_insert_eq |]. auto.
Qed.

End RelationshipClaims.

(** ** The properties at the sample inputs *)

(** The sample run returns the map it leaves in the instance. *)
Lemma sampleRun_returns :
  Relationships.extractRelationships (np := Samples.posixPath) Samples.files
    Samples.sampleExtractor ["xsds/building.xsd"]
  = (inr Samples.sampleRelationships, snd Samples.sampleRun).
Proof. vm_compute. reflexivity. Qed.

(** The key [BuildingPart] of the mapping of the sample building model. *)
Lemma extractAllCityObjects_keys_witness :
  exists objects,
    Objects.extractAllCityObjects
      {| Objects.conceptualModel := Some Samples.buildingModel |} = inr objects /\
    In "BuildingPart" (JsMap.keys objects).
Proof.
  destruct (extractAllCityObjects_keys Samples.buildingModel)
    as [objects [Hrun Hkeys]].
  exists objects. split; [exact Hrun |].
  apply Hkeys.
  exists (Samples.plainModule "building"
            [ Samples.plainClass "AbstractBuilding" "building"
                ["AbstractOccupiedSpace"];
              Samples.plainClass "Building" "building" ["AbstractBuilding"];
              Samples.plainClass "BuildingPart" "building" ["AbstractBuilding"] ]),
         (Samples.plainClass "BuildingPart" "building" ["AbstractBuilding"]).
  split; [left; reflexivity |].
  split; [left; reflexivity |].
  split; [right; right; left; reflexivity |].
  split; [reflexivity |].
  right. exists "Building". split; [left; reflexivity | reflexivity].
Defined.

(** [Building] lists [AbstractBuilding] as a superclass, and the children of
    [AbstractBuilding] list [Building]. *)
Lemma children_symmetric_witness :
  exists children,
    Objects.children (snd Samples.abstractBuildingEntry) = Some children /\
    In (Objects.name (snd Samples.buildingEntry)) children.
Proof.
  apply (children_symmetric_with_superClasses
           {| Objects.conceptualModel := Some Samples.buildingModel |}
           Samples.sampleHierarchy Samples.buildingEntry
           Samples.abstractBuildingEntry).
  - reflexivity.
  - right. left. reflexivity.
  - left. reflexivity.
  - left. reflexivity.
Defined.

(** [RoofTypeEnumBase] is listed as an enumeration and not as a codelist. *)
Lemma simpleType_classification_witness :
  In Samples.roofTypeSimpleType
     (Concepts.enumeratedSimpleTypes Samples.buildingXsd) /\
  In "RoofTypeEnumBase" (enumerationNames Samples.buildingXsd "building") /\
  ~ In "RoofTypeEnumBase" (codelistNames Samples.buildingXsd "building").
Proof.
  assert (Hin : In Samples.roofTypeSimpleType
                  (Concepts.enumeratedSimpleTypes Samples.buildingXsd))
    by (left; reflexivity).
  split; [exact Hin |].
  destruct (simpleType_classification Samples.buildingXsd "building"
              Samples.roofTypeSimpleType Hin) as [_ Hnamed].
  apply Hnamed; [discriminate | reflexivity].
Defined.

(** The root schema of the samples imports [building.xsd] and a file that
    is missing: the call returns the model with the building module alone. *)
Lemma extractAllModules_error_policy_witness :
  exists this',
    Concepts.extractAllModules (np := Samples.posixPath) Samples.files
      (Concepts.new "xsds") = (inr (Concepts.conceptModel this'), this') /\
    map Module_.name (ConceptualModel.modules (Concepts.conceptModel this'))
    = ["building"].
Proof.
  destruct (extractAllModules_error_policy (np := Samples.posixPath)
              Samples.files (Concepts.new "xsds")) as [this' [Hrun [Hmodules _]]].
  exists this'. split; [exact Hrun |].
  rewrite Hmodules. reflexivity.
Defined.

(** A file that no schema imports does not change the outcome. *)
Lemma extractAllModules_fresh_deterministic_witness :
  sameSchemaFiles (np := Samples.posixPath) "xsds" Samples.files
    Samples.filesWithExtra /\
  Concepts.extractAllModules (np := Samples.posixPath) Samples.files
    (Concepts.new "xsds")
  = Concepts.extractAllModules (np := Samples.posixPath) Samples.filesWithExtra
      (Concepts.new "xsds").
Proof.
  assert (Hsame : sameSchemaFiles (np := Samples.posixPath) "xsds" Samples.files
                    Samples.filesWithExtra).
  { split; [reflexivity |].
    intros mainXsdDoc importEl Hroot Hin.
    change (Some Samples.cityGmlXsd = Some mainXsdDoc) in Hroot.
    injection Hroot as <-.
    destruct Hin as [<- | [<- | []]]; reflexivity. }
  split; [exact Hsame |].
  apply extractAllModules_fresh_deterministic. exact Hsame.
Defined.

(** The generalization edge of the sample run sits under its id. *)
Lemma relationship_key_is_id_witness :
  Samples.sampleRelationships
    !! "generalization_BuildingType_AbstractBuildingType"
  = Some Samples.buildingGeneralization /\
  RelationshipInfo.id Samples.buildingGeneralization
  = "generalization_BuildingType_AbstractBuildingType".
Proof.
  assert (Hlookup : Samples.sampleRelationships
                      !! "generalization_BuildingType_AbstractBuildingType"
                    = Some Samples.buildingGeneralization)
    by (vm_compute; reflexivity).
  split; [exact Hlookup |].
  destruct (relationship_key_is_id (np := Samples.posixPath) Samples.files
              Samples.sampleExtractor (snd Samples.sampleRun)
              ["xsds/building.xsd"] Samples.sampleRelationships
              sampleRun_returns) as [Hkey _].
  exact (Hkey _ _ Hlookup).
Defined.

(** The id of the composition edge of the sample run, from its four parts. *)
Lemma relationship_id_function_of_tuple_witness :
  Samples.sampleRelationships
    !! "composition_BuildingType_buildingPart_BuildingPartPropertyType"
  = Some Samples.buildingPartComposition /\
  RelationshipInfo.id Samples.buildingPartComposition
  = relationshipIdOf RelationshipType.COMPOSITION "BuildingType"
      "BuildingPartPropertyType" (Some "buildingPart").
Proof.
  assert (Hlookup : Samples.sampleRelationships
                      !! "composition_BuildingType_buildingPart_BuildingPartPropertyType"
                    = Some Samples.buildingPartComposition)
    by (vm_compute; reflexivity).
  split; [exact Hlookup |].
  destruct (relationship_id_function_of_tuple (np := Samples.posixPath)
              Samples.files Samples.sampleExtractor (snd Samples.sampleRun)
              ["xsds/building.xsd"] Samples.sampleRelationships
              sampleRun_returns) as [Hid _].
  exact (Hid _ _ Hlookup).
Defined.

(** The attribute [usage] of the sample schema: 1..1 to 0..1. *)
Lemma processAttributeWithType_multiplicities_witness :
  Relationships.hasPrefix "bldg:UsageType" "xs" = false /\
  Relationships.sourceTypeNameOf Samples.usageAttribute <> "" /\
  exists r,
    Relationships.relationships
      (Relationships.processAttributeWithType (np := Samples.posixPath)
         Samples.sampleExtractor Samples.usageAttribute "usage" "bldg:UsageType"
         "building")
    !! "association_BuildingType_usage_UsageType" = Some r /\
    RelationshipInfo.type r = RelationshipType.ASSOCIATION /\
    RelationshipInfo.sourceMultiplicity r = Multiplicity.one_one /\
    RelationshipInfo.targetMultiplicity r = Multiplicity.zero_one.
Proof.
  assert (Hbuiltin : Relationships.hasPrefix "bldg:UsageType" "xs" = false)
    by reflexivity.
  assert (Hsource : Relationships.sourceTypeNameOf Samples.usageAttribute <> "")
    by (vm_compute; discriminate).
  split; [exact Hbuiltin |]. split; [exact Hsource |].
  exact (processAttributeWithType_multiplicities (np := Samples.posixPath)
           Samples.sampleExtractor Samples.usageAttribute "usage"
           "bldg:UsageType" "building" Hbuiltin Hsource).
Defined.

(** C3 (counterexample to the claim as stated).  The attribute [usage] of
    the sample building schema declares [use="required"] and a type that is
    not built in; the association filed for it by [extractRelationships] has
    the target multiplicity 0..1, not 1..1. *)
Lemma required_attribute_target_zero_one :
  In Samples.usageAttribute (Dom.selectDoc "xs:attribute" Samples.buildingXsd) /\
  Dom.getAttribute (snd Samples.usageAttribute) "use" = "required" /\
  Samples.sampleRelationships !! "association_BuildingType_usage_UsageType"
  = Some Samples.usageAssociation /\
  RelationshipInfo.sourceMultiplicity Samples.usageAssociation
  = Multiplicity.one_one /\
  RelationshipInfo.targetMultiplicity Samples.usageAssociation
  = Multiplicity.zero_one /\
  RelationshipInfo.targetMultiplicity Samples.usageAssociation
  <> Multiplicity.one_one.
Proof.
  split; [left; reflexivity |].
  split; [reflexivity |].
  split; [vm_compute; reflexivity |].
  split; [reflexivity |].
  split; [reflexivity | discriminate].
Qed.

(** * Further properties of the extractors *)

(** ** Relationship extractor: runs and their results *)

Section RelationshipRuns.
Context {np : NodePath}.



















Lemma loadModule_skips (fs : FileSystem)
  (this : Relationships.RelationshipExtractor) (xsdFilePath : string) :
  skippedFile fs xsdFilePath ->
  Relationships.loadModule fs this xsdFilePath = this.
Proof.
  unfold skippedFile, Relationships.loadModule, Relationships.processModuleFile.
  destruct (fs xsdFilePath) as [doc |]; [| reflexivity].
  destruct (Dom.selectDoc "xs:schema" doc) as [| se rest]; [reflexivity |].
  intros ->. reflexivity.
Qed.

(** X2.  A path whose file cannot be read or parsed, or holds no schema
    element with a target namespace, never aborts the batch: the run gives
    what it gives without that path. *)
Theorem extractRelationships_skips_file (fs : FileSystem)
  (this : Relationships.RelationshipExtractor)
  (before after : list string) (xsdFilePath : string) :
  skippedFile fs xsdFilePath ->
  Relationships.extractRelationships fs this (before ++ xsdFilePath :: after)
  = Relationships.extractRelationships fs this (before ++ after).
Proof.
  intros Hskip. unfold Relationships.extractRelationships.
  rewrite !fold_left_app. cbn [fold_left].
  now rewrite (loadModule_skips fs _ _ Hskip).
Qed.

(** X3.  Once [setConceptualModel] has been called, both collaborators are
    set (those already there are kept), and [extractRelationships] returns
    instead of throwing. *)
Theorem setConceptualModel_enables (fs : FileSystem)
  (this : Relationships.RelationshipExtractor) (model : ConceptualModel.t)
  (xsdFilePaths : list string) :
  let configured := Relationships.setConceptualModel this model in
  Relationships.conceptualModel configured = Some model /\
  (forall ce, Relationships.conceptExtractor this = Some ce ->
              Relationships.conceptExtractor configured = Some ce) /\
  (forall oe, Relationships.objectExtractor this = Some oe ->
              Relationships.objectExtractor configured = Some oe) /\
  exists m this',
    Relationships.extractRelationships fs configured xsdFilePaths = (inr m, this').
Proof.
  unfold Relationships.setConceptualModel, Relationships.extractRelationships.
  destruct (Relationships.conceptExtractor this) as [ce |] eqn:Hce;
    destruct (Relationships.objectExtractor this) as [oe |] eqn:Hoe;
    cbn; rewrite ?Hce, ?Hoe; cbn; rewrite ?Hce, ?Hoe;
    (repeat split; [congruence | congruence | eexists; eexists; reflexivity]).
Qed.

End RelationshipRuns.

Section RelationshipShapes.
Context {np : NodePath}.

Lemma setRelationship_wellShaped (this : Relationships.RelationshipExtractor)
  (key : string) (r : RelationshipInfo.t) :
  wellShaped r -> allWellShaped this ->
  allWellShaped (Relationships.setRelationship this key r).
Proof.
  unfold allWellShaped. simpl. intros Hr Hall.
  apply map_Forall_insert_2; assumption.
Qed.

Ltac shaped_step :=
  first
    [ assumption
    | apply setRelationship_wellShaped;
      [ unfold wellShaped;
        cbn [RelationshipInfo.direction RelationshipInfo.source
               RelationshipInfo.sourceRole RelationshipInfo.targetRole
               RelationshipInfo.type RelationshipInfo.sourceMultiplicity
               RelationshipInfo.targetMultiplicity RelationshipInfo.spatialType
               option_map Multiplicity.min Multiplicity.zero_one
               Multiplicity.zero_many];
        repeat match goal with
               | |- context [if ?b then _ else _] => destruct b
               | |- context [match ?l with [] => _ | _ :: _ => _ end] => destruct l
               end;
        repeat split; try discriminate; try reflexivity; try assumption
      | assumption ] ].

Lemma processExtension_wellShaped (moduleName typeName : string)
  (this : Relationships.RelationshipExtractor) (e : Dom.Located) :
  typeName <> "" -> allWellShaped this ->
  allWellShaped (Relationships.processExtension moduleName typeName this e).
Proof.
  intros Hname Hall. unfold Relationships.processExtension.
  destruct (Js.truthy _); shaped_step.
Qed.

Lemma processElement_wellShaped (moduleName : string)
  (this : Relationships.RelationshipExtractor) (e : Dom.Located) :
  allWellShaped this ->
  allWellShaped (Relationships.processElement moduleName this e).
Proof.
  intros Hall.
  unfold Relationships.processElement, Relationships.processElementReference,
    Relationships.processElementWithType.
  destruct (Js.truthy (Dom.getAttribute (snd e) "ref")).
  - destruct (Js.truthy (Relationships.sourceTypeNameOf e)) eqn:Hsrc;
      cbn [negb]; [| assumption].
    apply truthy_nonempty in Hsrc. shaped_step.
  - destruct (_ && _); [| assumption].
    destruct (Relationships.hasPrefix _ _); [assumption |].
    destruct (Js.truthy (Relationships.sourceTypeNameOf e)) eqn:Hsrc;
      cbn [negb]; [| assumption].
    apply truthy_nonempty in Hsrc. shaped_step.
Qed.

Lemma processAttribute_wellShaped (moduleName : string)
  (this : Relationships.RelationshipExtractor) (e : Dom.Located) :
  allWellShaped this ->
  allWellShaped (Relationships.processAttribute moduleName this e).
Proof.
  intros Hall.
  unfold Relationships.processAttribute, Relationships.processAttributeReference,
    Relationships.processAttributeWithType, Relationships.processXlinkReference.
  destruct (Js.truthy (Dom.getAttribute (snd e) "ref")).
  - destruct (_ && _);
      (destruct (Js.truthy (Relationships.sourceTypeNameOf e)) eqn:Hsrc;
       cbn [negb]; [| assumption]);
      apply truthy_nonempty in Hsrc; shaped_step.
  - destruct (_ && _); [| assumption].
    destruct (Relationships.hasPrefix _ _); [assumption |].
    destruct (Js.truthy (Relationships.sourceTypeNameOf e)) eqn:Hsrc;
      cbn [negb]; [| assumption].
    apply truthy_nonempty in Hsrc. shaped_step.
Qed.

Lemma processGeometryElement_wellShaped (moduleName : string)
  (this : Relationships.RelationshipExtractor) (e : Dom.Located) :
  allWellShaped this ->
  allWellShaped (Relationships.processGeometryElement moduleName this e).
Proof.
  intros Hall. unfold Relationships.processGeometryElement.
  destruct (_ || _); [assumption |].
  destruct (Js.truthy (Relationships.sourceTypeNameOf e)) eqn:Hsrc;
    cbn [negb]; [| assumption].
  apply truthy_nonempty in Hsrc. shaped_step.
Qed.

Lemma extractRelationships_wellShaped (fs : FileSystem)
  (this this' : Relationships.RelationshipExtractor) (xsdFilePaths : list string)
  (m : gmap string RelationshipInfo.t) :
  Relationships.extractRelationships fs this xsdFilePaths = (inr m, this') ->
  map_Forall (fun _ r => wellShaped r) m.
Proof.
  unfold Relationships.extractRelationships.
  destruct (Relationships.conceptExtractor this) eqn:Hce; [| discriminate].
  destruct (Relationships.objectExtractor this) eqn:Hoe; [| discriminate].
  intros Heq. inversion Heq; subst m this'; clear Heq.
  unfold Relationships.extractReferentialIntegrityRules.
  change (allWellShaped
            (Relationships.extractSpatialRelationships
               (Relationships.extractAssociationRelationships
                  (Relationships.extractGeneralizationRelationships
                     (fold_left (Relationships.loadModule fs) xsdFilePaths
                        (Relationships.clear this)))))).
  assert (Hempty : allWellShaped
                     (fold_left (Relationships.loadModule fs) xsdFilePaths
                        (Relationships.clear this))).
  { unfold allWellShaped.
    assert (Hrel : Relationships.relationships
                     (fold_left (Relationships.loadModule fs) xsdFilePaths
                        (Relationships.clear this)) = ∅).
    { apply (fold_left_preserves (fun s => Relationships.relationships s = ∅)).
      - intros s a Hs. now rewrite loadModule_relationships.
      - reflexivity. }
    rewrite Hrel. apply map_Forall_empty. }
  revert Hempty.
  generalize (fold_left (Relationships.loadModule fs) xsdFilePaths
                (Relationships.clear this)).
  intros loaded Hloaded.
  unfold Relationships.extractSpatialRelationships,
    Relationships.extractGeometryRelationships.
  assert (Hgen : allWellShaped
                   (Relationships.extractGeneralizationRelationships loaded)).
  { unfold Relationships.extractGeneralizationRelationships.
    destruct (Relationships.conceptExtractor loaded); [| assumption].
    apply fold_left_preserves; [| assumption].
    intros s entry Hs. apply fold_left_preserves; [| assumption].
    intros s' complexType Hs'. unfold Relationships.processComplexType.
    destruct (Js.truthy _) eqn:Hname; [| assumption].
    apply truthy_nonempty in Hname.
    apply fold_left_preserves; [| assumption].
    intros s'' e Hs''. now apply processExtension_wellShaped. }
  assert (Hassoc : allWellShaped
                     (Relationships.extractAssociationRelationships
                        (Relationships.extractGeneralizationRelationships loaded))).
  { unfold Relationships.extractAssociationRelationships.
    apply fold_left_preserves; [| assumption].
    intros s entry Hs.
    unfold Relationships.extractRelationshipsFromAttributes,
      Relationships.extractRelationshipsFromElements.
    apply fold_left_preserves.
    - intros s' e Hs'. now apply processAttribute_wellShaped.
    - apply fold_left_preserves; [| assumption].
      intros s' e Hs'. now apply processElement_wellShaped. }
  revert Hassoc.
  generalize (Relationships.extractAssociationRelationships
                (Relationships.extractGeneralizationRelationships loaded)).
  intros associated Hassoc.
  destruct (Relationships.objectExtractor associated); [| assumption].
  apply fold_left_preserves; [| assumption].
  intros s entry Hs. apply fold_left_preserves; [| assumption].
  intros s' e Hs'. now apply processGeometryElement_wellShaped.
Qed.

(** X4.  Every edge of the map returned by [extractRelationships] is
    unidirectional and has a non-empty source; its source role is the
    lowercased source name exactly when it has a target role; a
    generalization runs from 0..* to 1..1 and has no roles; every other edge
    has the source multiplicity 1..1; spatial edges, and only they, carry a
    spatial relation type; no edge is temporal or thematic. *)
Theorem extracted_edges_shape (fs : FileSystem)
  (this this' : Relationships.RelationshipExtractor) (xsdFilePaths : list string)
  (m : gmap string RelationshipInfo.t) (key : string) (r : RelationshipInfo.t) :
  Relationships.extractRelationships fs this xsdFilePaths = (inr m, this') ->
  m !! key = Some r ->
  wellShaped r.
Proof.
  intros Hrun Hlookup.
  exact (extractRelationships_wellShaped fs this this' xsdFilePaths m Hrun
           key r Hlookup).
Qed.

End RelationshipShapes.

(** ** Relationship extractor: summaries over the relationships *)

Section RelationshipSummaries.
Context {np : NodePath}.

Lemma getRelationshipsArray_In (this : Relationships.RelationshipExtractor)
  (r : RelationshipInfo.t) :
  In r (Relationships.getRelationshipsArray this) <->
  exists key, Relationships.relationships this !! key = Some r.
Proof.
  unfold Relationships.getRelationshipsArray. rewrite in_map_iff. split.
  - intros [[k r'] [Heq Hin]]. simpl in Heq. subst r'. exists k.
    apply elem_of_map_to_list. now apply list_elem_of_In.
  - intros [k Hk]. exists (k, r). split; [reflexivity |].
    apply list_elem_of_In. now apply elem_of_map_to_list.
Qed.

Lemma sameKind_eq (a b : Relationships.MultiplicityKind) :
  sameKind a b = true <-> a = b.
Proof. destruct a, b; simpl; split; intros H; congruence. Qed.

Lemma fileMultiplicity_bucket (kind : Relationships.MultiplicityKind)
  (summary : Relationships.MultiplicitySummary) (r : RelationshipInfo.t) :
  bucketOf kind (Relationships.fileMultiplicity summary r) =
  bucketOf kind summary ++
  (if sameKind (Relationships.multiplicityKind r) kind then [r] else []).
Proof.
  unfold Relationships.fileMultiplicity.
  destruct (Relationships.multiplicityKind r), kind; simpl;
    rewrite ?app_nil_r; reflexivity.
Qed.

(** Each bucket of [analyzeRelationshipMultiplicity] holds the
    relationships of its kind. *)
Lemma analyzeRelationshipMultiplicity_bucket
  (this : Relationships.RelationshipExtractor)
  (kind : Relationships.MultiplicityKind) (r : RelationshipInfo.t) :
  In r (bucketOf kind (Relationships.analyzeRelationshipMultiplicity this)) <->
  In r (Relationships.getRelationshipsArray this) /\
  Relationships.multiplicityKind r = kind.
Proof.
  unfold Relationships.analyzeRelationshipMultiplicity.
  rewrite (fold_left_appends (bucketOf kind) Relationships.fileMultiplicity
             (fun r => if sameKind (Relationships.multiplicityKind r) kind
                       then [r] else [])).
  2: { intros s x. apply fileMultiplicity_bucket. }
  assert (Hstart : bucketOf kind
                     {| Relationships.oneToOne := [];
                        Relationships.oneToMany := [];
                        Relationships.manyToOne := [];
                        Relationships.manyToMany := [] |} = [])
    by (destruct kind; reflexivity).
  rewrite Hstart, app_nil_l, in_flat_map. split.
  - intros [x [Hx Hin]].
    destruct (sameKind (Relationships.multiplicityKind x) kind) eqn:Hk;
      [| destruct Hin].
    destruct Hin as [<- | []]. apply sameKind_eq in Hk. auto.
  - intros [Hin Hk]. exists r. split; [assumption |].
    apply sameKind_eq in Hk. rewrite Hk. now left.
Qed.

Lemma wellShaped_kind (r : RelationshipInfo.t) :
  wellShaped r ->
  (RelationshipInfo.type r = RelationshipType.GENERALIZATION ->
   Relationships.multiplicityKind r = Relationships.ManyToOne) /\
  (RelationshipInfo.type r <> RelationshipType.GENERALIZATION ->
   Relationships.multiplicityKind r =
   match Multiplicity.max (RelationshipInfo.targetMultiplicity r) with
   | Multiplicity.Star => Relationships.OneToMany
   | Multiplicity.Num (Js.Int 1) => Relationships.OneToOne
   | Multiplicity.Num n =>
       if Js.gt1 n then Relationships.OneToMany else Relationships.ManyToMany
   end).
Proof.
  intros [_ [_ [_ Hshape]]]. unfold Relationships.multiplicityKind. split.
  - intros Hgen. rewrite Hgen in Hshape. destruct Hshape as [-> [-> _]].
    reflexivity.
  - intros Hother.
    assert (Hsrc : RelationshipInfo.sourceMultiplicity r = Multiplicity.one_one).
    { destruct (RelationshipInfo.type r); try tauto; congruence. }
    rewrite Hsrc.
    destruct (Multiplicity.max (RelationshipInfo.targetMultiplicity r))
      as [| [| [| [p | p |] | p]]]; try reflexivity.
Qed.

Lemma extractRelationships_state (fs : FileSystem)
  (this this' : Relationships.RelationshipExtractor) (xsdFilePaths : list string)
  (m : gmap string RelationshipInfo.t) :
  Relationships.extractRelationships fs this xsdFilePaths = (inr m, this') ->
  Relationships.relationships this' = m.
Proof.
  unfold Relationships.extractRelationships.
  destruct (Relationships.conceptExtractor this); [| discriminate].
  destruct (Relationships.objectExtractor this); [| discriminate].
  intros Heq. inversion Heq. reflexivity.
Qed.

(** X5.  In the multiplicity summary of an extractor that has just run, the
    many-to-one bucket holds exactly the generalization edges, the
    one-to-one bucket exactly the other edges whose target maximum is 1, and
    an edge is filed as many-to-many exactly when it is no generalization
    and its target maximum is neither [*] nor a number of at least 1 (a
    [maxOccurs] of 0, or one that is no number). *)
Theorem multiplicity_summary_of_run (fs : FileSystem)
  (this this' : Relationships.RelationshipExtractor) (xsdFilePaths : list string)
  (m : gmap string RelationshipInfo.t) (r : RelationshipInfo.t) :
  Relationships.extractRelationships fs this xsdFilePaths = (inr m, this') ->
  In r (Relationships.getRelationshipsArray this') ->
  let summary := Relationships.analyzeRelationshipMultiplicity this' in
  (In r (Relationships.manyToOne summary) <->
   RelationshipInfo.type r = RelationshipType.GENERALIZATION) /\
  (In r (Relationships.oneToOne summary) <->
   RelationshipInfo.type r <> RelationshipType.GENERALIZATION /\
   Multiplicity.max (RelationshipInfo.targetMultiplicity r)
     = Multiplicity.Num (Js.Int 1)) /\
  (In r (Relationships.manyToMany summary) <->
   RelationshipInfo.type r <> RelationshipType.GENERALIZATION /\
   Relationships.isOne (Multiplicity.max (RelationshipInfo.targetMultiplicity r))
     = false /\
   Relationships.isMany (Multiplicity.max (RelationshipInfo.targetMultiplicity r))
     = false).
Proof.
  intros Hrun Hin summary.
  assert (Hshape : wellShaped r).
  { apply getRelationshipsArray_In in Hin. destruct Hin as [key Hkey].
    rewrite (extractRelationships_state _ _ _ _ _ Hrun) in Hkey.
    exact (extractRelationships_wellShaped _ _ _ _ _ Hrun key r Hkey). }
  destruct (wellShaped_kind r Hshape) as [Hgen Hother].
  pose proof (analyzeRelationshipMultiplicity_bucket this'
                Relationships.ManyToOne r) as HM1.
  pose proof (analyzeRelationshipMultiplicity_bucket this'
                Relationships.OneToOne r) as H11.
  pose proof (analyzeRelationshipMultiplicity_bucket this'
                Relationships.ManyToMany r) as HMM.
  cbn [bucketOf] in HM1, H11, HMM. fold summary in HM1, H11, HMM.
  rewrite HM1, H11, HMM. clear HM1 H11 HMM.
  assert (Hdec : RelationshipInfo.type r = RelationshipType.GENERALIZATION \/
                 RelationshipInfo.type r <> RelationshipType.GENERALIZATION).
  { destruct (RelationshipInfo.type r); (now left) || (right; discriminate). }
  destruct Hdec as [Hg | Hng].
  - rewrite (Hgen Hg). intuition (congruence || discriminate).
  - rewrite (Hother Hng).
    destruct (Multiplicity.max (RelationshipInfo.targetMultiplicity r))
      as [| [| [| [p | p |] | p]]]; cbn;
      intuition (congruence || discriminate).
Qed.

Lemma noteModuleRelationship_tidy (this : Relationships.RelationshipExtractor)
  (mr : Relationships.ModuleRelationships) (r : RelationshipInfo.t) :
  tidyModuleRelationships mr ->
  tidyModuleRelationships (Relationships.noteModuleRelationship this mr r).
Proof.
  intros Htidy. unfold Relationships.noteModuleRelationship.
  destruct (Relationships.findModuleForClass this (RelationshipInfo.source r))
    as [sourceName |]; [| assumption].
  destruct (Relationships.findModuleForClass this (RelationshipInfo.target r))
    as [targetName |]; [| assumption].
  destruct (Js.truthy sourceName) eqn:Hs; [| assumption].
  destruct (Js.truthy targetName) eqn:Ht; [| assumption].
  destruct (String.eqb_spec sourceName targetName) as [| Hne]; [assumption |].
  cbn [andb negb].
  apply truthy_nonempty in Hs, Ht.
  destruct Htidy as [Hnd [Hdeps [Hassoc Hgen]]].
  set (link := {| Relationships.ml_source := sourceName;
                  Relationships.ml_target := targetName |}).
  assert (Hexists :
            Js.some
              (fun dep => String.eqb (Relationships.ml_source dep) sourceName &&
                          String.eqb (Relationships.ml_target dep) targetName)
              (Relationships.dependencies mr) = true <->
            In link (Relationships.dependencies mr)).
  { unfold Js.some. rewrite existsb_exists. split.
    - intros [dep [Hin Heq]]. apply andb_true_iff in Heq.
      destruct Heq as [H1 H2]. apply String.eqb_eq in H1, H2.
      destruct dep as [ds dt]. simpl in H1, H2. subst. exact Hin.
    - intros Hin. exists link. split; [assumption |].
      simpl. now rewrite !String.eqb_refl. }
  assert (Hlink : In link
            (if Js.some
                  (fun dep =>
                     String.eqb (Relationships.ml_source dep) sourceName &&
                     String.eqb (Relationships.ml_target dep) targetName)
                  (Relationships.dependencies mr)
             then Relationships.dependencies mr
             else Relationships.dependencies mr ++ [link])).
  { destruct (Js.some _ _) eqn:Hsome.
    - now apply Hexists.
    - apply in_or_app. right. now left. }
  assert (Hmono : forall dep, In dep (Relationships.dependencies mr) ->
            In dep
              (if Js.some
                    (fun dep =>
                       String.eqb (Relationships.ml_source dep) sourceName &&
                       String.eqb (Relationships.ml_target dep) targetName)
                    (Relationships.dependencies mr)
               then Relationships.dependencies mr
               else Relationships.dependencies mr ++ [link])).
  { intros dep Hin. destruct (Js.some _ _); [assumption |].
    apply in_or_app. now left. }
  unfold tidyModuleRelationships. cbn [Relationships.dependencies
    Relationships.crossModuleAssociations Relationships.crossModuleGeneralizations].
  split; [| split; [| split; [| exact Hgen]]].
  - destruct (Js.some _ _) eqn:Hsome; [assumption |].
    apply List.NoDup_app; [assumption | constructor; [intros [] | constructor] |].
    intros dep Hin [<- | []].
    apply Hexists in Hin. congruence.
  - intros dep Hin. destruct (Js.some _ _); [now apply Hdeps |].
    apply in_app_or in Hin. destruct Hin as [Hin | [<- | []]];
      [now apply Hdeps | auto].
  - intros assoc Hin.
    destruct (Relationships.sameType _ _).
    + apply in_app_or in Hin. destruct Hin as [Hin | [<- | []]].
      * apply Hmono. now apply Hassoc.
      * exact Hlink.
    + apply Hmono. now apply Hassoc.
Qed.

(** X6.  The module dependencies reported by [extractModuleRelationships]
    hold no pair twice and no module depending on itself, both ends are
    non-empty module names, and every cross-module association reported has
    its pair among the dependencies.  The list of cross-module
    generalizations is always empty: nothing ever fills it. *)
Theorem extractModuleRelationships_tidy
  (this : Relationships.RelationshipExtractor) :
  tidyModuleRelationships (Relationships.extractModuleRelationships this).
Proof.
  unfold Relationships.extractModuleRelationships.
  apply fold_left_preserves.
  - intros mr r Hmr. now apply noteModuleRelationship_tidy.
  - unfold tidyModuleRelationships. cbn.
    split; [constructor | split; [intros dep [] | split; [intros a [] | reflexivity]]].
Qed.

End RelationshipSummaries.

(** ** Relationship extractor: the graph of a module *)

Section RelationshipGraph.
Context {np : NodePath}.

Lemma hasNode_app (graph graph' : Relationships.Graph) (name : string)
  (extra : list Relationships.GraphNode) :
  Relationships.nodes graph' = Relationships.nodes graph ++ extra ->
  hasNode graph name -> hasNode graph' name.
Proof.
  intros Hnodes [node [Hin Hid]]. exists node. rewrite Hnodes.
  split; [apply in_or_app; now left | exact Hid].
Qed.

Lemma ensureNode_nodes (graph : Relationships.Graph) (name : string)
  (module : option string) :
  exists extra,
    Relationships.nodes (Relationships.ensureNode graph name module)
    = Relationships.nodes graph ++ extra.
Proof.
  unfold Relationships.ensureNode. destruct (Js.some _ _).
  - exists []. now rewrite app_nil_r.
  - eexists. reflexivity.
Qed.

Lemma ensureNode_edges (graph : Relationships.Graph) (name : string)
  (module : option string) :
  Relationships.edges (Relationships.ensureNode graph name module)
  = Relationships.edges graph.
Proof. unfold Relationships.ensureNode. now destruct (Js.some _ _). Qed.

Lemma ensureNode_hasNode (graph : Relationships.Graph) (name : string)
  (module : option string) :
  hasNode (Relationships.ensureNode graph name module) name.
Proof.
  unfold Relationships.ensureNode, Js.some.
  destruct (existsb _ _) eqn:Hsome.
  - apply existsb_exists in Hsome. destruct Hsome as [node [Hin Hid]].
    apply String.eqb_eq in Hid. now exists node.
  - eexists. split; [apply in_or_app; right; now left | reflexivity].
Qed.

Lemma graphClosed_grow (graph graph' : Relationships.Graph)
  (extra : list Relationships.GraphNode) (edge : Relationships.GraphEdge) :
  Relationships.nodes graph' = Relationships.nodes graph ++ extra ->
  Relationships.edges graph' = Relationships.edges graph ++ [edge] ->
  hasNode graph' (Relationships.ge_source edge) ->
  hasNode graph' (Relationships.ge_target edge) ->
  graphClosed graph -> graphClosed graph'.
Proof.
  intros Hnodes Hedges Hsource Htarget Hclosed e Hin.
  rewrite Hedges in Hin. apply in_app_or in Hin.
  destruct Hin as [Hin | [<- | []]]; [| now split].
  destruct (Hclosed e Hin) as [Hs Ht].
  split; eapply hasNode_app; eassumption.
Qed.

Lemma addClassNode_closed (moduleName : string) (graph : Relationships.Graph)
  (cls : Class.t) :
  graphClosed graph /\ hasNode graph moduleName ->
  graphClosed (Relationships.addClassNode moduleName graph cls) /\
  hasNode (Relationships.addClassNode moduleName graph cls) moduleName.
Proof.
  intros [Hclosed Hmodule].
  assert (Hkept : hasNode (Relationships.addClassNode moduleName graph cls)
                    moduleName)
    by (eapply hasNode_app; [reflexivity | exact Hmodule]).
  split; [| exact Hkept].
  eapply graphClosed_grow; [reflexivity | reflexivity | exact Hkept | | exact Hclosed].
  eexists. split; [apply in_or_app; right; now left | reflexivity].
Qed.

Lemma addRelationshipEdge_closed (this : Relationships.RelationshipExtractor)
  (moduleName : string) (graph : Relationships.Graph) (r : RelationshipInfo.t) :
  graphClosed graph ->
  graphClosed (Relationships.addRelationshipEdge this moduleName graph r).
Proof.
  intros Hclosed. unfold Relationships.addRelationshipEdge.
  destruct (_ || _); [| exact Hclosed].
  set (withSource := Relationships.ensureNode graph (RelationshipInfo.source r) _).
  set (withTarget :=
         Relationships.ensureNode withSource (RelationshipInfo.target r) _).
  destruct (ensureNode_nodes graph (RelationshipInfo.source r)
              (Relationships.findModuleForClass this (RelationshipInfo.source r)))
    as [extra1 Hextra1].
  destruct (ensureNode_nodes withSource (RelationshipInfo.target r)
              (Relationships.findModuleForClass this (RelationshipInfo.target r)))
    as [extra2 Hextra2].
  fold withSource in Hextra1. fold withTarget in Hextra2.
  eapply (graphClosed_grow graph _ (extra1 ++ extra2)).
  - cbn [Relationships.nodes]. now rewrite Hextra2, Hextra1, app_assoc.
  - cbn [Relationships.edges]. unfold withTarget, withSource.
    now rewrite !ensureNode_edges.
  - cbn [Relationships.ge_source].
    eapply (hasNode_app withSource _ _ extra2); [exact Hextra2 |].
    apply ensureNode_hasNode.
  - cbn [Relationships.ge_target].
    eapply (hasNode_app withTarget _ _ []);
      [cbn [Relationships.nodes]; now rewrite app_nil_r |].
    apply ensureNode_hasNode.
  - exact Hclosed.
Qed.

Lemma isModule_true (found : option string) (moduleName : string) :
  Relationships.isModule found moduleName = true <-> found = Some moduleName.
Proof.
  destruct found as [n |]; simpl; [| split; discriminate].
  rewrite String.eqb_eq. split; congruence.
Qed.

Lemma addClassNode_edges (this : Relationships.RelationshipExtractor)
  (moduleName : string) (graph : Relationships.Graph) (cls : Class.t) :
  In cls (Relationships.moduleClassesOf this moduleName) ->
  Forall (edgeOfModule this moduleName) (Relationships.edges graph) ->
  Forall (edgeOfModule this moduleName)
    (Relationships.edges (Relationships.addClassNode moduleName graph cls)).
Proof.
  intros Hcls Hedges. cbn [Relationships.addClassNode Relationships.edges].
  apply Forall_app. split; [exact Hedges |].
  constructor; [| constructor]. left. cbn. eauto.
Qed.

Lemma addRelationshipEdge_edges (this : Relationships.RelationshipExtractor)
  (moduleName : string) (graph : Relationships.Graph) (r : RelationshipInfo.t) :
  In r (Relationships.getRelationshipsArray this) ->
  Forall (edgeOfModule this moduleName) (Relationships.edges graph) ->
  Forall (edgeOfModule this moduleName)
    (Relationships.edges (Relationships.addRelationshipEdge this moduleName graph r)).
Proof.
  intros Hr Hedges. unfold Relationships.addRelationshipEdge.
  destruct (_ || _) eqn:Hends; [| exact Hedges].
  cbn [Relationships.edges]. rewrite !ensureNode_edges.
  apply Forall_app. split; [exact Hedges |].
  constructor; [| constructor]. right. exists r. cbn.
  apply orb_true_iff in Hends. rewrite !isModule_true in Hends. auto.
Qed.

(** X7.  In the graph that [createModuleRelationshipGraph] builds for a
    module, every edge runs between two nodes of the graph, and every edge
    is either a [contains] edge from the module to one of its classes or the
    edge of a stored relationship one of whose ends lies in the module. *)
Theorem createModuleRelationshipGraph_closed
  (this : Relationships.RelationshipExtractor) (moduleName : string) :
  let graph := Relationships.createModuleRelationshipGraph this moduleName in
  graphClosed graph /\
  (forall edge, In edge (Relationships.edges graph) ->
     edgeOfModule this moduleName edge).
Proof.
  cbn zeta. unfold Relationships.createModuleRelationshipGraph.
  set (start := {| Relationships.nodes := _; Relationships.edges := [] |}).
  set (withClasses := fold_left _ (Relationships.moduleClassesOf this moduleName) start).
  assert (Hclasses : (graphClosed withClasses /\ hasNode withClasses moduleName) /\
                     Forall (edgeOfModule this moduleName)
                       (Relationships.edges withClasses)).
  { split.
    - apply (fold_left_preserves
               (fun g => graphClosed g /\ hasNode g moduleName)).
      + intros g cls. apply addClassNode_closed.
      + split; [intros e [] |].
        eexists. split; [now left | reflexivity].
    - apply (fold_left_preserves_in
               (fun g => Forall (edgeOfModule this moduleName)
                           (Relationships.edges g))).
      + intros g cls. apply addClassNode_edges.
      + constructor. }
  destruct Hclasses as [[Hclosed _] Hedges]. split.
  - apply (fold_left_preserves graphClosed); [| exact Hclosed].
    intros g r. apply addRelationshipEdge_closed.
  - apply List.Forall_forall.
    apply (fold_left_preserves_in
             (fun g => Forall (edgeOfModule this moduleName)
                         (Relationships.edges g))); [| exact Hedges].
    intros g r. apply addRelationshipEdge_edges.
Qed.

End RelationshipGraph.

(** ** Relationship extractor: counting by kind *)

Section RelationshipCounts.
Context {np : NodePath}.

Lemma count_fold (type : RelationshipType.t) (l : list RelationshipInfo.t)
  (n : nat) :
  fold_left
    (fun count relationship =>
       if Relationships.sameType (RelationshipInfo.type relationship) type
       then S count else count) l n
  = (n + List.length
           (List.filter
              (fun relationship =>
                 Relationships.sameType (RelationshipInfo.type relationship) type)
              l))%nat.
Proof.
  revert n. induction l as [| r l IH]; intros n; cbn [fold_left List.filter].
  - cbn. lia.
  - rewrite IH. destruct (Relationships.sameType _ _); cbn [List.length]; lia.
Qed.

Lemma countRelationshipsByType_length
  (this : Relationships.RelationshipExtractor) (type : RelationshipType.t) :
  Relationships.countRelationshipsByType this type
  = List.length (Relationships.getRelationshipsByType this type).
Proof.
  unfold Relationships.countRelationshipsByType,
    Relationships.getRelationshipsByType.
  now rewrite count_fold.
Qed.

Lemma five_kinds_length (l : list RelationshipInfo.t) :
  Forall wellShaped l ->
  let count type :=
    List.length
      (List.filter
         (fun relationship =>
            Relationships.sameType (RelationshipInfo.type relationship) type) l) in
  (count RelationshipType.ASSOCIATION + count RelationshipType.AGGREGATION +
   count RelationshipType.COMPOSITION + count RelationshipType.GENERALIZATION +
   count RelationshipType.SPATIAL = List.length l)%nat /\
  count RelationshipType.TEMPORAL = 0%nat /\
  count RelationshipType.THEMATIC = 0%nat.
Proof.
  cbn zeta. induction 1 as [| r l Hr Hl IH]; [cbn; lia |].
  cbn [List.filter].
  destruct Hr as [_ [_ [_ Hkind]]].
  destruct IH as [Hsum [Htemporal Hthematic]].
  destruct (RelationshipInfo.type r); try contradiction;
    simpl; rewrite ?Htemporal, ?Hthematic; repeat split; try reflexivity; lia.
Qed.

(** X8.  After a run of [extractRelationships] every stored relationship is
    of one of five kinds: the counts that [countRelationshipsByType] gives
    for association, aggregation, composition, generalization and spatial
    add up to the number of relationships, and its counts for temporal and
    thematic are 0.  Each count is the length of what
    [getRelationshipsByType] returns for the kind. *)
Theorem countRelationshipsByType_of_run (fs : FileSystem)
  (this this' : Relationships.RelationshipExtractor) (xsdFilePaths : list string)
  (m : gmap string RelationshipInfo.t) :
  Relationships.extractRelationships fs this xsdFilePaths = (inr m, this') ->
  let count := Relationships.countRelationshipsByType this' in
  (count RelationshipType.ASSOCIATION + count RelationshipType.AGGREGATION +
   count RelationshipType.COMPOSITION + count RelationshipType.GENERALIZATION +
   count RelationshipType.SPATIAL
   = List.length (Relationships.getRelationshipsArray this'))%nat /\
  count RelationshipType.TEMPORAL = 0%nat /\
  count RelationshipType.THEMATIC = 0%nat /\
  (forall type,
     count type = List.length (Relationships.getRelationshipsByType this' type)).
Proof.
  intros Hrun count.
  assert (Hall : Forall wellShaped (Relationships.getRelationshipsArray this')).
  { apply List.Forall_forall. intros r Hin.
    apply getRelationshipsArray_In in Hin. destruct Hin as [key Hkey].
    rewrite (extractRelationships_state _ _ _ _ _ Hrun) in Hkey.
    exact (extractRelationships_wellShaped _ _ _ _ _ Hrun key r Hkey). }
  destruct (five_kinds_length _ Hall) as [Hsum [Htemporal Hthematic]].
  unfold count.
  split; [| split; [| split]].
  - rewrite !countRelationshipsByType_length. exact Hsum.
  - rewrite countRelationshipsByType_length. exact Htemporal.
  - rewrite countRelationshipsByType_length. exact Hthematic.
  - intros type. apply countRelationshipsByType_length.
Qed.

End RelationshipCounts.

(** ** Object extractor: levels of detail *)

Section ObjectLevels.

Lemma lodAt_digit (ci : bool) (s : string) (d : ascii) :
  Objects.lodAt ci s = Some d -> Js.isDigit d = true.
Proof.
  unfold Objects.lodAt.
  destruct s as [| a [| b [| c [| e rest]]]]; try discriminate.
  destruct (Js.isDigit e) eqn:He.
  - destruct (_ && _ && _); cbn [andb]; intros Heq;
      [inversion Heq; now subst | discriminate].
  - rewrite andb_false_r. discriminate.
Qed.

Lemma findLod_digit (ci : bool) (s : string) (d : ascii) :
  Objects.findLod ci s = Some d -> Js.isDigit d = true.
Proof.
  induction s as [| a s IH]; cbn [Objects.findLod].
  - destruct (Objects.lodAt ci "") eqn:Hat; [| discriminate].
    intros Heq. inversion Heq; subst. now apply lodAt_digit in Hat.
  - destruct (Objects.lodAt ci (String a s)) eqn:Hat; [| exact IH].
    intros Heq. inversion Heq; subst. now apply lodAt_digit in Hat.
Qed.

Lemma digitValue_range (d : ascii) :
  Js.isDigit d = true -> (0 <= Js.digitValue d <= 9)%Z.
Proof.
  unfold Js.isDigit, Js.digitValue. intros Hd.
  apply andb_true_iff in Hd. destruct Hd as [Hlo Hhi].
  apply N.leb_le in Hlo, Hhi. lia.
Qed.

Lemma extractLodLevel_range (name : string) :
  (Objects.extractLodLevel name = -1 \/ 0 <= Objects.extractLodLevel name <= 9)%Z.
Proof.
  unfold Objects.extractLodLevel.
  destruct (Objects.findLod true name) as [d |] eqn:Hd; [| now left].
  right. apply digitValue_range. now apply findLod_digit in Hd.
Qed.

Lemma noteLod_summary (name type : string) (role : option string)
  (info : Objects.LodInfo) :
  lodSummary info -> lodSummary (Objects.noteLod name type role info).
Proof.
  intros Hinfo. unfold Objects.noteLod.
  destruct (Objects.hasLodName name); [| exact Hinfo].
  destruct (Z.ltb_spec (-1) (Objects.extractLodLevel name)) as [Hlevel | _];
    [| exact Hinfo].
  assert (Hrange : (0 <= Objects.extractLodLevel name <= 9)%Z)
    by (destruct (extractLodLevel_range name); lia).
  set (level := Objects.extractLodLevel name) in *.
  destruct Hinfo as [Hdigits [Hmax [Hminmax [Hnone [Hsome Hleast]]]]].
  unfold lodSummary.
  cbn [Objects.lodAttributes Objects.maxLod Objects.minLod].
  rewrite map_app. cbn [map Objects.la_level].
  set (levels := map Objects.la_level (Objects.lodAttributes info)) in *.
  assert (Hcases : levels = [] \/ levels <> [])
    by (destruct levels; [now left | right; discriminate]).
  split; [| split; [| split; [| split; [| split]]]].
  - apply List.Forall_app. split; [exact Hdigits | now constructor].
  - apply List.Forall_app. split.
    + eapply List.Forall_impl; [| exact Hmax]. cbn beta. intros l Hl.
      destruct (Z.ltb_spec (Objects.maxLod info) level); lia.
    + constructor; [| constructor].
      destruct (Z.ltb_spec (Objects.maxLod info) level); lia.
  - destruct (Z.ltb_spec (Objects.maxLod info) level),
      (Z.eqb_spec (Objects.minLod info) 0),
      (Z.ltb_spec level (Objects.minLod info)); cbn [orb]; lia.
  - intros Hnil. now apply app_eq_nil in Hnil as [_ Hnil].
  - intros _. split.
    + destruct (Z.ltb_spec (Objects.maxLod info) level) as [Hlt | Hge].
      * apply in_or_app. right. now left.
      * apply in_or_app. destruct Hcases as [Hnil | Hcons].
        -- right. left. destruct (Hnone Hnil). lia.
        -- left. now apply Hsome.
    + destruct (Z.eqb_spec (Objects.minLod info) 0) as [Hzero | Hnonzero];
        cbn [orb]; [apply in_or_app; right; now left |].
      destruct (Z.ltb_spec level (Objects.minLod info));
        [apply in_or_app; right; now left |].
      apply in_or_app. destruct Hcases as [Hnil | Hcons].
      * destruct (Hnone Hnil). lia.
      * left. now apply Hsome.
  - intros Hnozero.
    assert (Hnozero' : ~ In 0%Z levels)
      by (intros Hin; apply Hnozero, in_or_app; now left).
    assert (Hlevel0 : level <> 0%Z)
      by (intros Heq; apply Hnozero, in_or_app; right; left; now symmetry).
    specialize (Hleast Hnozero').
    apply List.Forall_app. split.
    + destruct Hcases as [Hnil | Hcons]; [rewrite Hnil; constructor |].
      destruct (Hsome Hcons) as [_ Hin].
      assert (Hnonzero : Objects.minLod info <> 0%Z)
        by (intros Hzero; rewrite Hzero in Hin; contradiction).
      eapply List.Forall_impl; [| exact Hleast]. cbn beta. intros l Hl.
      destruct (Z.eqb_spec (Objects.minLod info) 0),
        (Z.ltb_spec level (Objects.minLod info)); cbn [orb]; lia.
    + constructor; [| constructor].
      destruct (Z.eqb_spec (Objects.minLod info) 0),
        (Z.ltb_spec level (Objects.minLod info)); cbn [orb]; lia.
Qed.

Lemma noteLod_source (classInfo : Class.t) (name type : string)
  (role : option string) (info : Objects.LodInfo) :
  (forall entry,
     Objects.la_name entry = name -> Objects.la_type entry = type ->
     Objects.la_role entry = role ->
     Objects.hasLodName name = true ->
     Objects.la_level entry = Objects.extractLodLevel name ->
     lodSource classInfo entry) ->
  Forall (lodSource classInfo) (Objects.lodAttributes info) ->
  Forall (lodSource classInfo)
    (Objects.lodAttributes (Objects.noteLod name type role info)).
Proof.
  intros Hentry Hinfo. unfold Objects.noteLod.
  destruct (Objects.hasLodName name) eqn:Hname; [| exact Hinfo].
  destruct (_ <? _)%Z; [| exact Hinfo].
  cbn [Objects.lodAttributes]. apply List.Forall_app.
  split; [exact Hinfo |]. constructor; [| constructor].
  now apply Hentry.
Qed.

Lemma extractLodInfo_lodSummary (classInfo : Class.t) :
  lodSummary (Objects.extractLodInfo classInfo).
Proof.
  unfold Objects.extractLodInfo.
  apply (fold_left_preserves lodSummary).
  - intros info association. apply noteLod_summary.
  - apply (fold_left_preserves lodSummary).
    + intros info attribute. apply noteLod_summary.
    + unfold lodSummary. cbn.
      split; [constructor |]. split; [constructor |]. split; [lia |].
      split; [auto |]. split; [intros Hne; now destruct Hne | constructor].
Qed.

Lemma extractLodInfo_sources (classInfo : Class.t) :
  Forall (lodSource classInfo)
    (Objects.lodAttributes (Objects.extractLodInfo classInfo)).
Proof.
  unfold Objects.extractLodInfo.
  apply (fold_left_preserves_in
           (fun info => Forall (lodSource classInfo)
                          (Objects.lodAttributes info))).
  - intros info association Hin. apply noteLod_source.
    intros entry Hname Htype Hrole Hlod Hlevel. unfold lodSource.
    rewrite Hname. split; [exact Hlod |]. split; [exact Hlevel |].
    right. exists association. auto.
  - apply (fold_left_preserves_in
             (fun info => Forall (lodSource classInfo)
                            (Objects.lodAttributes info))).
    + intros info attribute Hin. apply noteLod_source.
      intros entry Hname Htype Hrole Hlod Hlevel. unfold lodSource.
      rewrite Hname. split; [exact Hlod |]. split; [exact Hlevel |].
      left. exists attribute. auto.
    + constructor.
Qed.

(** X9.  The level-of-detail record that [extractLodInfo] builds for a
    class: every listed level is a digit 0..9 read off the name of an
    attribute or association of the class whose name matches the LOD
    pattern; [maxLod] is the greatest listed level; [minLod] is a listed
    level no greater than [maxLod], and the least one when no listed level
    is 0; with nothing listed both are 0. *)
Theorem extractLodInfo_summary (classInfo : Class.t) :
  lodSummary (Objects.extractLodInfo classInfo) /\
  Forall (lodSource classInfo)
    (Objects.lodAttributes (Objects.extractLodInfo classInfo)).
Proof.
  split.
  - apply extractLodInfo_lodSummary.
  - apply extractLodInfo_sources.
Qed.

End ObjectLevels.

(** ** Object extractor: the entries and their children *)

Section ObjectEntries.

Lemma fromModule_origin (module : Module_.t) (classes : list Class.t)
  (acc : JsMap.t Objects.CityObject) (k : string) (o : Objects.CityObject) :
  In (k, o)
     (fold_left
        (fun objects classInfo =>
           if Objects.isCityObjectClass classInfo
           then JsMap.set objects (Class.name classInfo)
                  (Objects.cityObjectOfClass module classInfo)
           else objects) classes acc) ->
  In (k, o) acc \/
  exists classInfo, In classInfo classes /\
                    Objects.isCityObjectClass classInfo = true /\
                    k = Class.name classInfo /\
                    o = Objects.cityObjectOfClass module classInfo.
Proof.
  revert acc. induction classes as [| c classes IH]; intros acc;
    cbn [fold_left].
  - tauto.
  - intros Hin. destruct (IH _ Hin) as [Hacc | [c' [Hc' Hrest]]].
    + destruct (Objects.isCityObjectClass c) eqn:Hcity; [| now left].
      destruct (JsMap_entries_set _ _ _ _ _ Hacc) as [[-> ->] | Hold];
        [| now left].
      right. exists c. split; [now left | auto].
    + right. exists c'. split; [now right | exact Hrest].
Qed.

Lemma collect_origin (modules : list Module_.t)
  (acc : JsMap.t Objects.CityObject) (k : string) (o : Objects.CityObject) :
  In (k, o) (fold_left collectStep modules acc) ->
  In (k, o) acc \/
  exists module classInfo,
    In module modules /\
    In (Module_.name module) Objects.cityObjectModules /\
    In classInfo (Module_.classes module) /\
    Objects.isCityObjectClass classInfo = true /\
    k = Class.name classInfo /\
    o = Objects.cityObjectOfClass module classInfo.
Proof.
  revert acc. induction modules as [| m modules IH]; intros acc;
    cbn [fold_left].
  - tauto.
  - intros Hin. destruct (IH _ Hin) as [Hacc | [m' [c [Hm' Hrest]]]].
    + unfold collectStep in Hacc.
      destruct (Js.arr_includes Objects.cityObjectModules (Module_.name m))
        eqn:Hlisted; [| now left].
      apply JsMap_entries_setAll in Hacc. destruct Hacc as [Hold | Hnew];
        [now left |].
      apply fromModule_origin in Hnew.
      destruct Hnew as [[] | [c [Hc [Hcity [Hk Ho]]]]].
      right. exists m, c. apply arr_includes_In in Hlisted.
      split; [now left | auto].
    + right. exists m', c. split; [now right | exact Hrest].
Qed.

Lemma link_fields (k : string) (entries : JsMap.t Objects.CityObject)
  (module : Module_.t) (classInfo : Class.t) (o : Objects.CityObject) :
  builtFrom module classInfo o ->
  builtFrom module classInfo (fold_left (linkStep k) entries o).
Proof.
  revert o. induction entries as [| [ck c] entries IH]; intros o Ho;
    cbn [fold_left]; [exact Ho |].
  apply IH. unfold linkStep.
  destruct (Js.arr_includes (Objects.superClasses c) k); [| exact Ho].
  exact Ho.
Qed.

(** X10.  Every entry of the mapping returned by [extractAllCityObjects]
    is the object of a class of the model: the class lies in a module whose
    name is listed in [cityObjectModules], passes [isCityObjectClass] and
    gives the key its name, and the entry has the fields built for that
    class and module (its children apart). *)
Theorem extractAllCityObjects_entries (this : Objects.ObjectExtractor)
  (objects : JsMap.t Objects.CityObject) (k : string) (o : Objects.CityObject) :
  Objects.extractAllCityObjects this = inr objects ->
  In (k, o) objects ->
  exists model module classInfo,
    Objects.conceptualModel this = Some model /\
    In module (ConceptualModel.modules model) /\
    In (Module_.name module) Objects.cityObjectModules /\
    In classInfo (Module_.classes module) /\
    Objects.isCityObjectClass classInfo = true /\
    k = Class.name classInfo /\
    builtFrom module classInfo o.
Proof.
  unfold Objects.extractAllCityObjects.
  destruct (Objects.conceptualModel this) as [model |]; [| discriminate].
  intros Heq Hin. inversion Heq; subst objects; clear Heq.
  apply buildObjectHierarchy_entries in Hin;
    [| apply collectCityObjects_NoDup].
  destruct Hin as [o0 [Hin0 ->]].
  apply (collect_origin (ConceptualModel.modules model) []) in Hin0.
  destruct Hin0 as [[] | [module [classInfo [Hm [Hl [Hc [Hcity [Hk Ho]]]]]]]].
  exists model, module, classInfo.
  repeat (split; [assumption || reflexivity |]).
  apply link_fields. subst o0. repeat split.
Qed.

Lemma JsMap_map_ext {V : Type} (f : string -> V -> V) (m m' : JsMap.t V) :
  List.NoDup (JsMap.keys m) ->
  JsMap.keys m' = JsMap.keys m ->
  (forall k, In k (JsMap.keys m) ->
             JsMap.get m' k = option_map (f k) (JsMap.get m k)) ->
  m' = map (fun entry => (fst entry, f (fst entry) (snd entry))) m.
Proof.
  revert m'. induction m as [| [k0 v0] m IH]; intros m' Hnd Hkeys Hget.
  - destruct m'; [reflexivity | discriminate].
  - destruct m' as [| [k0' v0'] m']; [discriminate |].
    cbn [JsMap.keys map fst] in Hkeys. inversion Hkeys as [[Hk0 Hrest]].
    subst k0'. inversion Hnd as [| x l Hnotin Hnd']; subst.
    cbn [map fst snd]. f_equal.
    + specialize (Hget k0 (in_eq _ _)). cbn [JsMap.get] in Hget.
      rewrite String.eqb_refl in Hget. cbn in Hget. now inversion Hget.
    + apply IH; [assumption | assumption |].
      intros k Hk. specialize (Hget k (in_cons _ _ _ Hk)).
      cbn [JsMap.get] in Hget.
      destruct (String.eqb_spec k0 k) as [-> | Hne]; [contradiction |].
      exact Hget.
Qed.

(** Both loops of [buildObjectHierarchy] leave the entries in their places
    and relink each one by a pass over all entries. *)
Lemma buildObjectHierarchy_map (objects : JsMap.t Objects.CityObject) :
  List.NoDup (JsMap.keys objects) ->
  Objects.buildObjectHierarchy objects
  = map (fun entry => (fst entry, fold_left (linkStep (fst entry)) objects (snd entry)))
      objects.
Proof.
  intros Hnd.
  apply (JsMap_map_ext (fun k o => fold_left (linkStep k) objects o));
    [assumption | now apply buildObjectHierarchy_keys |].
  intros k Hk. unfold Objects.buildObjectHierarchy.
  destruct (outer_loop_get (JsMap.keys objects) (supOf objects)
              (JsMap.keys objects) Hnd objects (fun x => eq_refl))
    as [_ [Hget _]].
  rewrite (Hget k Hk).
  destruct (JsMap.get objects k) as [o0 |]; [| reflexivity].
  cbn [option_map]. f_equal.
  apply linkBy_linkStep. intros ck c Hc. unfold supOf.
  now rewrite (JsMap_In_get _ _ _ Hnd Hc).
Qed.

Lemma link_children (k : string) (entries : JsMap.t Objects.CityObject)
  (o : Objects.CityObject) :
  Objects.children (fold_left (linkStep k) entries o)
  = match childrenOf entries k with
    | [] => Objects.children o
    | found => Some (default [] (Objects.children o) ++ found)
    end.
Proof.
  revert o. induction entries as [| [ck c] entries IH]; intros o;
    cbn [fold_left]; [reflexivity |].
  rewrite IH. unfold childrenOf, linkStep. cbn [List.filter snd].
  destruct (Js.arr_includes (Objects.superClasses c) k); [| reflexivity].
  cbn [map fst Objects.pushChild Objects.children default].
  destruct (map fst (List.filter _ entries)) as [| ck' found].
  - reflexivity.
  - unfold id. now rewrite <- app_assoc.
Qed.

Lemma childrenOf_relinked (g : string -> Objects.CityObject -> Objects.CityObject)
  (entries : JsMap.t Objects.CityObject) (k : string) :
  (forall ck c, Objects.superClasses (g ck c) = Objects.superClasses c) ->
  childrenOf (map (fun entry => (fst entry, g (fst entry) (snd entry))) entries) k
  = childrenOf entries k.
Proof.
  intros Hg. unfold childrenOf.
  induction entries as [| [ck c] entries IH]; cbn [map List.filter fst snd];
    [reflexivity |].
  rewrite Hg. destruct (Js.arr_includes (Objects.superClasses c) k);
    cbn [map fst]; now rewrite IH.
Qed.

Lemma childrenOf_NoDup (entries : JsMap.t Objects.CityObject) (k : string) :
  List.NoDup (JsMap.keys entries) -> List.NoDup (childrenOf entries k).
Proof.
  unfold childrenOf, JsMap.keys.
  induction entries as [| [ck c] entries IH]; cbn [map List.filter fst snd];
    intros Hnd; [constructor |].
  inversion Hnd as [| x l Hnotin Hnd']; subst.
  destruct (Js.arr_includes (Objects.superClasses c) k); [| now apply IH].
  cbn [map fst]. constructor; [| now apply IH].
  intros Hin. apply Hnotin. apply in_map_iff in Hin.
  destruct Hin as [entry [Hfst Hin]]. apply filter_In in Hin.
  apply in_map_iff. exists entry. tauto.
Qed.

(** X11.  In the mapping returned by [extractAllCityObjects] the children
    of an entry are exactly the keys of the entries that list its key among
    their superclasses, each once and in the order of the mapping; an entry
    that no entry names as a superclass has no children array at all (never
    an empty one). *)
Theorem children_are_the_subclasses (this : Objects.ObjectExtractor)
  (objects : JsMap.t Objects.CityObject) (k : string) (o : Objects.CityObject) :
  Objects.extractAllCityObjects this = inr objects ->
  In (k, o) objects ->
  Objects.children o
  = match childrenOf objects k with
    | [] => None
    | found => Some found
    end /\
  List.NoDup (childrenOf objects k) /\
  forall child,
    In child (childrenOf objects k) <->
    exists c, In (child, c) objects /\ In k (Objects.superClasses c).
Proof.
  unfold Objects.extractAllCityObjects.
  destruct (Objects.conceptualModel this) as [model |]; [| discriminate].
  intros Heq Hin. inversion Heq; subst objects; clear Heq.
  pose proof (collectCityObjects_NoDup model) as Hnd.
  assert (Hchildren :
            childrenOf (Objects.buildObjectHierarchy
                          (Objects.collectCityObjects model)) k
            = childrenOf (Objects.collectCityObjects model) k).
  { rewrite (buildObjectHierarchy_map _ Hnd).
    apply (childrenOf_relinked
             (fun ck c =>
                fold_left (linkStep ck) (Objects.collectCityObjects model) c)).
    intros ck c. now destruct (link_keeps ck (Objects.collectCityObjects model) c)
      as [_ [Hs _]]. }
  split; [| split].
  - rewrite Hchildren.
    apply buildObjectHierarchy_entries in Hin; [| exact Hnd].
    destruct Hin as [o0 [Hin0 ->]]. rewrite link_children.
    apply (collect_origin (ConceptualModel.modules model) []) in Hin0.
    destruct Hin0 as [[] | [module [classInfo [_ [_ [_ [_ [_ ->]]]]]]]].
    reflexivity.
  - rewrite Hchildren. now apply childrenOf_NoDup.
  - intros child. unfold childrenOf. rewrite in_map_iff. split.
    + intros [[ck c] [Hfst Hfound]]. cbn [fst] in Hfst. subst ck.
      apply filter_In in Hfound. destruct Hfound as [Hfound Hsuper].
      exists c. split; [exact Hfound | now apply arr_includes_In].
    + intros [c [Hfound Hsuper]]. exists (child, c). split; [reflexivity |].
      apply filter_In. split; [exact Hfound | now apply arr_includes_In].
Qed.

End ObjectEntries.

(** ** Object extractor: classes by module, geometry representations *)

Section ObjectViews.

Lemma classify_entries (modules : list Module_.t)
  (acc : JsMap.t (list string)) (m : string) (names : list string) :
  In (m, names) (fold_left classifyStep modules acc) ->
  In (m, names) acc \/
  exists module,
    In module modules /\
    In (Module_.name module) Objects.cityObjectModules /\
    m = Module_.name module /\
    names = map Class.name
              (List.filter Objects.isCityObjectClass (Module_.classes module)).
Proof.
  revert acc. induction modules as [| module modules IH]; intros acc;
    cbn [fold_left]; [tauto |].
  intros Hin. destruct (IH _ Hin) as [Hacc | [module' [Hm' Hrest]]].
  - unfold classifyStep in Hacc.
    destruct (Js.arr_includes Objects.cityObjectModules (Module_.name module))
      eqn:Hlisted; [| now left].
    destruct (JsMap_entries_set _ _ _ _ _ Hacc) as [[-> ->] | Hold];
      [| now left].
    right. exists module. apply arr_includes_In in Hlisted.
    split; [now left | auto].
  - right. exists module'. split; [now right | exact Hrest].
Qed.

Lemma classify_get_other (modules : list Module_.t)
  (acc : JsMap.t (list string)) (m : string) :
  ~ In m (map Module_.name modules) ->
  JsMap.get (fold_left classifyStep modules acc) m = JsMap.get acc m.
Proof.
  revert acc. induction modules as [| module modules IH]; intros acc Hnotin;
    cbn [fold_left]; [reflexivity |].
  cbn [map] in Hnotin.
  rewrite IH by (intros Hin; apply Hnotin; now right).
  unfold classifyStep. destruct (Js.arr_includes _ _); [| reflexivity].
  rewrite JsMap_get_set.
  destruct (String.eqb_spec (Module_.name module) m) as [Heq | Hne];
    [| reflexivity].
  exfalso. apply Hnotin. now left.
Qed.

Lemma classify_get (modules : list Module_.t) (acc : JsMap.t (list string))
  (module : Module_.t) :
  List.NoDup (map Module_.name modules) ->
  In module modules ->
  In (Module_.name module) Objects.cityObjectModules ->
  JsMap.get (fold_left classifyStep modules acc) (Module_.name module)
  = Some (map Class.name
            (List.filter Objects.isCityObjectClass (Module_.classes module))).
Proof.
  revert acc. induction modules as [| m modules IH]; intros acc Hnd Hin Hlisted;
    [destruct Hin |].
  cbn [map] in Hnd. inversion Hnd as [| x l Hnotin Hnd']; subst.
  cbn [fold_left]. destruct Hin as [-> | Hin]; [| now apply IH].
  rewrite classify_get_other by exact Hnotin.
  unfold classifyStep. apply arr_includes_In in Hlisted. rewrite Hlisted.
  now rewrite JsMap_get_set, String.eqb_refl.
Qed.

(** X12.  [classifyObjectsByModule] against [extractAllCityObjects] on the
    same model: every key of the classification is a listed module name and
    every class name filed under it is a key of the object mapping; when no
    two modules of the model share a name, every key of the object mapping
    is filed under some module of the classification. *)
Theorem classifyObjectsByModule_covers (model : ConceptualModel.t)
  (byModule : JsMap.t (list string)) (objects : JsMap.t Objects.CityObject) :
  Objects.classifyObjectsByModule {| Objects.conceptualModel := Some model |}
    = inr byModule ->
  Objects.extractAllCityObjects {| Objects.conceptualModel := Some model |}
    = inr objects ->
  (forall m names, In (m, names) byModule ->
     In m Objects.cityObjectModules /\
     forall n, In n names -> In n (JsMap.keys objects)) /\
  (List.NoDup (map Module_.name (ConceptualModel.modules model)) ->
   forall n, In n (JsMap.keys objects) ->
     exists m names, In (m, names) byModule /\ In n names).
Proof.
  unfold Objects.classifyObjectsByModule, Objects.extractAllCityObjects.
  cbn [Objects.conceptualModel]. intros Hclassify Hextract.
  inversion Hclassify as [Hby]. inversion Hextract as [Hobjects].
  clear Hclassify Hextract.
  change (fold_left _ (ConceptualModel.modules model) [])
    with (fold_left classifyStep (ConceptualModel.modules model) []).
  assert (Hkeys : forall n,
            In n (JsMap.keys (Objects.buildObjectHierarchy
                                (Objects.collectCityObjects model))) <->
            exists module classInfo,
              In module (ConceptualModel.modules model) /\
              In (Module_.name module) Objects.cityObjectModules /\
              In classInfo (Module_.classes module) /\
              Objects.isCityObjectClass classInfo = true /\
              Class.name classInfo = n).
  { intros n.
    rewrite buildObjectHierarchy_keys by apply collectCityObjects_NoDup.
    change (Objects.collectCityObjects model)
      with (fold_left collectStep (ConceptualModel.modules model) []).
    rewrite collect_keys. split; [intros [[] | H]; exact H | now right]. }
  split.
  - intros m names Hin. apply classify_entries in Hin.
    destruct Hin as [[] | [module [Hmodule [Hlisted [-> ->]]]]].
    split; [exact Hlisted |].
    intros n Hn. apply Hkeys. apply in_map_iff in Hn.
    destruct Hn as [classInfo [Hname Hfiltered]].
    apply filter_In in Hfiltered. destruct Hfiltered as [Hclass Hcity].
    exists module, classInfo. auto.
  - intros Hnd n Hn. apply Hkeys in Hn.
    destruct Hn as [module [classInfo [Hmodule [Hlisted [Hclass [Hcity Hname]]]]]].
    exists (Module_.name module),
      (map Class.name
         (List.filter Objects.isCityObjectClass (Module_.classes module))).
    split.
    + apply JsMap_get_In. now apply classify_get.
    + apply in_map_iff. exists classInfo. split; [exact Hname |].
      apply filter_In. auto.
Qed.

Lemma startsWith_includes_suffix (a b s : string) :
  Js.startsWith s (a ++ b) = true -> Js.includes s b = true.
Proof.
  revert s. induction a as [| c a IH]; intros s.
  - change ("" +:+ b) with b.
    intros Hstarts. destruct s; cbn [Js.includes]; now rewrite Hstarts.
  - change (String c a +:+ b) with (String c (a +:+ b)).
    cbn [Js.startsWith]. destruct s as [| c' s]; [discriminate |].
    intros Hstarts. apply andb_true_iff in Hstarts. destruct Hstarts as [_ Hrest].
    cbn [Js.includes]. rewrite (IH _ Hrest). apply orb_true_r.
Qed.

Lemma includes_suffix (a b s : string) :
  Js.includes s (a ++ b) = true -> Js.includes s b = true.
Proof.
  induction s as [| c s IH]; cbn [Js.includes].
  - rewrite orb_false_r. apply startsWith_includes_suffix.
  - intros Hincl. apply orb_true_iff in Hincl. destruct Hincl as [Hstarts | Hrest].
    + exact (startsWith_includes_suffix a b (String c s) Hstarts).
    + change (Js.includes (String c s) b)
        with (Js.startsWith (String c s) b || Js.includes s b).
      rewrite (IH Hrest). apply orb_true_r.
Qed.

(** A geometry type whose dimension is unknown is named after [Geometry]:
    the other nine patterns each contain a word that fixes a dimension. *)
Lemma unknown_dimension_Geometry (type : string) :
  Objects.isGeometryType type = true ->
  Objects.inferGeometryDimension type = (-1)%Z ->
  Js.includes type "Geometry" = true.
Proof.
  unfold Objects.isGeometryType, Js.some, Objects.geometryClassPatterns,
    Objects.inferGeometryDimension.
  cbn [existsb].
  destruct (Js.includes type "Geometry"); [reflexivity |].
  destruct (Js.includes type "Solid"); [discriminate |].
  destruct (Js.includes type "Surface") eqn:Hsurface; [discriminate |].
  destruct (Js.includes type "Polygon"); [discriminate |].
  destruct (Js.includes type "Curve") eqn:Hcurve; [discriminate |].
  destruct (Js.includes type "Line"); [discriminate |].
  destruct (Js.includes type "Point") eqn:Hpoint; [discriminate |].
  cbn [orb].
  destruct (Js.includes type "MultiSurface") eqn:H1;
    [apply (includes_suffix "Multi" "Surface") in H1; congruence |].
  destruct (Js.includes type "CompositeSurface") eqn:H2;
    [apply (includes_suffix "Composite" "Surface") in H2; congruence |].
  destruct (Js.includes type "MultiCurve") eqn:H3;
    [apply (includes_suffix "Multi" "Curve") in H3; congruence |].
  destruct (Js.includes type "CompositeCurve") eqn:H4;
    [apply (includes_suffix "Composite" "Curve") in H4; congruence |].
  destruct (Js.includes type "MultiPoint") eqn:H5;
    [apply (includes_suffix "Multi" "Point") in H5; congruence |].
  discriminate.
Qed.

Lemma representationOf_shape (name type cardinality : string) :
  Objects.isGeometryType type = true ->
  let rep := Objects.representationOf name type cardinality in
  (0 <= Objects.gr_lodLevel rep <= 9)%Z /\
  (-1 <= Objects.gr_dimension rep <= 3)%Z /\
  (Objects.gr_dimension rep = (-1)%Z ->
   Js.includes (Objects.gr_type rep) "Geometry" = true).
Proof.
  intros Hgeometry. cbn zeta. unfold Objects.representationOf.
  cbn [Objects.gr_lodLevel Objects.gr_dimension Objects.gr_type].
  split; [| split].
  - destruct (extractLodLevel_range name) as [-> | Hrange]; [cbn; lia |].
    destruct (Z.ltb_spec (-1) (Objects.extractLodLevel name)); lia.
  - unfold Objects.inferGeometryDimension.
    repeat match goal with
           | |- context [if ?b then _ else _] => destruct b
           end; lia.
  - now apply unknown_dimension_Geometry.
Qed.

(** X13.  With a model set, [extractGeometryRepresentations] returns a list
    (it throws only without a model): the empty list for a name that no
    class of the model bears, and otherwise one representation for each
    geometry property of the first class of that name, with the same types
    and cardinalities in the same order.  Each representation has a level
    0..9 and a dimension between -1 and 3, and a dimension of -1 only for a
    type named after [Geometry]. *)
Theorem extractGeometryRepresentations_shape (model : ConceptualModel.t)
  (cityObjectName : string) :
  exists representations,
    Objects.extractGeometryRepresentations
      {| Objects.conceptualModel := Some model |} cityObjectName
    = inr representations /\
    match Objects.findTargetClass model cityObjectName with
    | None => representations = []
    | Some targetClass =>
        Class.name targetClass = cityObjectName /\
        map Objects.gr_type representations
        = map Objects.gp_type (Objects.extractGeometryProperties targetClass) /\
        map Objects.gr_multiplicity representations
        = map Objects.gp_cardinality
            (Objects.extractGeometryProperties targetClass)
    end /\
    forall rep, In rep representations ->
      (0 <= Objects.gr_lodLevel rep <= 9)%Z /\
      (-1 <= Objects.gr_dimension rep <= 3)%Z /\
      (Objects.gr_dimension rep = (-1)%Z ->
       Js.includes (Objects.gr_type rep) "Geometry" = true).
Proof.
  unfold Objects.extractGeometryRepresentations.
  cbn [Objects.conceptualModel].
  destruct (Objects.findTargetClass model cityObjectName) as [targetClass |]
    eqn:Hfind.
  2: { exists []. split; [reflexivity |]. split; [reflexivity | intros rep []]. }
  eexists. split; [reflexivity |]. split; [split; [| split] |].
  - unfold Objects.findTargetClass in Hfind. apply find_some in Hfind.
    now apply String.eqb_eq.
  - unfold Objects.extractGeometryProperties. rewrite !map_app. f_equal.
    + induction (Class.attributes targetClass) as [| a l IH];
        cbn [flat_map]; [reflexivity |].
      rewrite !map_app, IH.
      destruct (Objects.isGeometryType (Attribute.type a)); reflexivity.
    + induction (default [] (Class.associations targetClass)) as [| a l IH];
        cbn [flat_map]; [reflexivity |].
      rewrite !map_app, IH.
      destruct (Objects.isGeometryType (Association.target a)); reflexivity.
  - unfold Objects.extractGeometryProperties. rewrite !map_app. f_equal.
    + induction (Class.attributes targetClass) as [| a l IH];
        cbn [flat_map]; [reflexivity |].
      rewrite !map_app, IH.
      destruct (Objects.isGeometryType (Attribute.type a)); reflexivity.
    + induction (default [] (Class.associations targetClass)) as [| a l IH];
        cbn [flat_map]; [reflexivity |].
      rewrite !map_app, IH.
      destruct (Objects.isGeometryType (Association.target a)); reflexivity.
  - intros rep Hin. apply in_app_or in Hin.
    destruct Hin as [Hin | Hin]; apply in_flat_map in Hin;
      destruct Hin as [x [_ Hin]].
    + destruct (Objects.isGeometryType (Attribute.type x)) eqn:Hgeometry;
        [| destruct Hin].
      destruct Hin as [<- | []]. now apply representationOf_shape.
    + destruct (Objects.isGeometryType (Association.target x)) eqn:Hgeometry;
        [| destruct Hin].
      destruct Hin as [<- | []]. now apply representationOf_shape.
Qed.

End ObjectViews.

(** ** Attribute extractor: attributes by category *)

Section AttributeCategories.

Lemma some_find {A : Type} (f : A -> bool) (l : list A) :
  Js.some f l = true -> exists x, find f l = Some x /\ f x = true.
Proof.
  unfold Js.some. induction l as [| a l IH]; cbn [existsb find];
    [discriminate |].
  destruct (f a) eqn:Hfa; [eauto |]. exact IH.
Qed.

Lemma find_none_some {A : Type} (f : A -> bool) (l : list A) :
  find f l = None <-> Js.some f l = false.
Proof.
  unfold Js.some. induction l as [| a l IH]; cbn [existsb find]; [tauto |].
  destruct (f a); cbn [orb]; [split; discriminate | exact IH].
Qed.

Lemma fileConstrained_categories (classInfo : Class.t)
  (result : Attributes.ClassAttributes) (a : Attribute.t) :
  let result' := Attributes.fileConstrained classInfo result a in
  Attributes.ca_className result' = Attributes.ca_className result /\
  Attributes.basicAttributes result' = Attributes.basicAttributes result /\
  Attributes.geometryAttributes result' = Attributes.geometryAttributes result /\
  Attributes.metadataAttributes result' = Attributes.metadataAttributes result /\
  Attributes.codelistAttributes result' = Attributes.codelistAttributes result /\
  Attributes.enumerationAttributes result'
    = Attributes.enumerationAttributes result.
Proof.
  cbn zeta. unfold Attributes.fileConstrained.
  destruct (Attributes.hasConstraints classInfo (Attribute.name a));
    repeat split.
Qed.

Lemma fileAttribute_count (this : Attributes.AttributeExtractor)
  (classInfo : Class.t) (result : Attributes.ClassAttributes) (a : Attribute.t) :
  filedCount (Attributes.fileAttribute this classInfo result a)
  = S (filedCount result).
Proof.
  unfold Attributes.fileAttribute, filedCount.
  destruct (fileConstrained_categories classInfo
              (Attributes.fileByCategory this result a) a)
    as [_ [-> [-> [-> [-> ->]]]]].
  unfold Attributes.fileByCategory.
  destruct (Attributes.isGeometryAttribute _);
    [| destruct (Attributes.isMetadataAttribute _);
       [| destruct (Attributes.isCodelistAttribute _ _);
          [| destruct (Attributes.isEnumerationAttribute _ _)]]];
    cbn [Attributes.basicAttributes Attributes.geometryAttributes
         Attributes.metadataAttributes Attributes.codelistAttributes
         Attributes.enumerationAttributes];
    rewrite ?length_app; cbn [List.length]; lia.
Qed.

Lemma isCodelistAttribute_info (this : Attributes.AttributeExtractor)
  (type : string) :
  Attributes.isCodelistAttribute this type = true ->
  exists codelist,
    Attributes.getCodelistInfo this type = Some codelist /\
    Js.includes type (Codelist.name codelist) = true.
Proof.
  unfold Attributes.isCodelistAttribute, Attributes.getCodelistInfo.
  destruct (Attributes.conceptualModel this) as [model |]; [| discriminate].
  apply some_find.
Qed.

Lemma isEnumerationAttribute_info (this : Attributes.AttributeExtractor)
  (type : string) :
  Attributes.isEnumerationAttribute this type = true ->
  exists enumeration,
    Attributes.getEnumerationInfo this type = Some enumeration /\
    Js.includes type (Enumeration.name enumeration) = true.
Proof.
  unfold Attributes.isEnumerationAttribute, Attributes.getEnumerationInfo.
  destruct (Attributes.conceptualModel this) as [model |]; [| discriminate].
  apply some_find.
Qed.

Lemma fileAttribute_right (this : Attributes.AttributeExtractor)
  (classInfo : Class.t) (result : Attributes.ClassAttributes) (a : Attribute.t) :
  filedRight this result ->
  filedRight this (Attributes.fileAttribute this classInfo result a).
Proof.
  intros [Hgeometry [Hmetadata [Hcodelist [Henumeration Hbasic]]]].
  unfold Attributes.fileAttribute, filedRight.
  destruct (fileConstrained_categories classInfo
              (Attributes.fileByCategory this result a) a)
    as [_ [-> [-> [-> [-> ->]]]]].
  unfold Attributes.fileByCategory.
  destruct (Attributes.isGeometryAttribute (Attribute.type a)) eqn:Hg;
    [| destruct (Attributes.isMetadataAttribute (Attribute.name a)) eqn:Hm;
       [| destruct (Attributes.isCodelistAttribute this (Attribute.type a)) eqn:Hc;
          [| destruct (Attributes.isEnumerationAttribute this (Attribute.type a))
               eqn:He]]];
    cbn [Attributes.basicAttributes Attributes.geometryAttributes
         Attributes.metadataAttributes Attributes.codelistAttributes
         Attributes.enumerationAttributes];
    repeat split; try assumption;
    apply List.Forall_app; (split; [assumption |]);
    (constructor; [| constructor]); cbn; auto.
  - repeat split; try assumption. now apply isCodelistAttribute_info.
  - repeat split; try assumption. now apply isEnumerationAttribute_info.
Qed.

Lemma fileAttribute_constrained (this : Attributes.AttributeExtractor)
  (classInfo : Class.t) (result : Attributes.ClassAttributes) (a : Attribute.t) :
  In a (Class.attributes classInfo) ->
  Forall (fun entry =>
            Attributes.co_constraints entry <> [] /\
            exists attribute,
              In attribute (Class.attributes classInfo) /\
              Attributes.co_info entry = Attributes.attributeInfoOf attribute /\
              Attributes.co_constraints entry
              = Attributes.getAttributeConstraints classInfo
                  (Attribute.name attribute))
    (Attributes.constrainedAttributes result) ->
  Forall (fun entry =>
            Attributes.co_constraints entry <> [] /\
            exists attribute,
              In attribute (Class.attributes classInfo) /\
              Attributes.co_info entry = Attributes.attributeInfoOf attribute /\
              Attributes.co_constraints entry
              = Attributes.getAttributeConstraints classInfo
                  (Attribute.name attribute))
    (Attributes.constrainedAttributes
       (Attributes.fileAttribute this classInfo result a)).
Proof.
  intros Hin Hresult. unfold Attributes.fileAttribute, Attributes.fileConstrained.
  assert (Hkept : Attributes.constrainedAttributes
                    (Attributes.fileByCategory this result a)
                  = Attributes.constrainedAttributes result).
  { unfold Attributes.fileByCategory.
    destruct (Attributes.isGeometryAttribute _);
      [| destruct (Attributes.isMetadataAttribute _);
         [| destruct (Attributes.isCodelistAttribute _ _);
            [| destruct (Attributes.isEnumerationAttribute _ _)]]];
      reflexivity. }
  destruct (Attributes.hasConstraints classInfo (Attribute.name a)) eqn:Hhas;
    [| now rewrite Hkept].
  cbn [Attributes.constrainedAttributes]. rewrite Hkept.
  apply List.Forall_app. split; [exact Hresult |].
  constructor; [| constructor]. cbn [Attributes.co_constraints Attributes.co_info].
  split; [| exists a; auto].
  unfold Attributes.hasConstraints in Hhas.
  unfold Attributes.getAttributeConstraints.
  destruct (Class.constraints classInfo) as [constraints |]; [| discriminate].
  apply some_find in Hhas. destruct Hhas as [c [Hfind Hc]].
  apply find_some in Hfind. destruct Hfind as [Hinc _].
  intros Hnil. apply map_eq_nil in Hnil.
  assert (Hfiltered : In c (List.filter
                              (fun constraint =>
                                 Js.includes (Constraint.description constraint)
                                   (Attribute.name a)) constraints))
    by (apply filter_In; auto).
  rewrite Hnil in Hfiltered. destruct Hfiltered.
Qed.

Lemma extractClassAttributes_className (this : Attributes.AttributeExtractor)
  (classInfo : Class.t) :
  Attributes.ca_className (Attributes.extractClassAttributes this classInfo)
  = Class.name classInfo.
Proof.
  unfold Attributes.extractClassAttributes.
  apply (fold_left_preserves
           (fun result => Attributes.ca_className result = Class.name classInfo));
    [| reflexivity].
  intros result a Hname. unfold Attributes.fileAttribute.
  destruct (fileConstrained_categories classInfo
              (Attributes.fileByCategory this result a) a)
    as [-> _].
  unfold Attributes.fileByCategory.
  destruct (Attributes.isGeometryAttribute _);
    [| destruct (Attributes.isMetadataAttribute _);
       [| destruct (Attributes.isCodelistAttribute _ _);
          [| destruct (Attributes.isEnumerationAttribute _ _)]]];
    exact Hname.
Qed.

(** X14.  [extractClassAttributes] files every attribute of the class under
    exactly one of the five categories, so their sizes add up to the number
    of attributes, by the first test that holds of geometry type, metadata
    name, code list type and enumeration type, and as basic when none does.
    A code list (enumeration) attribute always carries a code list
    (enumeration) of the model whose name its type contains, never [null].
    The constrained attributes are attributes of the class, each with a
    non-empty list of constraints. *)
Theorem extractClassAttributes_partition (this : Attributes.AttributeExtractor)
  (classInfo : Class.t) :
  let result := Attributes.extractClassAttributes this classInfo in
  Attributes.ca_className result = Class.name classInfo /\
  filedCount result = List.length (Class.attributes classInfo) /\
  filedRight this result /\
  Forall (fun entry =>
            Attributes.co_constraints entry <> [] /\
            exists attribute,
              In attribute (Class.attributes classInfo) /\
              Attributes.co_info entry = Attributes.attributeInfoOf attribute /\
              Attributes.co_constraints entry
              = Attributes.getAttributeConstraints classInfo
                  (Attribute.name attribute))
    (Attributes.constrainedAttributes result).
Proof.
  cbn zeta. unfold Attributes.extractClassAttributes.
  set (start := {| Attributes.ca_className := Class.name classInfo;
                   Attributes.basicAttributes := [] |}).
  split; [| split; [| split]].
  - apply extractClassAttributes_className.
  - assert (Hcount : forall l result,
              filedCount (fold_left (Attributes.fileAttribute this classInfo) l result)
              = (filedCount result + List.length l)%nat).
    { induction l as [| a l IH]; intros result; cbn [fold_left List.length];
        [lia |].
      rewrite IH, fileAttribute_count. lia. }
    rewrite Hcount. reflexivity.
  - apply (fold_left_preserves (filedRight this)).
    + intros result a. apply fileAttribute_right.
    + unfold filedRight. cbn. repeat split; constructor.
  - apply (fold_left_preserves_in
             (fun result =>
                Forall _ (Attributes.constrainedAttributes result))).
    + intros result a. apply fileAttribute_constrained.
    + constructor.
Qed.

End AttributeCategories.

(** ** Attribute extractor: code lists, enumerations and metadata *)

Section AttributeLookups.

Lemma find_append {A : Type} (f : A -> bool) (l l' : list A) :
  find f (l ++ l')
  = match find f l with
    | Some x => Some x
    | None => find f l'
    end.
Proof.
  induction l as [| a l IH]; cbn [app find]; [reflexivity |].
  now destruct (f a).
Qed.

Lemma codeListValuesIn_find (modules : list Module_.t) (codelistName : string) :
  Attributes.codeListValuesIn modules codelistName
  = match find (fun cl => String.eqb (Codelist.name cl) codelistName)
            (flat_map (fun module => default [] (Module_.codelists module))
               modules) with
    | Some codelist => Codelist.values codelist
    | None => []
    end.
Proof.
  induction modules as [| module modules IH];
    cbn [Attributes.codeListValuesIn flat_map]; [reflexivity |].
  rewrite find_append.
  destruct (Module_.codelists module) as [codelists |]; cbn [default from_option id].
  - destruct (find _ codelists); [reflexivity | exact IH].
  - exact IH.
Qed.

Lemma enumerationValuesIn_find (modules : list Module_.t) (enumName : string) :
  Attributes.enumerationValuesIn modules enumName
  = match find (fun en => String.eqb (Enumeration.name en) enumName)
            (flat_map (fun module => default [] (Module_.enumerations module))
               modules) with
    | Some enumeration => Enumeration.values enumeration
    | None => []
    end.
Proof.
  induction modules as [| module modules IH];
    cbn [Attributes.enumerationValuesIn flat_map]; [reflexivity |].
  rewrite find_append.
  destruct (Module_.enumerations module) as [enumerations |];
    cbn [default from_option id].
  - destruct (find _ enumerations); [reflexivity | exact IH].
  - exact IH.
Qed.

(** X15.  With a model set, [getCodeListValues] and [getEnumerationValues]
    answer from the lists that [extractAllCodelists] and
    [extractAllEnumerations] return: the values of the first entry of that
    name, and the empty list (no error) when no entry bears the name. *)
Theorem values_of_first_named (model : ConceptualModel.t) (name : string) :
  let this := {| Attributes.conceptualModel := Some model |} in
  exists codelists enumerations,
    Attributes.extractAllCodelists this = inr codelists /\
    Attributes.extractAllEnumerations this = inr enumerations /\
    Attributes.getCodeListValues this name
    = inr match find (fun cl => String.eqb (Codelist.name cl) name) codelists with
          | Some codelist => Codelist.values codelist
          | None => []
          end /\
    Attributes.getEnumerationValues this name
    = inr match find (fun en => String.eqb (Enumeration.name en) name)
                  enumerations with
          | Some enumeration => Enumeration.values enumeration
          | None => []
          end.
Proof.
  cbn zeta. eexists. eexists.
  split; [reflexivity |]. split; [reflexivity |].
  unfold Attributes.getCodeListValues, Attributes.getEnumerationValues.
  cbn [Attributes.conceptualModel].
  rewrite codeListValuesIn_find, enumerationValuesIn_find.
  split; reflexivity.
Qed.

(** X16.  The type tests of the attribute extractor agree with its
    look-ups: [isCodelistAttribute] holds of a type exactly when
    [getCodelistInfo] finds a code list, which is then one of
    [extractAllCodelists] whose name the type contains; likewise for
    enumerations.  Without a model both tests are false and both look-ups
    [null]. *)
Theorem type_tests_agree_with_lookups (this : Attributes.AttributeExtractor)
  (type : string) :
  (Attributes.isCodelistAttribute this type = true <->
   exists codelist, Attributes.getCodelistInfo this type = Some codelist) /\
  (forall codelist,
     Attributes.getCodelistInfo this type = Some codelist ->
     Js.includes type (Codelist.name codelist) = true /\
     exists codelists,
       Attributes.extractAllCodelists this = inr codelists /\
       In codelist codelists) /\
  (Attributes.isEnumerationAttribute this type = true <->
   exists enumeration,
     Attributes.getEnumerationInfo this type = Some enumeration) /\
  (forall enumeration,
     Attributes.getEnumerationInfo this type = Some enumeration ->
     Js.includes type (Enumeration.name enumeration) = true /\
     exists enumerations,
       Attributes.extractAllEnumerations this = inr enumerations /\
       In enumeration enumerations).
Proof.
  unfold Attributes.isCodelistAttribute, Attributes.getCodelistInfo,
    Attributes.isEnumerationAttribute, Attributes.getEnumerationInfo,
    Attributes.extractAllCodelists, Attributes.extractAllEnumerations.
  destruct (Attributes.conceptualModel this) as [model |].
  2: { repeat split; try discriminate; intros [x Hx]; discriminate. }
  split; [| split; [| split]].
  - split.
    + intros Hsome. apply some_find in Hsome. destruct Hsome as [x [Hx _]]. eauto.
    + intros [x Hx].
      destruct (Js.some _ (Attributes.codelistsOf model)) eqn:Hsome;
        [reflexivity |].
      apply find_none_some in Hsome. congruence.
  - intros codelist Hfind. apply find_some in Hfind. destruct Hfind as [Hin Hincl].
    split; [exact Hincl | eauto].
  - split.
    + intros Hsome. apply some_find in Hsome. destruct Hsome as [x [Hx _]]. eauto.
    + intros [x Hx].
      destruct (Js.some _ (Attributes.enumerationsOf model)) eqn:Hsome;
        [reflexivity |].
      apply find_none_some in Hsome. congruence.
  - intros enumeration Hfind. apply find_some in Hfind.
    destruct Hfind as [Hin Hincl]. split; [exact Hincl | eauto].
Qed.

Lemma setByName_keys {V : Type} (value : Class.t -> V) (keep : Class.t -> bool)
  (classes : list Class.t) (acc : JsMap.t V) (k : string) :
  In k (JsMap.keys
          (fold_left
             (fun m classInfo =>
                if keep classInfo
                then JsMap.set m (Class.name classInfo) (value classInfo)
                else m) classes acc)) <->
  In k (JsMap.keys acc) \/
  exists classInfo, In classInfo classes /\ keep classInfo = true /\
                    Class.name classInfo = k.
Proof.
  revert acc. induction classes as [| c classes IH]; intros acc;
    cbn [fold_left].
  - split; [tauto | intros [Hk | [c [[] _]]]; assumption].
  - rewrite IH. destruct (keep c) eqn:Hc.
    + rewrite JsMap_keys_set. split.
      * intros [[-> | Hk] | [c' [Hin Hrest]]].
        -- right. exists c. split; [now left | auto].
        -- now left.
        -- right. exists c'. split; [now right | exact Hrest].
      * intros [Hk | [c' [[<- | Hin] [Hkeep Hname]]]].
        -- left. now right.
        -- left. now left.
        -- right. exists c'. auto.
    + split.
      * intros [Hk | [c' [Hin Hrest]]]; [now left |].
        right. exists c'. split; [now right | exact Hrest].
      * intros [Hk | [c' [[<- | Hin] [Hkeep Hname]]]];
          [now left | congruence | right; exists c'; auto].
Qed.

Lemma setByName_entries {V : Type} (value : Class.t -> V) (keep : Class.t -> bool)
  (classes : list Class.t) (acc : JsMap.t V) (k : string) (v : V) :
  In (k, v)
     (fold_left
        (fun m classInfo =>
           if keep classInfo
           then JsMap.set m (Class.name classInfo) (value classInfo)
           else m) classes acc) ->
  In (k, v) acc \/
  exists classInfo, In classInfo classes /\ keep classInfo = true /\
                    Class.name classInfo = k /\ v = value classInfo.
Proof.
  revert acc. induction classes as [| c classes IH]; intros acc;
    cbn [fold_left]; [tauto |].
  intros Hin. destruct (IH _ Hin) as [Hacc | [c' [Hc' Hrest]]].
  - destruct (keep c) eqn:Hc; [| now left].
    destruct (JsMap_entries_set _ _ _ _ _ Hacc) as [[-> ->] | Hold];
      [| now left].
    right. exists c. split; [now left | auto].
  - right. exists c'. split; [now right | exact Hrest].
Qed.

Lemma setByName_NoDup {V : Type} (value : Class.t -> V) (keep : Class.t -> bool)
  (classes : list Class.t) (acc : JsMap.t V) :
  List.NoDup (JsMap.keys acc) ->
  List.NoDup
    (JsMap.keys
       (fold_left
          (fun m classInfo =>
             if keep classInfo
             then JsMap.set m (Class.name classInfo) (value classInfo)
             else m) classes acc)).
Proof.
  apply (fold_left_preserves (fun m : JsMap.t V => List.NoDup (JsMap.keys m))).
  intros m c Hnd. destruct (keep c); [now apply JsMap_NoDup_set | exact Hnd].
Qed.

(** X17.  With a model set, [extractAllAttributes] has one entry for every
    class name of the model, whatever the module (no module is passed
    over), each key once; the entry under a name is what
    [extractClassAttributes] gives for a class of that name and carries the
    name as its [className]. *)
Theorem extractAllAttributes_entries (model : ConceptualModel.t) :
  let this := {| Attributes.conceptualModel := Some model |} in
  exists allAttributes,
    Attributes.extractAllAttributes this = inr allAttributes /\
    List.NoDup (JsMap.keys allAttributes) /\
    (forall name,
       In name (JsMap.keys allAttributes) <->
       exists module classInfo,
         In module (ConceptualModel.modules model) /\
         In classInfo (Module_.classes module) /\
         Class.name classInfo = name) /\
    (forall name result,
       In (name, result) allAttributes ->
       Attributes.ca_className result = name /\
       exists classInfo,
         In classInfo (Attributes.classesOf model) /\
         Class.name classInfo = name /\
         result = Attributes.extractClassAttributes this classInfo).
Proof.
  cbn zeta. eexists. split; [reflexivity |].
  set (this := {| Attributes.conceptualModel := Some model |}).
  pose proof (setByName_keys (Attributes.extractClassAttributes this)
                (fun _ => true) (Attributes.classesOf model) []) as Hkeys.
  pose proof (setByName_entries (Attributes.extractClassAttributes this)
                (fun _ => true) (Attributes.classesOf model) []) as Hentries.
  pose proof (setByName_NoDup (Attributes.extractClassAttributes this)
                (fun _ => true) (Attributes.classesOf model) []) as Hnd.
  cbn beta iota in Hkeys, Hentries, Hnd.
  split; [apply Hnd; constructor |]. split.
  - intros name. rewrite Hkeys. unfold Attributes.classesOf. split.
    + intros [[] | [classInfo [Hin [_ Hname]]]].
      apply in_flat_map in Hin. destruct Hin as [module [Hmodule Hclass]].
      exists module, classInfo. auto.
    + intros [module [classInfo [Hmodule [Hclass Hname]]]].
      right. exists classInfo. split; [| auto].
      apply in_flat_map. exists module. auto.
  - intros name result Hin. apply Hentries in Hin.
    destruct Hin as [[] | [classInfo [Hin [_ [Hname ->]]]]].
    split; [| exists classInfo; auto].
    rewrite <- Hname. apply extractClassAttributes_className.
Qed.

(** X18.  With a model set, [extractMetadataAttributes] has an entry for a
    class name exactly when some class of that name has an attribute with a
    metadata name; the entry is the non-empty list of the metadata
    attributes of such a class.  A class without metadata attributes gets no
    entry rather than an empty one. *)
Theorem extractMetadataAttributes_entries (model : ConceptualModel.t) :
  let this := {| Attributes.conceptualModel := Some model |} in
  exists metadataByClass,
    Attributes.extractMetadataAttributes this = inr metadataByClass /\
    (forall name,
       In name (JsMap.keys metadataByClass) <->
       exists classInfo attribute,
         In classInfo (Attributes.classesOf model) /\
         Class.name classInfo = name /\
         In attribute (Class.attributes classInfo) /\
         Attributes.isMetadataAttribute (Attribute.name attribute) = true) /\
    (forall name attributes,
       In (name, attributes) metadataByClass ->
       attributes <> [] /\
       exists classInfo,
         In classInfo (Attributes.classesOf model) /\
         Class.name classInfo = name /\
         attributes
         = List.filter
             (fun attribute =>
                Attributes.isMetadataAttribute (Attribute.name attribute))
             (Class.attributes classInfo)).
Proof.
  cbn zeta.
  set (metadataOf := fun classInfo : Class.t =>
         List.filter
           (fun attribute =>
              Attributes.isMetadataAttribute (Attribute.name attribute))
           (Class.attributes classInfo)).
  exists (fold_left
            (fun m classInfo =>
               if Nat.ltb 0 (List.length (metadataOf classInfo))
               then JsMap.set m (Class.name classInfo) (metadataOf classInfo)
               else m)
            (Attributes.classesOf model) []).
  split; [reflexivity |].
  pose proof (setByName_keys metadataOf
                (fun classInfo => Nat.ltb 0 (List.length (metadataOf classInfo)))
                (Attributes.classesOf model) []) as Hkeys.
  pose proof (setByName_entries metadataOf
                (fun classInfo => Nat.ltb 0 (List.length (metadataOf classInfo)))
                (Attributes.classesOf model) []) as Hentries.
  cbn beta in Hkeys, Hentries.
  assert (Hkeep : forall classInfo,
            Nat.ltb 0 (List.length (metadataOf classInfo)) = true <->
            exists attribute,
              In attribute (Class.attributes classInfo) /\
              Attributes.isMetadataAttribute (Attribute.name attribute) = true).
  { intros classInfo. rewrite Nat.ltb_lt. unfold metadataOf. split.
    - intros Hlen.
      destruct (List.filter _ (Class.attributes classInfo)) as [| a l] eqn:Hf;
        [cbn in Hlen; lia |].
      exists a.
      apply (filter_In
               (fun attribute =>
                  Attributes.isMetadataAttribute (Attribute.name attribute))).
      rewrite Hf. now left.
    - intros [a Ha].
      apply (filter_In
               (fun attribute =>
                  Attributes.isMetadataAttribute (Attribute.name attribute)))
        in Ha.
      destruct (List.filter _ (Class.attributes classInfo)); [destruct Ha |].
      cbn. lia. }
  split.
  - intros name. rewrite Hkeys. split.
    + intros [[] | [classInfo [Hin [Hkept Hname]]]].
      apply Hkeep in Hkept. destruct Hkept as [a [Ha Hmeta]].
      exists classInfo, a. auto.
    + intros [classInfo [a [Hin [Hname [Ha Hmeta]]]]].
      right. exists classInfo. split; [exact Hin |].
      split; [apply Hkeep; eauto | exact Hname].
  - intros name attributes Hin. apply Hentries in Hin.
    destruct Hin as [[] | [classInfo [Hin [Hkept [Hname ->]]]]].
    split; [| exists classInfo; auto].
    apply Nat.ltb_lt in Hkept. intros Hnil. rewrite Hnil in Hkept.
    cbn in Hkept. lia.
Qed.

End AttributeLookups.

(** ** Concept extractor: the shape of the model *)

Section ConceptShapes.
Context {np : NodePath}.

Lemma or_else_nonempty (a b : string) : b <> "" -> Js.or_else a b <> "".
Proof.
  intros Hb. unfold Js.or_else. destruct (Js.truthy a) eqn:Ha; [| exact Hb].
  now apply truthy_nonempty.
Qed.

Lemma stripPrefix_nonempty (x : string) :
  x <> "" -> Concepts.stripPrefix x <> "".
Proof. intros Hx. unfold Concepts.stripPrefix. now apply or_else_nonempty. Qed.

Lemma includes_append (a b sub : string) :
  Js.includes b sub = true -> Js.includes (a +:+ b) sub = true.
Proof.
  intros Hb. induction a as [| c a IH].
  - exact Hb.
  - change (String c a +:+ b) with (String c (a +:+ b)).
    cbn [Js.includes]. rewrite IH. apply orb_true_r.
Qed.

Lemma occursCardinality_dots (element : Dom.Located) :
  Js.includes (Concepts.occursCardinality element) ".." = true.
Proof.
  unfold Concepts.occursCardinality.
  destruct (String.eqb _ "unbounded"); apply includes_append.
  - reflexivity.
  - destruct (Js.or_else _ "1"); reflexivity.
Qed.

Lemma Forall_flat_map {A B : Type} (P : B -> Prop) (f : A -> list B)
  (l : list A) :
  (forall a, In a l -> Forall P (f a)) -> Forall P (flat_map f l).
Proof.
  intros Hf. induction l as [| a l IH]; cbn [flat_map]; [constructor |].
  apply List.Forall_app. split; [apply Hf; now left |].
  apply IH. intros a' Ha'. apply Hf. now right.
Qed.

Lemma extractAttributes_wellFormed (complexType : Dom.Located) :
  Forall wellFormedAttribute (Concepts.extractAttributes complexType).
Proof.
  unfold Concepts.extractAttributes. apply List.Forall_app.
  split; apply Forall_flat_map; intros element _.
  - unfold Concepts.attributeOfElement.
    destruct (Js.truthy (Dom.getAttribute (snd element) "name")) eqn:Hname;
      [| constructor].
    destruct (Js.truthy (Dom.getAttribute (snd element) "type")) eqn:Htype;
      [| constructor].
    cbn [andb]. constructor; [| constructor].
    apply truthy_nonempty in Hname, Htype.
    unfold wellFormedAttribute. cbn.
    repeat split; try discriminate; try assumption.
    + now apply stripPrefix_nonempty.
    + apply occursCardinality_dots.
  - unfold Concepts.attributeOfAttr.
    destruct (Js.truthy (Dom.getAttribute (snd element) "name")) eqn:Hname;
      [| constructor].
    destruct (Js.truthy (Dom.getAttribute (snd element) "type")) eqn:Htype;
      [| constructor].
    cbn [andb]. constructor; [| constructor].
    apply truthy_nonempty in Hname, Htype.
    unfold wellFormedAttribute. cbn.
    repeat split; try discriminate; try assumption.
    + now apply stripPrefix_nonempty.
    + destruct (String.eqb _ "required"); reflexivity.
Qed.

Lemma extractAssociations_wellFormed (complexType : Dom.Located) :
  Forall wellFormedAssociation (Concepts.extractAssociations complexType).
Proof.
  unfold Concepts.extractAssociations. apply Forall_flat_map.
  intros refElement _. unfold Concepts.associationOfRef.
  destruct (Js.truthy (Dom.getAttribute (snd refElement) "ref")) eqn:Href;
    [| constructor].
  constructor; [| constructor]. apply truthy_nonempty in Href.
  unfold wellFormedAssociation. cbn.
  repeat split.
  - now apply stripPrefix_nonempty.
  - apply occursCardinality_dots.
Qed.

Lemma extractClasses_wellFormed (doc : Dom.Document) (moduleName : string) :
  Forall (wellFormedClass moduleName) (Concepts.extractClasses doc moduleName).
Proof.
  unfold Concepts.extractClasses. apply Forall_flat_map.
  intros complexType _. unfold Concepts.classOfComplexType.
  destruct (Js.truthy (Dom.getAttribute (snd complexType) "name")) eqn:Hname;
    [| constructor].
  constructor; [| constructor]. apply truthy_nonempty in Hname.
  unfold wellFormedClass. cbn.
  split; [exact Hname |]. split; [reflexivity |].
  split; [apply extractAttributes_wellFormed |].
  split; [eexists; split; [reflexivity | apply extractAssociations_wellFormed] |].
  split; [| split; [| discriminate]].
  - eexists. split; [reflexivity |].
    unfold Concepts.extractConstraints. apply Forall_flat_map.
    intros annotation _. apply Forall_flat_map. intros documentation _.
    unfold Concepts.constraintOfDocumentation.
    destruct (_ || _); repeat constructor.
  - eexists. split; [reflexivity |].
    unfold Concepts.extractSuperClasses. apply Forall_flat_map.
    intros extension _. unfold Concepts.superClassOfExtension.
    destruct (Js.truthy (Dom.getAttribute (snd extension) "base")) eqn:Hbase;
      [| constructor].
    constructor; [| constructor]. apply truthy_nonempty in Hbase.
    now apply stripPrefix_nonempty.
Qed.

Lemma moduleOfDocument_wellFormed (moduleName : string)
  (schemaElement : Dom.Located) (moduleXsdDoc : Dom.Document) :
  wellFormedModule
    (Concepts.moduleOfDocument moduleName schemaElement moduleXsdDoc).
Proof.
  unfold wellFormedModule, Concepts.moduleOfDocument. cbn.
  split; [apply extractClasses_wellFormed |].
  split; [| split; [| discriminate]].
  - eexists. split; [reflexivity |].
    unfold Concepts.extractCodelists. apply Forall_flat_map.
    intros simpleType _. unfold Concepts.codelistOfSimpleType.
    destruct (Js.truthy (Dom.getAttribute (snd simpleType) "name")) eqn:Hname;
      [| constructor].
    destruct (Js.endsWith (Dom.getAttribute (snd simpleType) "name") "EnumBase")
      eqn:Hends; [constructor |].
    constructor; [| constructor]. apply truthy_nonempty in Hname. cbn. auto.
  - eexists. split; [reflexivity |].
    unfold Concepts.extractEnumerations. apply Forall_flat_map.
    intros simpleType Hin. apply filter_In in Hin. destruct Hin as [_ Hincl].
    unfold Concepts.enumerationOfSimpleType.
    destruct (Js.truthy (Dom.getAttribute (snd simpleType) "name"));
      [| constructor].
    constructor; [| constructor]. exact Hincl.
Qed.

Lemma processImport_wellFormed (fs : FileSystem) (this : Concepts.ConceptExtractor)
  (importEl : Dom.Located) :
  Forall wellFormedModule
    (ConceptualModel.modules (Concepts.conceptModel this)) ->
  Forall wellFormedModule
    (ConceptualModel.modules
       (Concepts.conceptModel (Concepts.processImport fs this importEl))).
Proof.
  intros Hthis. unfold Concepts.processImport, Concepts.processModuleFile.
  destruct (Js.truthy _); [| exact Hthis].
  destruct (fs _) as [moduleXsdDoc |]; [| exact Hthis].
  destruct (Dom.selectDoc "xs:schema" moduleXsdDoc) as [| schemaElement rest];
    [exact Hthis |].
  cbn. apply List.Forall_app. split; [exact Hthis |].
  constructor; [| constructor]. apply moduleOfDocument_wellFormed.
Qed.

(** X19.  Every module of the model that [extractAllModules] returns on a
    new extractor is well formed: each class has a non-empty name and
    carries the name of its module; each attribute has a non-empty name and
    type and a cardinality with [..]; each association is named after its
    target; the optional lists (associations, constraints, superclasses,
    code lists, enumerations, dependencies) are always present; no code
    list name ends in [EnumBase] and every enumeration name contains it. *)
Theorem extractAllModules_wellFormed (fs : FileSystem) (basePath : string)
  (model : ConceptualModel.t) (this' : Concepts.ConceptExtractor) :
  Concepts.extractAllModules fs (Concepts.new basePath) = (inr model, this') ->
  Forall wellFormedModule (ConceptualModel.modules model).
Proof.
  unfold Concepts.extractAllModules.
  destruct (fs _) as [mainXsdDoc |]; [| discriminate].
  intros Heq. inversion Heq as [[Hmodel Hthis]]. clear Heq Hthis.
  apply (fold_left_preserves
           (fun this => Forall wellFormedModule
                          (ConceptualModel.modules (Concepts.conceptModel this)))).
  - intros this importEl. apply processImport_wellFormed.
  - constructor.
Qed.

End ConceptShapes.

(** ** From the schema to the cardinality summary *)

Section CardinalityRoundTrip.

Lemma append_one_char (cur : string) (c : ascii) (s : string) :
  (cur +:+ String c "") +:+ s = cur +:+ String c s.
Proof.
  induction cur as [| a cur IH]; [reflexivity |].
  change (String a cur +:+ String c "") with (String a (cur +:+ String c "")).
  change (String a (cur +:+ String c "") +:+ s)
    with (String a ((cur +:+ String c "") +:+ s)).
  now rewrite IH.
Qed.

Lemma append_empty (cur : string) : cur +:+ "" = cur.
Proof.
  induction cur as [| a cur IH]; [reflexivity |].
  change (String a cur +:+ "") with (String a (cur +:+ "")). now rewrite IH.
Qed.

Lemma split_go_noDot (cur s : string) :
  noDot s = true -> Js.split_go ".." 0 cur s = [cur +:+ s].
Proof.
  revert cur. induction s as [| c s IH]; intros cur Hs; cbn [Js.split_go].
  - now rewrite append_empty.
  - unfold noDot in Hs. cbn [list_ascii_of_string forallb] in Hs.
    apply andb_true_iff in Hs. destruct Hs as [Hc Hs].
    cbn [Js.startsWith]. apply negb_true_iff in Hc. rewrite Hc. cbn [andb].
    rewrite (IH _ Hs). now rewrite append_one_char.
Qed.

Lemma split_go_dots (cur m rest : string) :
  noDot m = true ->
  Js.split_go ".." 0 cur (m +:+ ".." +:+ rest)
  = (cur +:+ m) :: Js.split_go ".." 0 "" rest.
Proof.
  revert cur. induction m as [| c m IH]; intros cur Hm.
  - change ("" +:+ ".." +:+ rest) with (String "." (String "." rest)).
    cbn. now rewrite append_empty.
  - change (String c m +:+ ".." +:+ rest) with (String c (m +:+ ".." +:+ rest)).
    unfold noDot in Hm. cbn [list_ascii_of_string forallb] in Hm.
    apply andb_true_iff in Hm. destruct Hm as [Hc Hm].
    cbn [Js.split_go Js.startsWith]. apply negb_true_iff in Hc. rewrite Hc.
    cbn [andb]. rewrite (IH _ Hm). now rewrite append_one_char.
Qed.

Lemma maxSegment_dots (minOccurs maxOccurs : string) :
  noDot minOccurs = true -> noDot maxOccurs = true ->
  Attributes.maxSegment (minOccurs +:+ ".." +:+ maxOccurs) = Some maxOccurs.
Proof.
  intros Hmin Hmax. unfold Attributes.maxSegment, Js.split.
  rewrite (split_go_dots "" minOccurs maxOccurs Hmin).
  now rewrite (split_go_noDot "" maxOccurs Hmax).
Qed.

(** X20.  The cardinality string that the concept extractor writes for an
    element is read back by the attribute extractor: when neither
    [minOccurs] nor [maxOccurs] holds a full stop, the attribute is found
    multi-valued exactly when [maxOccurs] is [unbounded], is [*], or parses
    to a number above 1, and it is tested as required on the first
    character of [minOccurs] (1 when the element has none). *)
Theorem element_cardinality_round_trip (element : Dom.Located) :
  let minOccurs := Js.or_else (Dom.getAttribute (snd element) "minOccurs") "1" in
  let maxOccurs := Js.or_else (Dom.getAttribute (snd element) "maxOccurs") "1" in
  noDot minOccurs = true ->
  noDot maxOccurs = true ->
  Attributes.maxSegment (Concepts.occursCardinality element)
  = Some (if String.eqb maxOccurs "unbounded" then "*" else maxOccurs) /\
  Attributes.isMultiValuedCardinality (Concepts.occursCardinality element)
  = (String.eqb maxOccurs "unbounded" || String.eqb maxOccurs "*" ||
     Js.gt1 (Js.parseInt maxOccurs)) /\
  Attributes.isRequiredCardinality (Concepts.occursCardinality element)
  = Attributes.isRequiredCardinality minOccurs.
Proof.
  cbn zeta. intros Hmin Hmax.
  assert (Hsegment :
            Attributes.maxSegment (Concepts.occursCardinality element)
            = Some (if String.eqb
                         (Js.or_else (Dom.getAttribute (snd element) "maxOccurs") "1")
                         "unbounded"
                    then "*"
                    else Js.or_else (Dom.getAttribute (snd element) "maxOccurs") "1")).
  { unfold Concepts.occursCardinality.
    destruct (String.eqb _ "unbounded").
    - change "..*" with (".." +:+ "*"). now apply maxSegment_dots.
    - now apply maxSegment_dots. }
  split; [exact Hsegment |].
  assert (Hmin1 : Js.or_else (Dom.getAttribute (snd element) "minOccurs") "1" <> "")
    by (apply or_else_nonempty; discriminate).
  assert (Hmax1 : Js.or_else (Dom.getAttribute (snd element) "maxOccurs") "1" <> "")
    by (apply or_else_nonempty; discriminate).
  split.
  - unfold Attributes.isMultiValuedCardinality. rewrite Hsegment.
    destruct (String.eqb_spec
                (Js.or_else (Dom.getAttribute (snd element) "maxOccurs") "1")
                "unbounded") as [Hunbounded | Hbounded].
    + reflexivity.
    + apply truthy_nonempty in Hmax1. rewrite Hmax1. reflexivity.
  - unfold Concepts.occursCardinality, Attributes.isRequiredCardinality.
    destruct (Js.or_else (Dom.getAttribute (snd element) "minOccurs") "1")
      as [| c rest]; [contradiction |].
    destruct (String.eqb _ "unbounded");
      match goal with
      | |- context [String c rest +:+ ?tail] =>
          change (String c rest +:+ tail) with (String c (rest +:+ tail))
      end;
      reflexivity.
Qed.

(** X21.  An attribute that the concept extractor reads off an
    [xs:attribute] is filed by the cardinality analysis as required exactly
    when its [use] is [required] and as optional otherwise, and is never
    multi-valued. *)
Theorem xsd_attribute_cardinality (attrElement : Dom.Located)
  (attribute : Attribute.t) :
  In attribute (Concepts.attributeOfAttr attrElement) ->
  let required :=
    String.eqb (Dom.getAttribute (snd attrElement) "use") "required" in
  Attributes.isRequiredCardinality (Attribute.cardinality attribute) = required /\
  Attributes.isOptionalCardinality (Attribute.cardinality attribute)
  = negb required /\
  Attributes.isMultiValuedCardinality (Attribute.cardinality attribute) = false.
Proof.
  unfold Concepts.attributeOfAttr.
  destruct (_ && _); [| intros []].
  intros [<- | []]. cbn zeta. cbn [Attribute.cardinality].
  destruct (String.eqb _ "required"); repeat split; vm_compute; reflexivity.
Qed.

End CardinalityRoundTrip.

(** ** Object extractor: thematic, geometry and LOD views of a class *)

Section ObjectAttributeViews.

(** X22.  The three views that the object extractor takes of the
    attributes of a class keep apart: a thematic attribute has neither a
    geometry type nor a LOD name, so its name is never the name of a LOD
    attribute and its type never the type of a geometry property; an
    attribute is left out of all three views exactly when its name matches
    the LOD pattern without a level, its type being no geometry type. *)
Theorem thematic_apart_from_geometry_and_lod (classInfo : Class.t) :
  (forall thematic,
     In thematic (Objects.extractThematicAttributes classInfo) ->
     Objects.isGeometryType (Objects.ta_type thematic) = false /\
     Objects.hasLodName (Objects.ta_name thematic) = false /\
     ~ In (Objects.ta_name thematic)
          (map Objects.la_name
             (Objects.lodAttributes (Objects.extractLodInfo classInfo))) /\
     ~ In (Objects.ta_type thematic)
          (map Objects.gp_type (Objects.extractGeometryProperties classInfo))) /\
  (forall attribute,
     In attribute (Class.attributes classInfo) ->
     (~ In (Attribute.name attribute)
           (map Objects.ta_name (Objects.extractThematicAttributes classInfo)) /\
      ~ In (Attribute.type attribute)
           (map Objects.gp_type (Objects.extractGeometryProperties classInfo)) /\
      ~ In (Attribute.name attribute)
           (map Objects.la_name
              (Objects.lodAttributes (Objects.extractLodInfo classInfo)))) <->
     (Objects.isGeometryType (Attribute.type attribute) = false /\
      Objects.hasLodName (Attribute.name attribute) = true /\
      Objects.extractLodLevel (Attribute.name attribute) = (-1)%Z)).
Proof.
  assert (Hthematic : forall thematic,
            In thematic (Objects.extractThematicAttributes classInfo) ->
            Objects.isGeometryType (Objects.ta_type thematic) = false /\
            Objects.hasLodName (Objects.ta_name thematic) = false).
  { intros thematic Hin. unfold Objects.extractThematicAttributes in Hin.
    apply in_flat_map in Hin. destruct Hin as [a [_ Hin]].
    destruct (Objects.isGeometryType (Attribute.type a)) eqn:Hg;
      [destruct Hin |].
    destruct (Objects.hasLodName (Attribute.name a)) eqn:Hl; [destruct Hin |].
    destruct Hin as [<- | []]. cbn. auto. }
  assert (Hgeometry : forall property,
            In property (Objects.extractGeometryProperties classInfo) ->
            Objects.isGeometryType (Objects.gp_type property) = true).
  { intros property Hin. unfold Objects.extractGeometryProperties in Hin.
    apply in_app_or in Hin.
    destruct Hin as [Hin | Hin]; apply in_flat_map in Hin;
      destruct Hin as [a [_ Hin]].
    - destruct (Objects.isGeometryType (Attribute.type a)) eqn:Hg;
        [| destruct Hin].
      destruct Hin as [<- | []]. exact Hg.
    - destruct (Objects.isGeometryType (Association.target a)) eqn:Hg;
        [| destruct Hin].
      destruct Hin as [<- | []]. exact Hg. }
  pose proof (extractLodInfo_lodSummary classInfo) as Hsummary.
  pose proof (extractLodInfo_sources classInfo) as Hsource.
  split.
  - intros thematic Hin. destruct (Hthematic thematic Hin) as [Hg Hl].
    split; [exact Hg |]. split; [exact Hl |]. split.
    + intros Hname. apply in_map_iff in Hname.
      destruct Hname as [entry [Heq Hentry]].
      rewrite List.Forall_forall in Hsource.
      destruct (Hsource entry Hentry) as [Hlod _]. congruence.
    + intros Htype. apply in_map_iff in Htype.
      destruct Htype as [property [Heq Hproperty]].
      specialize (Hgeometry property Hproperty). congruence.
  - intros attribute Hin. split.
    2: { intros [Hg [Hl Hlevel]]. split; [| split].
         - intros Hname. apply in_map_iff in Hname.
           destruct Hname as [thematic [Heq Hthere]].
           destruct (Hthematic thematic Hthere) as [_ Hno]. congruence.
         - intros Htype. apply in_map_iff in Htype.
           destruct Htype as [property [Heq Hthere]].
           specialize (Hgeometry property Hthere). congruence.
         - intros Hname. apply in_map_iff in Hname.
           destruct Hname as [entry [Heq Hthere]].
           rewrite List.Forall_forall in Hsource.
           destruct (Hsource entry Hthere) as [_ [Hentry _]].
           destruct Hsummary as [Hdigits _].
           rewrite List.Forall_forall in Hdigits.
           assert (Hrange : (0 <= Objects.la_level entry <= 9)%Z)
             by (apply Hdigits, in_map_iff; eauto).
           rewrite Hentry, Heq, Hlevel in Hrange. lia. }
    intros [Hnot_thematic [Hnot_geometry Hnot_lod]].
    destruct (Objects.isGeometryType (Attribute.type attribute)) eqn:Hg.
    { exfalso. apply Hnot_geometry. apply in_map_iff.
      exists {| Objects.gp_name := Attribute.name attribute;
                Objects.gp_type := Attribute.type attribute;
                Objects.gp_cardinality := Attribute.cardinality attribute;
                Objects.gp_role := None |}.
      split; [reflexivity |].
      unfold Objects.extractGeometryProperties. apply in_or_app. left.
      apply in_flat_map. exists attribute. split; [exact Hin |].
      rewrite Hg. now left. }
    destruct (Objects.hasLodName (Attribute.name attribute)) eqn:Hl.
    2: { exfalso. apply Hnot_thematic. apply in_map_iff.
         exists {| Objects.ta_name := Attribute.name attribute;
                   Objects.ta_type := Attribute.type attribute;
                   Objects.ta_cardinality := Attribute.cardinality attribute |}.
         split; [reflexivity |].
         unfold Objects.extractThematicAttributes.
         apply in_flat_map. exists attribute. split; [exact Hin |].
         rewrite Hg, Hl. now left. }
    split; [reflexivity |]. split; [reflexivity |].
    destruct (extractLodLevel_range (Attribute.name attribute))
      as [Hnone | Hlevel]; [exact Hnone |].
    exfalso. apply Hnot_lod.
    assert (Hnoted : forall name type role info,
              Objects.hasLodName name = true ->
              (0 <= Objects.extractLodLevel name)%Z ->
              In name (map Objects.la_name
                         (Objects.lodAttributes
                            (Objects.noteLod name type role info)))).
    { intros name type role info Hname Hrange. unfold Objects.noteLod.
      rewrite Hname.
      destruct (Z.ltb_spec (-1) (Objects.extractLodLevel name)); [| lia].
      cbn [Objects.lodAttributes]. rewrite map_app. apply in_or_app.
      right. now left. }
    assert (Hkept : forall name name' type role info,
              In name (map Objects.la_name (Objects.lodAttributes info)) ->
              In name (map Objects.la_name
                         (Objects.lodAttributes
                            (Objects.noteLod name' type role info)))).
    { intros name name' type role info Hname. unfold Objects.noteLod.
      destruct (Objects.hasLodName name'); [| exact Hname].
      destruct (_ <? _)%Z; [| exact Hname].
      cbn [Objects.lodAttributes]. rewrite map_app. apply in_or_app. now left. }
    unfold Objects.extractLodInfo.
    apply (fold_left_preserves
             (fun info => In (Attribute.name attribute)
                            (map Objects.la_name (Objects.lodAttributes info)))).
    { intros info association. apply Hkept. }
    revert Hin. generalize (Class.attributes classInfo).
    generalize {| Objects.maxLod := 0; Objects.minLod := 0;
                  Objects.lodAttributes := [] |}.
    intros info attributes. revert info.
    induction attributes as [| a attributes IH]; intros info Hin;
      [destruct Hin |].
    cbn [fold_left]. destruct Hin as [-> | Hin]; [| now apply IH].
    apply (fold_left_preserves
             (fun info => In (Attribute.name attribute)
                            (map Objects.la_name (Objects.lodAttributes info)))).
    + intros info' a'. apply Hkept.
    + apply Hnoted; [exact Hl | lia].
Qed.

End ObjectAttributeViews.

(** ** Attribute extractor: constraints by kind *)

Section AttributeConstraints.

Lemma fileConstraint_right (classInfo : Class.t)
  (summary : Attributes.ConstraintsSummary) (constraint : Constraint.t) :
  constraintsFiledRight summary ->
  constraintsFiledRight (Attributes.fileConstraint classInfo summary constraint).
Proof.
  intros [Hvalue [Htype Hreferential]].
  unfold Attributes.fileConstraint, constraintsFiledRight.
  destruct (Attributes.isValueConstraint _) eqn:Hv;
    [| destruct (Attributes.isTypeConstraint _) eqn:Ht;
       [| destruct (Attributes.isReferentialConstraint _) eqn:Hr]];
    cbn [Attributes.valueConstraints Attributes.typeConstraints
         Attributes.referentialConstraints];
    repeat split; try assumption;
    apply List.Forall_app; (split; [assumption |]);
    (constructor; [| constructor]); cbn; auto.
Qed.

Lemma fileConstraint_count (classInfo : Class.t)
  (summary : Attributes.ConstraintsSummary) (constraint : Constraint.t) :
  let desc := Js.toLowerCase (Constraint.description constraint) in
  constraintsFiled (Attributes.fileConstraint classInfo summary constraint)
  = (constraintsFiled summary +
     if Attributes.isValueConstraint desc || Attributes.isTypeConstraint desc ||
        Attributes.isReferentialConstraint desc
     then 1 else 0)%nat.
Proof.
  cbn zeta. unfold Attributes.fileConstraint, constraintsFiled.
  destruct (Attributes.isValueConstraint _);
    [| destruct (Attributes.isTypeConstraint _);
       [| destruct (Attributes.isReferentialConstraint _)]];
    cbn [Attributes.valueConstraints Attributes.typeConstraints
         Attributes.referentialConstraints orb];
    rewrite ?length_app; cbn [List.length]; lia.
Qed.

Lemma fold_fileConstraint_count (classInfo : Class.t)
  (constraints : list Constraint.t) (summary : Attributes.ConstraintsSummary) :
  constraintsFiled
    (fold_left (Attributes.fileConstraint classInfo) constraints summary)
  = (constraintsFiled summary +
     List.length (List.filter isFiledConstraint constraints))%nat.
Proof.
  revert summary. induction constraints as [| c constraints IH]; intros summary;
    cbn [fold_left List.filter]; [cbn; lia |].
  rewrite IH, fileConstraint_count. unfold isFiledConstraint at 2.
  destruct (_ || _); cbn [List.length]; lia.
Qed.

(** X23.  With a model set, [analyzeAttributeConstraints] files a
    constraint under at most one kind, by the first of the three tests on
    its lower-cased description that holds (value, then type, then
    reference); a constraint whose description holds none of the seven
    phrases is filed nowhere, so the three lists together hold as many
    entries as there are constraints with such a phrase. *)
Theorem analyzeAttributeConstraints_summary (model : ConceptualModel.t) :
  exists summary,
    Attributes.analyzeAttributeConstraints
      {| Attributes.conceptualModel := Some model |} = inr summary /\
    constraintsFiledRight summary /\
    constraintsFiled summary
    = List.length (List.filter isFiledConstraint (constraintsOf model)).
Proof.
  eexists. split; [reflexivity |]. split.
  - apply (fold_left_preserves constraintsFiledRight).
    + intros summary classInfo Hsummary.
      apply (fold_left_preserves constraintsFiledRight); [| exact Hsummary].
      intros summary' constraint. apply fileConstraint_right.
    + repeat split; constructor.
  - unfold constraintsOf.
    generalize (Attributes.classesOf model).
    assert (Hstart : constraintsFiled
                       {| Attributes.valueConstraints := [];
                          Attributes.typeConstraints := [];
                          Attributes.referentialConstraints := [] |} = 0%nat)
      by reflexivity.
    revert Hstart.
    generalize {| Attributes.valueConstraints := [];
                  Attributes.typeConstraints := [];
                  Attributes.referentialConstraints := [] |}.
    intros summary Hsummary classes.
    assert (Hcount : forall classes summary,
              constraintsFiled
                (fold_left
                   (fun summary classInfo =>
                      fold_left (Attributes.fileConstraint classInfo)
                        (default [] (Class.constraints classInfo)) summary)
                   classes summary)
              = (constraintsFiled summary +
                 List.length
                   (List.filter isFiledConstraint
                      (flat_map
                         (fun classInfo => default [] (Class.constraints classInfo))
                         classes)))%nat).
    { clear. induction classes as [| c classes IH]; intros summary;
        cbn [fold_left flat_map]; [cbn; lia |].
      rewrite IH, fold_fileConstraint_count, List.filter_app, length_app. lia. }
    rewrite Hcount, Hsummary. reflexivity.
Qed.

End AttributeConstraints.

(** ** Context builder: symmetry of the relevance score *)

Section RelevanceSymmetry.

Lemma common_length (l1 l2 : list string) :
  List.NoDup l1 -> List.NoDup l2 ->
  List.length (List.filter (fun w => Js.arr_includes l2 w) l1)
  = List.length (List.filter (fun w => Js.arr_includes l1 w) l2).
Proof.
  intros Hnd1 Hnd2. apply Permutation.Permutation_length.
  apply Permutation.NoDup_Permutation.
  - now apply List.NoDup_filter.
  - now apply List.NoDup_filter.
  - intros w. rewrite !filter_In, !arr_includes_In. tauto.
Qed.

(** X24.  [calculateRelevance] gives the same score whichever way round the
    two strings are passed, provided neither repeats a token; the equality
    and containment branches are symmetric outright. *)
Theorem calculateRelevance_symmetric (s t : string) :
  List.NoDup (words s) -> List.NoDup (words t) ->
  Context.calculateRelevance s t = Context.calculateRelevance t s.
Proof.
  intros Hs Ht. unfold Context.calculateRelevance.
  fold (words s). fold (words t).
  rewrite (String.eqb_sym (Js.toLowerCase t) (Js.toLowerCase s)).
  destruct (String.eqb (Js.toLowerCase s) (Js.toLowerCase t)); [reflexivity |].
  rewrite (orb_comm (Js.includes (Js.toLowerCase t) (Js.toLowerCase s))).
  destruct (_ || _); [reflexivity |].
  rewrite (orb_comm (Nat.eqb (List.length (words t)) 0)).
  destruct (_ || _); [reflexivity |].
  rewrite (common_length (words s) (words t) Hs Ht).
  replace (Z.of_nat (List.length (words s)) + Z.of_nat (List.length (words t)))%Z
    with (Z.of_nat (List.length (words t)) + Z.of_nat (List.length (words s)))%Z
    by lia.
  reflexivity.
Qed.

(** With a repeated token the score depends on the order of the two
    strings: 3/2 one way round and 1/4 the other. *)
Example calculateRelevance_order_matters :
  Context.calculateRelevance "ab ab ab" "ab cd" = (3 # 2)%Q /\
  Context.calculateRelevance "ab cd" "ab ab ab" = (1 # 4)%Q.
Proof. split; vm_compute; reflexivity. Qed.

End RelevanceSymmetry.

(** ** The further properties at the sample inputs *)

(** The sample batch with the missing file added gives what it gives
    without it. *)
Lemma extractRelationships_skips_file_witness :
  skippedFile Samples.files "xsds/missing.xsd" /\
  Relationships.extractRelationships (np := Samples.posixPath) Samples.files
    Samples.sampleExtractor (["xsds/building.xsd"] ++ ["xsds/missing.xsd"])
  = Relationships.extractRelationships (np := Samples.posixPath) Samples.files
      Samples.sampleExtractor (["xsds/building.xsd"] ++ []).
Proof.
  assert (Hskip : skippedFile Samples.files "xsds/missing.xsd")
    by (vm_compute; exact I).
  split; [exact Hskip |].
  exact (extractRelationships_skips_file (np := Samples.posixPath) Samples.files
           Samples.sampleExtractor ["xsds/building.xsd"] [] "xsds/missing.xsd"
           Hskip).
Defined.

(** The composition edge of the sample run has the shape of its kind. *)
Lemma extracted_edges_shape_witness :
  Samples.sampleRelationships
    !! "composition_BuildingType_buildingPart_BuildingPartPropertyType"
  = Some Samples.buildingPartComposition /\
  wellShaped Samples.buildingPartComposition.
Proof.
  assert (Hlookup : Samples.sampleRelationships
                      !! "composition_BuildingType_buildingPart_BuildingPartPropertyType"
                    = Some Samples.buildingPartComposition)
    by (vm_compute; reflexivity).
  split; [exact Hlookup |].
  exact (extracted_edges_shape (np := Samples.posixPath) Samples.files
           Samples.sampleExtractor (snd Samples.sampleRun) ["xsds/building.xsd"]
           Samples.sampleRelationships _ _ sampleRun_returns Hlookup).
Defined.

(** The generalization edge of the sample run is filed many-to-one. *)
Lemma multiplicity_summary_of_run_witness :
  In Samples.buildingGeneralization
     (Relationships.getRelationshipsArray (snd Samples.sampleRun)) /\
  In Samples.buildingGeneralization
     (Relationships.manyToOne
        (Relationships.analyzeRelationshipMultiplicity (snd Samples.sampleRun))).
Proof.
  assert (Hin : In Samples.buildingGeneralization
                  (Relationships.getRelationshipsArray (snd Samples.sampleRun))).
  { assert (Hlookup : Relationships.relationships (snd Samples.sampleRun)
                        !! "generalization_BuildingType_AbstractBuildingType"
                      = Some Samples.buildingGeneralization)
      by (vm_compute; reflexivity).
    exact (proj2 (getRelationshipsArray_In (snd Samples.sampleRun)
                    Samples.buildingGeneralization)
             (ex_intro _ _ Hlookup)). }
  split; [exact Hin |].
  destruct (multiplicity_summary_of_run (np := Samples.posixPath) Samples.files
              Samples.sampleExtractor (snd Samples.sampleRun)
              ["xsds/building.xsd"] Samples.sampleRelationships
              Samples.buildingGeneralization sampleRun_returns Hin)
    as [Hmany _].
  apply Hmany. reflexivity.
Defined.

(** The sample run holds no temporal and no thematic relationship. *)
Lemma countRelationshipsByType_of_run_witness :
  Relationships.countRelationshipsByType (snd Samples.sampleRun)
    RelationshipType.TEMPORAL = 0%nat /\
  Relationships.countRelationshipsByType (snd Samples.sampleRun)
    RelationshipType.THEMATIC = 0%nat.
Proof.
  destruct (countRelationshipsByType_of_run (np := Samples.posixPath)
              Samples.files Samples.sampleExtractor (snd Samples.sampleRun)
              ["xsds/building.xsd"] Samples.sampleRelationships
              sampleRun_returns) as [_ [Htemporal [Hthematic _]]].
  split; [exact Htemporal | exact Hthematic].
Defined.

(** The children of [AbstractBuilding] in the sample mapping. *)
Lemma children_are_the_subclasses_witness :
  In Samples.abstractBuildingEntry Samples.sampleHierarchy /\
  Objects.children (snd Samples.abstractBuildingEntry)
  = Some ["Building"; "BuildingPart"].
Proof.
  assert (Hin : In Samples.abstractBuildingEntry Samples.sampleHierarchy)
    by (left; reflexivity).
  split; [exact Hin |].
  destruct (children_are_the_subclasses
              {| Objects.conceptualModel := Some Samples.buildingModel |}
              Samples.sampleHierarchy "AbstractBuilding"
              (snd Samples.abstractBuildingEntry) eq_refl Hin) as [Hchildren _].
  rewrite Hchildren. reflexivity.
Defined.

(** The entry [Building] of the sample mapping comes from a class of the
    module [building]. *)
Lemma extractAllCityObjects_entries_witness :
  exists module classInfo,
    In module (ConceptualModel.modules Samples.buildingModel) /\
    Module_.name module = "building" /\
    In classInfo (Module_.classes module) /\
    builtFrom module classInfo (snd Samples.buildingEntry).
Proof.
  destruct (extractAllCityObjects_entries
              {| Objects.conceptualModel := Some Samples.buildingModel |}
              Samples.sampleHierarchy "Building" (snd Samples.buildingEntry)
              eq_refl (or_intror (or_introl eq_refl)))
    as [model [module [classInfo [Hmodel [Hmodule [_ [Hclass [_ [_ Hbuilt]]]]]]]]].
  injection Hmodel as <-.
  exists module, classInfo. split; [exact Hmodule |].
  split; [| split; [exact Hclass | exact Hbuilt]].
  destruct Hmodule as [<- | []]. reflexivity.
Defined.

(** The key [BuildingPart] of the sample mapping is filed under a module of
    the sample classification. *)
Lemma classifyObjectsByModule_covers_witness :
  List.NoDup (map Module_.name (ConceptualModel.modules Samples.buildingModel)) /\
  In "BuildingPart" (JsMap.keys Samples.sampleHierarchy) /\
  exists m names,
    In (m, names) Samples.sampleClassification /\ In "BuildingPart" names.
Proof.
  assert (Hnd : List.NoDup
                  (map Module_.name
                     (ConceptualModel.modules Samples.buildingModel)))
    by (constructor; [intros [] | constructor]).
  assert (Hkey : In "BuildingPart" (JsMap.keys Samples.sampleHierarchy))
    by (right; right; left; reflexivity).
  split; [exact Hnd |]. split; [exact Hkey |].
  destruct (classifyObjectsByModule_covers Samples.buildingModel
              Samples.sampleClassification Samples.sampleHierarchy
              eq_refl eq_refl) as [_ Hcovers].
  exact (Hcovers Hnd "BuildingPart" Hkey).
Defined.

(** The model read off the sample files is well formed. *)
Lemma extractAllModules_wellFormed_witness :
  Forall wellFormedModule (ConceptualModel.modules Samples.extractedModel).
Proof.
  apply (extractAllModules_wellFormed (np := Samples.posixPath) Samples.files
           "xsds" Samples.extractedModel Samples.extractedConcepts).
  vm_compute. reflexivity.
Defined.

(** The schema attribute [usage] is required. *)
Lemma xsd_attribute_cardinality_witness :
  In Samples.usageConceptAttribute
     (Concepts.attributeOfAttr Samples.usageAttribute) /\
  Attributes.isRequiredCardinality
    (Attribute.cardinality Samples.usageConceptAttribute) = true.
Proof.
  assert (Hin : In Samples.usageConceptAttribute
                  (Concepts.attributeOfAttr Samples.usageAttribute))
    by (left; reflexivity).
  split; [exact Hin |].
  destruct (xsd_attribute_cardinality Samples.usageAttribute
              Samples.usageConceptAttribute Hin) as [Hrequired _].
  rewrite Hrequired. reflexivity.
Defined.

(** The element [buildingPart], 0..unbounded, is read back as multi-valued. *)
Lemma element_cardinality_round_trip_witness :
  Attributes.maxSegment (Concepts.occursCardinality Samples.buildingPartElement)
  = Some "*" /\
  Attributes.isMultiValuedCardinality
    (Concepts.occursCardinality Samples.buildingPartElement) = true.
Proof.
  destruct (element_cardinality_round_trip Samples.buildingPartElement
              eq_refl eq_refl) as [Hsegment [Hmulti _]].
  split; [rewrite Hsegment | rewrite Hmulti]; reflexivity.
Defined.

(** Two strings without a repeated token. *)
Lemma calculateRelevance_symmetric_witness :
  Context.calculateRelevance "roof surface" "wall surface"
  = Context.calculateRelevance "wall surface" "roof surface".
Proof.
  apply calculateRelevance_symmetric.
  - change (List.NoDup ["roof"; "surface"]).
    constructor; [intros [H | []]; discriminate H |].
    constructor; [intros [] | constructor].
  - change (List.NoDup ["wall"; "surface"]).
    constructor; [intros [H | []]; discriminate H |].
    constructor; [intros [] | constructor].
Defined.
